(** * The direct DAG scheduler of the hipSYCL / AdaptiveCpp runtime

    A shallow embedding of [src/runtime/dag_direct_scheduler.cpp] (and of the
    two lookup stubs of [src/runtime/ze/ze_backend.cpp] it can reach), with
    the properties the specification states about it.

    The scheduler is imperative code over shared objects: DAG nodes reached
    through [dag_node_ptr], data regions reached through
    [get_data_region()], the process-wide error sink, the executors and the
    registry of submitted nodes.  The embedding keeps one explicit store for
    each of them and threads it through a small state monad whose only
    failure is the abnormal termination of the process (a failed [assert] or
    a call through a null pointer). *)

From Stdlib Require Import List Bool Arith NArith ZArith Lia String.
From Stdlib Require Import Sorting.Mergesort Sorting.Sorted Sorting.Permutation.
Import ListNotations.

Set Implicit Arguments.

(** ** Identifiers, devices, rectangles *)

Definition node_id := nat.       (* the address held by a [dag_node_ptr] *)
Definition region_id := nat.     (* the address of a data region *)
Definition executor_id := nat.   (* a live [backend_executor] *)
Definition allocator_id := nat.  (* a live [backend_allocator] *)

(** A [void*]: an address, [0] being [nullptr]. *)
Definition ptr := N.
Definition nullptr : ptr := 0%N.

(** [backend_id]: the source names [backend_id::level_zero]; the other
    enumerators are declared outside the verified files. *)
Inductive backend_id :=
| level_zero
| other_backend (tag : nat).

Record device_id := mk_device {
  get_backend : backend_id;
  get_id : nat
}.

(** [sycl::id<3>], [sycl::range<3>] and [range_store::rect], a pair of an
    offset and an extent. *)
Definition id3 := (N * N * N)%type.
Definition range3 := (N * N * N)%type.
Definition rect := (id3 * range3)%type.

(** [std::size_t] arithmetic wraps modulo [2^64]. *)
Definition size_t_max : N := (2 ^ 64)%N.
Definition size_t_mul (a b : N) : N := ((a * b) mod size_t_max)%N.

(** [range<3>::size()]: the number of elements of an extent. *)
Definition range_size (r : range3) : N :=
  let '(r0, r1, r2) := r in size_t_mul (size_t_mul r0 r1) r2.

(** ** Operations *)

(** Modelled from the spec: the declaration of [sycl::access::mode] is not
    part of the verified files; the specification lists these five modes. *)
Inductive access_mode :=
| read | write | read_write | discard_write | discard_read_write.

Definition access_mode_eqb (a b : access_mode) : bool :=
  match a, b with
  | read, read | write, write | read_write, read_write
  | discard_write, discard_write
  | discard_read_write, discard_read_write => true
  | _, _ => false
  end.

Record memory_location := mk_location {
  loc_device : device_id;
  loc_offset : id3;
  loc_region : region_id
}.

Record buffer_memory_requirement := mk_bmem {
  get_data_region : region_id;
  get_access_mode : access_mode;
  get_access_offset3d : id3;
  get_access_range3d : range3;
  device_data : option ptr      (* set by [initialize_device_data] *)
}.

Definition initialize_device_data (p : ptr) (b : buffer_memory_requirement)
  : buffer_memory_requirement :=
  mk_bmem (get_data_region b) (get_access_mode b) (get_access_offset3d b)
          (get_access_range3d b) (Some p).

(** A requirement is a buffer memory requirement or something else (a
    requirement that is no memory requirement, or a memory requirement that
    is no buffer requirement). *)
Inductive requirement :=
| buffer_requirement (b : buffer_memory_requirement)
| other_requirement.

Inductive operation :=
| kernel_operation (kernel : nat)
| memcpy_operation (src dst : memory_location) (num_elements : range3)
| requirement_operation (r : requirement).

Definition is_requirement (op : operation) : bool :=
  match op with requirement_operation _ => true | _ => false end.

Definition is_data_transfer (op : operation) : bool :=
  match op with memcpy_operation _ _ _ => true | _ => false end.

(** ** Errors *)

(** The error types this file mentions.  An [error_info] built from a
    message alone carries no explicit type ([etype = None]). *)
Inductive error_type :=
| memory_allocation_error
| feature_not_supported.

Record error_info := mk_error_info {
  message : string;
  etype : option error_type
}.

Inductive result :=
| make_success
| make_error (info : error_info).

Definition is_success (r : result) : bool :=
  match r with make_success => true | make_error _ => false end.

(** ** DAG nodes *)

Inductive dag_node_event :=
| device_event   (* signalled by the executor that ran the operation *)
| ready_event.   (* the event of a virtual node: ready from the start *)

Record dag_node := mk_node {
  get_operation : operation;
  get_requirements : list node_id;
  bind_to_device : option device_id;   (* the [hints::bind_to_device] hint *)
  get_assigned_device : device_id;
  get_assigned_executor : option executor_id;
  is_submitted : bool;
  is_complete : bool;                  (* known complete when asked *)
  is_cancelled : bool;
  is_virtual : bool;
  get_event : option dag_node_event    (* [None] is the null event *)
}.

(** Modelled from the spec: the methods of [dag_node] are declared outside
    the verified files.  Cancelling sets the state [cancelled], which is
    terminal: a cancelled node counts as submitted and is never submitted
    again. *)
Definition cancel (n : dag_node) : dag_node :=
  mk_node (get_operation n) (get_requirements n) (bind_to_device n)
          (get_assigned_device n) (get_assigned_executor n)
          true (is_complete n) true (is_virtual n) (get_event n).

Definition assign_to_device (d : device_id) (n : dag_node) : dag_node :=
  mk_node (get_operation n) (get_requirements n) (bind_to_device n)
          d (get_assigned_executor n)
          (is_submitted n) (is_complete n) (is_cancelled n) (is_virtual n)
          (get_event n).

Definition assign_to_executor (e : option executor_id) (n : dag_node)
  : dag_node :=
  mk_node (get_operation n) (get_requirements n) (bind_to_device n)
          (get_assigned_device n) e
          (is_submitted n) (is_complete n) (is_cancelled n) (is_virtual n)
          (get_event n).

(** Modelled from the spec: the node's operation has been issued; it now
    carries a completion event. *)
Definition mark_submitted (ev : dag_node_event) (n : dag_node) : dag_node :=
  mk_node (get_operation n) (get_requirements n) (bind_to_device n)
          (get_assigned_device n) (get_assigned_executor n)
          true (is_complete n) (is_cancelled n) (is_virtual n) (Some ev).

(** Modelled from the spec: "mark R virtually submitted with an
    immediately-ready event so dependents never block on it". *)
Definition mark_virtually_submitted (n : dag_node) : dag_node :=
  mk_node (get_operation n) (get_requirements n) (bind_to_device n)
          (get_assigned_device n) (get_assigned_executor n)
          true (is_complete n) (is_cancelled n) true (Some ready_event).

Definition set_operation (op : operation) (n : dag_node) : dag_node :=
  mk_node op (get_requirements n) (bind_to_device n)
          (get_assigned_device n) (get_assigned_executor n)
          (is_submitted n) (is_complete n) (is_cancelled n) (is_virtual n)
          (get_event n).

(** ** Collaborators

    The data region, the backends and two virtual methods of the node graph
    are implemented outside the verified files.  The scheduler is embedded
    over their interfaces; every theorem holds for every implementation. *)

(** The data region (specification, 4.1 and 4.2).  [get_memory] fails when
    the device has no allocation. *)
Class DataRegion (DR : Type) := {
  has_allocation : DR -> device_id -> bool;
  add_empty_allocation : DR -> device_id -> ptr -> DR;
  get_memory : DR -> device_id -> option ptr;
  get_num_elements : DR -> range3;
  get_element_size : DR -> N;
  get_outdated_regions : DR -> device_id -> id3 -> range3 -> list rect;
  get_update_source_candidates :
    DR -> device_id -> rect -> list (device_id * rect);
  mark_range_valid : DR -> device_id -> id3 -> range3 -> DR;
  mark_range_current : DR -> device_id -> id3 -> range3 -> DR
}.

(** The backend registry: [application::get_backend(b).get_executor(dev)]
    and [.get_allocator(dev)], [None] standing for a null pointer, and
    [allocate(alignment, bytes)] on an allocator, over the state [AS] of the
    device memory; it returns [nullptr] on failure. *)
Class Backends (AS : Type) := {
  get_executor : backend_id -> device_id -> option executor_id;
  get_allocator : backend_id -> device_id -> option allocator_id;
  allocate : allocator_id -> N -> N -> AS -> ptr * AS
}.

(** [ze_backend::get_executor] and [ze_backend::get_allocator]. *)
Definition ze_backend_get_executor (dev : device_id) : option executor_id :=
  None.

Definition ze_backend_get_allocator (dev : device_id) : option allocator_id :=
  None.

(** [operation::has_preferred_backend] and
    [dag_node::for_each_nonvirtual_requirement], the latter as the list of
    the nodes it visits. *)
Class NodeGraph := {
  has_preferred_backend : operation -> option backend_id;
  nonvirtual_requirements : (node_id -> dag_node) -> node_id -> list node_id
}.

(** ** The state of the runtime *)

(** One call of [allocate] and one call of [submit_directly]. *)
Record allocation_call := mk_allocation_call {
  ac_allocator : allocator_id;
  ac_alignment : N;
  ac_bytes : N
}.

Record dispatch := mk_dispatch {
  d_executor : executor_id;
  d_node : node_id;
  d_operation : operation;
  d_predecessors : list node_id
}.

Declare Scope sched_scope.

Section Scheduler.

Context {DR AS : Type} `{DataRegion DR} `{Backends AS} `{NodeGraph}.

Record sched_state := mk_state {
  nodes : node_id -> dag_node;
  regions : region_id -> DR;
  device_memory : AS;
  allocations : list allocation_call;   (* calls of [allocate], oldest first *)
  errors : list error_info;             (* the error sink, oldest first *)
  dispatched : list dispatch;           (* calls of [submit_directly] *)
  registry : list node_id               (* [register_submitted_ops] *)
}.

Definition update {A : Type} (f : nat -> A) (k : nat) (v : A) : nat -> A :=
  fun k' => if Nat.eqb k' k then v else f k'.

Definition with_nodes (ns : node_id -> dag_node) (st : sched_state) :=
  mk_state ns (regions st) (device_memory st) (allocations st) (errors st)
           (dispatched st) (registry st).

Definition with_regions (rs : region_id -> DR) (st : sched_state) :=
  mk_state (nodes st) rs (device_memory st) (allocations st) (errors st)
           (dispatched st) (registry st).

(** ** The monad: state, and abnormal termination as [None] *)

Definition M (A : Type) := sched_state -> option (A * sched_state).

Definition ret {A} (a : A) : M A := fun st => Some (a, st).

Definition bind {A B} (c : M A) (k : A -> M B) : M B :=
  fun st => match c st with
            | Some (a, st') => k a st'
            | None => None
            end.

Definition crash {A} : M A := fun _ => None.

Definition get_node (n : node_id) : M dag_node :=
  fun st => Some (nodes st n, st).

Definition modify_node (n : node_id) (f : dag_node -> dag_node) : M unit :=
  fun st => Some (tt, with_nodes (update (nodes st) n (f (nodes st n))) st).

Definition get_region (r : region_id) : M DR :=
  fun st => Some (regions st r, st).

Definition modify_region (r : region_id) (f : DR -> DR) : M unit :=
  fun st => Some (tt, with_regions (update (regions st) r (f (regions st r))) st).

Notation "x <- c1 ;; c2" := (bind c1 (fun x => c2))
  (at level 61, c1 at next level, right associativity) : sched_scope.
Notation "c1 ;; c2" := (bind c1 (fun _ => c2))
  (at level 61, right associativity) : sched_scope.
Local Open Scope sched_scope.

(** A range-based [for] loop whose body has no early exit. *)
Fixpoint for_each {A : Type} (l : list A) (body : A -> M unit) : M unit :=
  match l with
  | [] => ret tt
  | x :: l' => body x ;; for_each l' body
  end.

(** ** The error sink *)

Definition lazy_allocation_failed : error_info :=
  mk_error_info "dag_direct_scheduler: Lazy memory allocation has failed."
                (Some memory_allocation_error).

Definition no_update_sources : error_info :=
  mk_error_info
    "dag_direct_scheduler: Could not obtain data update sources when trying to materialize implicit requirement"
    None.

Definition only_data_transfers : error_info :=
  mk_error_info
    "dag_direct_scheduler: only data transfers are supported as operations generated from implicit requirements."
    (Some feature_not_supported).

Definition not_bound_to_device : error_info :=
  mk_error_info
    "dag_direct_scheduler: Direct scheduler does not support DAG nodes not bound to devices."
    (Some feature_not_supported).

Definition multiple_unsubmitted_nodes : error_info :=
  mk_error_info
    "dag_direct_scheduler: Direct scheduler does not support processing multiple unsubmitted nodes"
    (Some feature_not_supported).

Definition push_error (info : error_info) (st : sched_state) : sched_state :=
  mk_state (nodes st) (regions st) (device_memory st) (allocations st)
           (errors st ++ [info]) (dispatched st) (registry st).

(** [register_error(location, info)]: records the error and returns it as a
    [result]. *)
Definition register_error (info : error_info) : M result :=
  fun st => Some (make_error info, push_error info st).

(** [register_error(result)]: records the error a failed [result] holds. *)
Definition register_error_result (res : result) : M unit :=
  match res with
  | make_error info => fun st => Some (tt, push_error info st)
  | make_success => ret tt
  end.

(** ** Executors, allocators, registry *)

(** Modelled from the spec: [backend_executor::submit_directly] enqueues the
    operation with its explicit predecessors and gives the node its
    completion event. *)
Definition submit_directly (e : executor_id) (node : node_id)
  (op : operation) (reqs : list node_id) : M unit :=
  fun st =>
    modify_node node (mark_submitted device_event)
      (mk_state (nodes st) (regions st) (device_memory st) (allocations st)
                (errors st)
                (dispatched st ++ [mk_dispatch e node op reqs])
                (registry st)).

Definition call_allocate (a : allocator_id) (alignment bytes : N) : M ptr :=
  fun st =>
    let '(p, mem) := allocate a alignment bytes (device_memory st) in
    Some (p, mk_state (nodes st) (regions st) mem
                      (allocations st ++ [mk_allocation_call a alignment bytes])
                      (errors st) (dispatched st) (registry st)).

(** [application::dag().register_submitted_ops(node)]. *)
Definition register_submitted_ops (node : node_id) : M unit :=
  fun st =>
    Some (tt, mk_state (nodes st) (regions st) (device_memory st)
                       (allocations st) (errors st) (dispatched st)
                       (registry st ++ [node])).

(** ** dag_direct_scheduler.cpp *)

Definition abort_submission (node : node_id) : M unit :=
  nd <- get_node node ;;
  for_each (get_requirements nd) (fun req =>
    r <- get_node req ;;
    if negb (is_submitted r) then modify_node req cancel else ret tt) ;;
  modify_node node cancel.

(** The handler [h] runs on the buffer requirement of [node], if its
    operation is one; [otherwise] is the value of the captured locals when
    it does not run. *)
Definition execute_if_buffer_requirement {R : Type} (node : node_id)
  (h : buffer_memory_requirement -> M R) (otherwise : R) : M R :=
  nd <- get_node node ;;
  match get_operation nd with
  | requirement_operation (buffer_requirement bmem_req) => h bmem_req
  | _ => ret otherwise
  end.

Definition assign_devices_or_default (node : node_id)
  (default_device : device_id) : M unit :=
  nd <- get_node node ;;
  match bind_to_device nd with
  | None => modify_node node (assign_to_device default_device)
  | Some d => modify_node node (assign_to_device d)
  end.

(** [bmem_req] points into the operation of [node]: initialising its device
    data updates that operation. *)
Definition initialize_memory_access (node : node_id)
  (bmem_req : buffer_memory_requirement) (target_dev : device_id) : M unit :=
  dr <- get_region (get_data_region bmem_req) ;;
  match get_memory dr target_dev with
  | None => crash
  | Some device_pointer =>
      modify_node node
        (set_operation
           (requirement_operation
              (buffer_requirement
                 (initialize_device_data device_pointer bmem_req))))
  end.

Definition ensure_allocation_exists (bmem_req : buffer_memory_requirement)
  (target_dev : device_id) : M result :=
  dr <- get_region (get_data_region bmem_req) ;;
  if negb (has_allocation dr target_dev) then
    let num_bytes :=
      size_t_mul (range_size (get_num_elements dr)) (get_element_size dr) in
    match get_allocator (get_backend target_dev) target_dev with
    | None => crash
    | Some allocator =>
        p <- call_allocate allocator 128 num_bytes ;;
        if N.eqb p nullptr then register_error lazy_allocation_failed
        else
          modify_region (get_data_region bmem_req)
            (fun dr => add_empty_allocation dr target_dev p) ;;
          ret make_success
    end
  else ret make_success.

(** The loop over the outdated regions of [for_each_explicit_operation];
    [acc] is the value of the locals the handler captures.  Without an
    update source the error is registered, the node is cancelled and the
    function returns. *)
Fixpoint update_outdated_regions {R : Type} (node : node_id)
  (bmem_req : buffer_memory_requirement) (target_device : device_id)
  (explicit_op_handler : operation -> R -> M R)
  (outdated_regions : list rect) (acc : R) : M R :=
  match outdated_regions with
  | [] => ret acc
  | region :: rest =>
      dr <- get_region (get_data_region bmem_req) ;;
      match get_update_source_candidates dr target_device region with
      | [] =>
          register_error no_update_sources ;;
          modify_node node cancel ;;
          ret acc
      | update_source :: _ =>
          let src := mk_location (fst update_source)
                                 (fst (snd update_source))
                                 (get_data_region bmem_req) in
          let dest := mk_location target_device (fst region)
                                  (get_data_region bmem_req) in
          let op := memcpy_operation src dest (snd region) in
          acc' <- explicit_op_handler op acc ;;
          update_outdated_regions node bmem_req target_device
            explicit_op_handler rest acc'
      end
  end.

Definition for_each_explicit_operation {R : Type} (node : node_id)
  (explicit_op_handler : operation -> R -> M R) (acc : R) : M R :=
  nd <- get_node node ;;
  if is_submitted nd then ret acc
  else if negb (is_requirement (get_operation nd)) then
    explicit_op_handler (get_operation nd) acc
  else
    execute_if_buffer_requirement node (fun bmem_req =>
      nd <- get_node node ;;
      let target_device := get_assigned_device nd in
      dr <- get_region (get_data_region bmem_req) ;;
      let outdated_regions :=
        get_outdated_regions dr target_device
          (get_access_offset3d bmem_req) (get_access_range3d bmem_req) in
      update_outdated_regions node bmem_req target_device
        explicit_op_handler outdated_regions acc) acc.

Definition select_executor (node : node_id) (op : operation)
  : M (option executor_id) :=
  nd <- get_node node ;;
  let dev := get_assigned_device nd in
  if is_requirement op then crash   (* assert(!op->is_requirement()) *)
  else
    match has_preferred_backend op with
    | Some executor_backend => ret (get_executor executor_backend dev)
    | None => ret (get_executor (get_backend dev) dev)
    end.

(** [std::unique]: drops every element equal to its predecessor. *)
Fixpoint unique (l : list node_id) : list node_id :=
  match l with
  | [] => []
  | x :: tl =>
      match tl with
      | [] => [x]
      | y :: _ => if Nat.eqb x y then unique tl else x :: unique tl
      end
  end.

(** The explicit predecessors [submit] computes for a node: the collected
    requirements without the complete ones, sorted, without doubles. *)
Definition compress_requirements (ns : node_id -> dag_node)
  (reqs : list node_id) : list node_id :=
  unique (NatSort.sort (filter (fun elem => negb (is_complete (ns elem))) reqs)).

(** [submit(executor, node, op)]: a null [executor] is dereferenced. *)
Definition submit (executor : option executor_id) (node : node_id)
  (op : operation) : M unit :=
  reqs <- (fun st => Some (nonvirtual_requirements (nodes st) node, st)) ;;
  reqs <- (fun st => Some (compress_requirements (nodes st) reqs, st)) ;;
  modify_node node (assign_to_executor executor) ;;
  match executor with
  | None => crash
  | Some e => submit_directly e node op reqs
  end.

Definition is_discard (m : access_mode) : bool :=
  access_mode_eqb m discard_write || access_mode_eqb m discard_read_write.

(** The handler [submit_requirement] passes to
    [for_each_explicit_operation]; it captures [res]. *)
Definition requirement_op_handler (req : node_id) (op : operation)
  (res : result) : M result :=
  if negb (is_data_transfer op) then ret (make_error only_data_transfers)
  else
    executor <- select_executor req op ;;
    submit executor req op ;;
    ret res.

Definition assigned_device_of (node : node_id) : M device_id :=
  nd <- get_node node ;; ret (get_assigned_device nd).

(** The update of the region tracker at the end of [submit_requirement]. *)
Definition mark_accessed_range (req : node_id) (access_mode : access_mode)
  (bmem_req : buffer_memory_requirement) : M unit :=
  dev <- assigned_device_of req ;;
  if access_mode_eqb access_mode read then
    modify_region (get_data_region bmem_req) (fun dr =>
      mark_range_valid dr dev (get_access_offset3d bmem_req)
                       (get_access_range3d bmem_req))
  else
    modify_region (get_data_region bmem_req) (fun dr =>
      mark_range_current dr dev (get_access_offset3d bmem_req)
                         (get_access_range3d bmem_req)).

Definition submit_requirement (req : node_id) : M result :=
  r <- get_node req ;;
  if negb (is_requirement (get_operation r)) || is_submitted r
  then ret make_success
  else
    ra <- execute_if_buffer_requirement req (fun bmem_req =>
            dev <- assigned_device_of req ;;
            res <- ensure_allocation_exists bmem_req dev ;;
            ret (res, get_access_mode bmem_req))
          (make_success, read_write) ;;
    let res := fst ra in
    let access_mode := snd ra in
    if negb (is_success res) then ret res
    else
      execute_if_buffer_requirement req (fun bmem_req =>
        dev <- assigned_device_of req ;;
        initialize_memory_access req bmem_req dev) tt ;;
      res <- (if negb (is_discard access_mode)
              then for_each_explicit_operation req
                     (requirement_op_handler req) res
              else ret res) ;;
      if negb (is_success res) then ret res
      else
        r <- get_node req ;;
        match get_event r with
        | None => modify_node req mark_virtually_submitted
        | Some _ =>
            execute_if_buffer_requirement req
              (mark_accessed_range req access_mode) tt
        end ;;
        ret make_success.

(** The second loop of [dag_direct_scheduler::submit]; the answer is [true]
    when the submission was aborted and [submit] has to return. *)
Fixpoint submit_requirements (node : node_id) (reqs : list node_id)
  : M bool :=
  match reqs with
  | [] => ret false
  | req :: rest =>
      r <- get_node req ;;
      if negb (is_requirement (get_operation r)) then
        if negb (is_submitted r) then
          register_error multiple_unsubmitted_nodes ;;
          abort_submission node ;;
          ret true
        else submit_requirements node rest
      else
        res <- submit_requirement req ;;
        if negb (is_success res) then
          register_error_result res ;;
          abort_submission node ;;
          ret true
        else submit_requirements node rest
  end.

Definition dag_direct_scheduler_submit (node : node_id) : M unit :=
  nd <- get_node node ;;
  match bind_to_device nd with
  | None =>
      register_error not_bound_to_device ;;
      abort_submission node
  | Some target_device =>
      modify_node node (assign_to_device target_device) ;;
      for_each (get_requirements nd) (fun req =>
        assign_devices_or_default req target_device) ;;
      aborted <- submit_requirements node (get_requirements nd) ;;
      if aborted then ret tt
      else
        nd <- get_node node ;;
        if is_requirement (get_operation nd) then
          res <- submit_requirement node ;;
          if negb (is_success res) then
            register_error_result res ;;
            abort_submission node
          else register_submitted_ops node
        else
          exec <- select_executor node (get_operation nd) ;;
          submit exec node (get_operation nd) ;;
          register_submitted_ops node
  end.

(** ** Observations on states *)

(** Two states that differ in their nodes at most. *)
Definition same_but_nodes (st st' : sched_state) : Prop :=
  regions st' = regions st /\
  device_memory st' = device_memory st /\
  allocations st' = allocations st /\
  errors st' = errors st /\
  dispatched st' = dispatched st /\
  registry st' = registry st.

(** The nodes [abort_submission node] leaves behind. *)
Definition aborted_nodes (ns : node_id -> dag_node) (node : node_id)
  : node_id -> dag_node :=
  fun m =>
    let n1 := if existsb (Nat.eqb m) (get_requirements (ns node))
                 && negb (is_submitted (ns m))
              then cancel (ns m) else ns m in
    if Nat.eqb m node then cancel n1 else n1.

(** The number of bytes [ensure_allocation_exists] asks for. *)
Definition allocation_size (dr : DR) : N :=
  size_t_mul (range_size (get_num_elements dr)) (get_element_size dr).

(** The state after the call [allocate(alignment, bytes)] on [a] that left
    the device memory as [mem]. *)
Definition after_allocate (a : allocator_id) (alignment bytes : N) (mem : AS)
  (st : sched_state) : sched_state :=
  mk_state (nodes st) (regions st) mem
           (allocations st ++ [mk_allocation_call a alignment bytes])
           (errors st) (dispatched st) (registry st).

(** The state after [add_empty_allocation(dev, p)] on region [r]. *)
Definition register_allocation (r : region_id) (dev : device_id) (p : ptr)
  (st : sched_state) : sched_state :=
  with_regions (update (regions st) r
                       (add_empty_allocation (regions st r) dev p)) st.

(** What the resolution of requirements keeps of a node: its edges, its
    hint, its device, whether it is complete and whether its operation is a
    requirement; a submitted node stays submitted. *)
Definition node_kept (n n' : dag_node) : Prop :=
  get_requirements n' = get_requirements n /\
  bind_to_device n' = bind_to_device n /\
  get_assigned_device n' = get_assigned_device n /\
  is_complete n' = is_complete n /\
  is_requirement (get_operation n') = is_requirement (get_operation n) /\
  (is_submitted n = true -> is_submitted n' = true).

(** A call of [submit_directly] made for node [req] with a data transfer. *)
Definition issued_for (req : node_id) (d : dispatch) : Prop :=
  d_node d = req /\ is_data_transfer (d_operation d) = true.

(** The footprint of the copies issued for requirement [req]: only node
    [req] changes, it gets the event of the executor as soon as one copy is
    dispatched, and the only error registered is that of a missing update
    source. *)
Definition copy_phase (req : node_id) (st st' : sched_state) : Prop :=
  regions st' = regions st /\
  device_memory st' = device_memory st /\
  allocations st' = allocations st /\
  registry st' = registry st /\
  (forall m, m <> req -> nodes st' m = nodes st m) /\
  node_kept (nodes st req) (nodes st' req) /\
  get_operation (nodes st' req) = get_operation (nodes st req) /\
  is_virtual (nodes st' req) = is_virtual (nodes st req) /\
  (exists new,
      dispatched st' = dispatched st ++ new /\
      Forall (issued_for req) new /\
      (new = [] -> get_event (nodes st' req) = get_event (nodes st req)) /\
      (new <> [] -> get_event (nodes st' req) = Some device_event /\
                    is_submitted (nodes st' req) = true)) /\
  (exists errs,
      errors st' = errors st ++ errs /\
      Forall (eq no_update_sources) errs).

(** The lazy allocation failed: the allocator was called once, the error is
    registered, nothing else changed. *)
Definition failed_allocation (st st' : sched_state) : Prop :=
  nodes st' = nodes st /\
  regions st' = regions st /\
  dispatched st' = dispatched st /\
  registry st' = registry st /\
  errors st' = errors st ++ [lazy_allocation_failed] /\
  exists call, allocations st' = allocations st ++ [call].

(** The lazy allocation for the buffer requirement of node [req] failed in
    state [st]: the data region had no allocation on the assigned device,
    the allocator of the backend of that device was called once and
    returned [nullptr], and the error was registered. *)
Definition allocation_failure (req : node_id) (st st' : sched_state) : Prop :=
  exists bmem_req a mem,
    get_operation (nodes st req)
    = requirement_operation (buffer_requirement bmem_req) /\
    is_submitted (nodes st req) = false /\
    has_allocation (regions st (get_data_region bmem_req))
                   (get_assigned_device (nodes st req)) = false /\
    get_allocator (get_backend (get_assigned_device (nodes st req)))
                  (get_assigned_device (nodes st req)) = Some a /\
    allocate a 128 (allocation_size (regions st (get_data_region bmem_req)))
             (device_memory st) = (nullptr, mem) /\
    st' = push_error lazy_allocation_failed
            (after_allocate a 128
               (allocation_size (regions st (get_data_region bmem_req)))
               mem st).

(** The data region [dr1] that [ensure_allocation_exists] leaves, on
    success, of the data region [dr]. *)
Definition allocation_step (dev : device_id) (dr dr1 : DR) : Prop :=
  (has_allocation dr dev = true /\ dr1 = dr) \/
  (has_allocation dr dev = false /\
   exists p, p <> nullptr /\ dr1 = add_empty_allocation dr dev p).

Definition allocated (rid : region_id) (dev : device_id)
  (st st' : sched_state) : Prop :=
  nodes st' = nodes st /\
  errors st' = errors st /\
  dispatched st' = dispatched st /\
  registry st' = registry st /\
  (forall r, r <> rid -> regions st' r = regions st r) /\
  allocation_step dev (regions st rid) (regions st' rid) /\
  (allocations st' = allocations st \/
   exists call, allocations st' = allocations st ++ [call]).

(** The update of the region tracker for an access in mode [mode]. *)
Definition mark_access (mode : access_mode) (dev : device_id)
  (bmem_req : buffer_memory_requirement) (dr : DR) : DR :=
  if access_mode_eqb mode read
  then mark_range_valid dr dev (get_access_offset3d bmem_req)
                        (get_access_range3d bmem_req)
  else mark_range_current dr dev (get_access_offset3d bmem_req)
                          (get_access_range3d bmem_req).

(** The outcome of the successful resolution of the buffer requirement
    [bmem_req] of node [req]. *)
Definition buffer_resolved (req : node_id)
  (bmem_req : buffer_memory_requirement) (st st' : sched_state) : Prop :=
  let dev := get_assigned_device (nodes st req) in
  let rid := get_data_region bmem_req in
  let mode := get_access_mode bmem_req in
  (forall m, m <> req -> nodes st' m = nodes st m) /\
  node_kept (nodes st req) (nodes st' req) /\
  registry st' = registry st /\
  (allocations st' = allocations st \/
   exists call, allocations st' = allocations st ++ [call]) /\
  (exists errs, errors st' = errors st ++ errs /\
                Forall (eq no_update_sources) errs) /\
  (forall r, r <> rid -> regions st' r = regions st r) /\
  exists dr1 new,
    allocation_step dev (regions st rid) dr1 /\
    dispatched st' = dispatched st ++ new /\
    Forall (issued_for req) new /\
    (is_discard mode = true -> new = []) /\
    (get_event (nodes st req) = None -> new = [] ->
       is_virtual (nodes st' req) = true /\
       is_submitted (nodes st' req) = true /\
       get_event (nodes st' req) = Some ready_event /\
       regions st' rid = dr1) /\
    (get_event (nodes st req) = None -> new <> [] ->
       is_virtual (nodes st' req) = is_virtual (nodes st req) /\
       is_submitted (nodes st' req) = true /\
       get_event (nodes st' req) = Some device_event /\
       regions st' rid = mark_access mode dev bmem_req dr1) /\
    (get_event (nodes st req) <> None ->
       regions st' rid = mark_access mode dev bmem_req dr1).

(** A data transfer dispatched for a node whose operation is a requirement
    in the nodes [ns]. *)
Definition copy_for_requirement (ns : node_id -> dag_node) (d : dispatch)
  : Prop :=
  is_data_transfer (d_operation d) = true /\
  is_requirement (get_operation (ns (d_node d))) = true.

(** The footprint of resolving requirements without a failure: nodes whose
    operation is no requirement are untouched, nothing is registered as
    submitted, what is dispatched are copies for requirement nodes, and the
    only error that can have been registered is that of a missing update
    source. *)
Definition resolution (st st' : sched_state) : Prop :=
  (forall m, is_requirement (get_operation (nodes st m)) = false ->
             nodes st' m = nodes st m) /\
  (forall m, node_kept (nodes st m) (nodes st' m)) /\
  registry st' = registry st /\
  (exists new, dispatched st' = dispatched st ++ new /\
               Forall (copy_for_requirement (nodes st)) new) /\
  (exists errs, errors st' = errors st ++ errs /\
                Forall (eq no_update_sources) errs).

(** The state in which [submit] aborts a submission after the resolution
    that led to [st_mid]: a feature-not-supported error is registered, or a
    lazy allocation failed and [submit] registers its error once more. *)
Definition error_step (st_mid st_err : sched_state) : Prop :=
  (exists e, etype e = Some feature_not_supported /\
             st_err = push_error e st_mid) \/
  exists st_f, failed_allocation st_mid st_f /\
               st_err = push_error lazy_allocation_failed st_f.

(** A requirement-list entry [submit] does not process: its operation is
    no requirement and it is not submitted. *)
Definition unsubmitted_predecessor (st : sched_state) (k : node_id) : Prop :=
  is_requirement (get_operation (nodes st k)) = false /\
  is_submitted (nodes st k) = false.

(** The submission of [node] was aborted. *)
Definition submission_aborted (node : node_id) (st st' : sched_state)
  : Prop :=
  is_cancelled (nodes st' node) = true /\
  (forall r, In r (get_requirements (nodes st node)) ->
             is_submitted (nodes st' r) = true) /\
  (forall r, In r (get_requirements (nodes st node)) ->
             unsubmitted_predecessor st r ->
             is_cancelled (nodes st' r) = true) /\
  registry st' = registry st /\
  (exists new, dispatched st' = dispatched st ++ new /\
               Forall (copy_for_requirement (nodes st)) new) /\
  (exists olds e, errors st' = errors st ++ olds ++ [e] /\
                  (etype e = Some feature_not_supported \/
                   e = lazy_allocation_failed)).

(** The submission of [node] ran to its end: the node is registered, and
    the only error that can have been registered is that of a missing
    update source. *)
Definition submission_completed (node : node_id) (st st' : sched_state)
  : Prop :=
  registry st' = registry st ++ [node] /\
  (exists errs, errors st' = errors st ++ errs /\
                Forall (eq no_update_sources) errs).

(** The first loop of [submit] changes assigned devices only. *)
Definition devices_assigned (st st' : sched_state) : Prop :=
  same_but_nodes st st' /\
  forall m, exists d, nodes st' m = assign_to_device d (nodes st m).

(** The state after [submit(executor, node, op)] with a live executor. *)
Definition after_submit (e : executor_id) (node : node_id) (op : operation)
  (st : sched_state) : sched_state :=
  let reqs := compress_requirements (nodes st)
                (nonvirtual_requirements (nodes st) node) in
  let ns := update (nodes st) node
                   (assign_to_executor (Some e) (nodes st node)) in
  mk_state
    (update ns node (mark_submitted device_event (ns node)))
    (regions st) (device_memory st) (allocations st) (errors st)
    (dispatched st ++ [mk_dispatch e node op reqs])
    (registry st).

(** A call of [submit_directly] for node [req] with the copy of [region]
    from the first update-source candidate to [target]. *)
Definition copy_from_first_source (dr : DR) (target : device_id)
  (rid : region_id) (req : node_id) (region : rect) (d : dispatch) : Prop :=
  d_node d = req /\
  exists source others,
    get_update_source_candidates dr target region = source :: others /\
    d_operation d
    = memcpy_operation (mk_location (fst source) (fst (snd source)) rid)
                       (mk_location target (fst region) rid) (snd region).

End Scheduler.

Arguments sched_state : clear implicits.
Arguments M : clear implicits.

Notation "x <- c1 ;; c2" := (bind c1 (fun x => c2))
  (at level 61, c1 at next level, right associativity) : sched_scope.
Notation "c1 ;; c2" := (bind c1 (fun _ => c2))
  (at level 61, right associativity) : sched_scope.

(** ** ze_hardware_manager.cpp *)

Definition uint32_max : N := (2 ^ 32)%N.

(** The loop of [ze_hardware_context::get_ze_global_memory_ordinal] from
    index [i] on, over the [totalSize] of the remaining memory properties;
    [result] is a [uint32_t]. *)
Fixpoint memory_ordinal_loop (memory_props : list N) (i : N)
  (max_found_mem : N) (result : N) : N :=
  match memory_props with
  | [] => result
  | totalSize :: rest =>
      if N.ltb max_found_mem totalSize
      then memory_ordinal_loop rest (i + 1) totalSize (i mod uint32_max)%N
      else memory_ordinal_loop rest (i + 1) max_found_mem result
  end.

Definition get_ze_global_memory_ordinal (memory_props : list N) : N :=
  memory_ordinal_loop memory_props 0 0 0.

(** [static_cast<int>] of a [std::size_t]. *)
Definition static_cast_int (index : N) : Z :=
  let low := Z.of_N (index mod uint32_max) in
  if Z.ltb low (2 ^ 31) then low else (low - 2 ^ 32)%Z.

(** [ze_hardware_manager::get_device_id]: the Level Zero backend and the
    index as an [int]. *)
Definition get_device_id (index : N) : backend_id * Z :=
  (level_zero, static_cast_int index).

Definition cannot_convert_handle : error_info :=
  mk_error_info
    "ze_hardware_manager: Could not convert ze_device_handle_t to hipSYCL device id"
    None.

(** [ze_hardware_manager::device_handle_to_device_id] over the device
    handles of [_devices], from index [i] on; the second component is the
    reference parameter [out] after the call. *)
Fixpoint device_handle_to_device_id_from (devices : list N) (i : N) (d : N)
  (out : backend_id * Z) : result * (backend_id * Z) :=
  match devices with
  | [] => (make_error cannot_convert_handle, out)
  | handle :: rest =>
      if N.eqb handle d then (make_success, get_device_id i)
      else device_handle_to_device_id_from rest (i + 1) d out
  end.

Definition device_handle_to_device_id (devices : list N) (d : N)
  (out : backend_id * Z) : result * (backend_id * Z) :=
  device_handle_to_device_id_from devices 0 d out.

(** ** A concrete runtime

    A small data region and a small backend registry on which the scheduler
    runs by computation.  The data region tracks validity per whole access
    rectangle, which is all the scheduler ever hands to it. *)

Definition backend_eqb (a b : backend_id) : bool :=
  match a, b with
  | level_zero, level_zero => true
  | other_backend x, other_backend y => Nat.eqb x y
  | _, _ => false
  end.

Definition device_eqb (a b : device_id) : bool :=
  backend_eqb (get_backend a) (get_backend b) && Nat.eqb (get_id a) (get_id b).

Definition triple_eqb (a b : N * N * N) : bool :=
  let '(a0, a1, a2) := a in
  let '(b0, b1, b2) := b in
  N.eqb a0 b0 && N.eqb a1 b1 && N.eqb a2 b2.

Definition rect_eqb (a b : rect) : bool :=
  triple_eqb (fst a) (fst b) && triple_eqb (snd a) (snd b).

Record simple_region := mk_simple_region {
  sr_num_elements : range3;
  sr_element_size : N;
  sr_allocations : list (device_id * ptr);
  sr_valid : list (device_id * rect)    (* in registration order *)
}.

Definition sr_has_allocation (dr : simple_region) (d : device_id) : bool :=
  existsb (fun a => device_eqb (fst a) d) (sr_allocations dr).

Definition sr_add_empty_allocation (dr : simple_region) (d : device_id)
  (p : ptr) : simple_region :=
  mk_simple_region (sr_num_elements dr) (sr_element_size dr)
                   ((d, p) :: sr_allocations dr) (sr_valid dr).

Definition sr_get_memory (dr : simple_region) (d : device_id) : option ptr :=
  option_map snd (find (fun a => device_eqb (fst a) d) (sr_allocations dr)).

Definition sr_is_valid (dr : simple_region) (d : device_id) (r : rect) : bool :=
  existsb (fun v => device_eqb (fst v) d && rect_eqb (snd v) r) (sr_valid dr).

Definition sr_get_outdated_regions (dr : simple_region) (d : device_id)
  (offset : id3) (range : range3) : list rect :=
  if sr_is_valid dr d (offset, range) then [] else [(offset, range)].

Definition sr_get_update_source_candidates (dr : simple_region)
  (d : device_id) (r : rect) : list (device_id * rect) :=
  filter (fun v => negb (device_eqb (fst v) d) && rect_eqb (snd v) r)
         (sr_valid dr).

Definition sr_mark_range_valid (dr : simple_region) (d : device_id)
  (offset : id3) (range : range3) : simple_region :=
  mk_simple_region (sr_num_elements dr) (sr_element_size dr)
                   (sr_allocations dr)
                   (sr_valid dr ++ [(d, (offset, range))]).

Definition sr_mark_range_current (dr : simple_region) (d : device_id)
  (offset : id3) (range : range3) : simple_region :=
  mk_simple_region (sr_num_elements dr) (sr_element_size dr)
                   (sr_allocations dr)
                   (filter (fun v => negb (rect_eqb (snd v) (offset, range)))
                           (sr_valid dr)
                    ++ [(d, (offset, range))]).

(** The backends: [level_zero] is the stub of [ze_backend.cpp]; every other
    backend has one executor and one allocator per device.  Device memory is
    a number of free bytes; an allocation that does not fit returns
    [nullptr]. *)
Definition simple_get_executor (b : backend_id) (dev : device_id)
  : option executor_id :=
  match b with
  | level_zero => ze_backend_get_executor dev
  | other_backend tag => Some (tag * 100 + get_id dev)
  end.

Definition simple_get_allocator (b : backend_id) (dev : device_id)
  : option allocator_id :=
  match b with
  | level_zero => ze_backend_get_allocator dev
  | other_backend tag => Some (tag * 100 + get_id dev)
  end.

Definition simple_allocate (a : allocator_id) (alignment bytes free : N)
  : ptr * N :=
  if N.leb bytes free then ((4096 + 128 * N.of_nat a)%N, (free - bytes)%N)
  else (nullptr, free).

(** The walk over the requirements of a node, as far as the examples need
    it: the listed requirements that are not virtual. *)
Definition listed_nonvirtual_requirements (ns : node_id -> dag_node)
  (n : node_id) : list node_id :=
  filter (fun r => negb (is_virtual (ns r))) (get_requirements (ns n)).

#[export] Instance simple_data_region : DataRegion simple_region := {|
  has_allocation := sr_has_allocation;
  add_empty_allocation := sr_add_empty_allocation;
  get_memory := sr_get_memory;
  get_num_elements := sr_num_elements;
  get_element_size := sr_element_size;
  get_outdated_regions := sr_get_outdated_regions;
  get_update_source_candidates := sr_get_update_source_candidates;
  mark_range_valid := sr_mark_range_valid;
  mark_range_current := sr_mark_range_current
|}.

Definition simple_backends : Backends N := {|
  get_executor := simple_get_executor;
  get_allocator := simple_get_allocator;
  allocate := simple_allocate
|}.

(** A registry in which every backend is live. *)
Definition live_backends : Backends N := {|
  get_executor := fun _ dev => Some (get_id dev);
  get_allocator := fun _ dev => Some (get_id dev);
  allocate := simple_allocate
|}.

(** No operation of the examples names a preferred backend. *)
#[export] Instance simple_node_graph : NodeGraph := {|
  has_preferred_backend := fun _ => None;
  nonvirtual_requirements := listed_nonvirtual_requirements
|}.

Abbreviation simple_state := (sched_state simple_region N).

(** Devices 1 and 2 of a backend with executors, and a Level Zero device. *)
Definition dev1 : device_id := mk_device (other_backend 0) 1.
Definition dev2 : device_id := mk_device (other_backend 0) 2.
Definition ze_dev : device_id := mk_device level_zero 0.

(** A freshly built node: nothing assigned, nothing submitted. *)
Definition new_node (op : operation) (reqs : list node_id)
  (hint : option device_id) : dag_node :=
  mk_node op reqs hint (mk_device (other_backend 0) 0) None
          false false false false None.

(** Rectangle [0, 50) of a buffer of 100 elements of 4 bytes. *)
Definition rect_0_50 : rect := ((0, 0, 0)%N, (50, 1, 1)%N).

Definition buffer_100 (valid : list (device_id * rect)) : simple_region :=
  mk_simple_region (100, 1, 1)%N 4%N [] valid.

Definition access_0_50 (mode : access_mode) : operation :=
  requirement_operation
    (buffer_requirement (mk_bmem 0 mode (fst rect_0_50) (snd rect_0_50) None)).

Definition initial_state (ns : node_id -> dag_node) (dr : simple_region)
  (free : N) : simple_state :=
  mk_state ns (fun _ => dr) free [] [] [] [].

(** Kernel node 0 bound to device 2 reads rectangle [0, 50) through
    requirement node 1; no device holds valid data for the buffer. *)
Definition no_source_nodes : node_id -> dag_node :=
  update (update (fun _ => new_node (kernel_operation 0) [] None)
                 0 (new_node (kernel_operation 7) [1] (Some dev2)))
         1 (new_node (access_0_50 read) [] None).

Definition no_source_state : simple_state :=
  initial_state no_source_nodes (buffer_100 []) 1000.

(** Node 0, bound to device 2, is itself a read requirement on that
    buffer. *)
Definition own_requirement_state : simple_state :=
  initial_state
    (update (fun _ => new_node (kernel_operation 0) [] None)
            0 (new_node (access_0_50 read) [] (Some dev2)))
    (buffer_100 []) 1000.

(** Kernel node 0 has no device hint; its requirement, node 1, is not
    submitted. *)
Definition no_hint_state : simple_state :=
  initial_state
    (update (update (fun _ => new_node (kernel_operation 0) [] None)
                    0 (new_node (kernel_operation 7) [1] None))
            1 (new_node (access_0_50 read) [] None))
    (buffer_100 [(dev1, rect_0_50)]) 1000.

(** Requirement node 1 accesses rectangle [0, 50) on device 2 in the given
    mode; device 1 holds valid data for it, device 2 has no allocation
    yet. *)
Definition access_state (mode : access_mode) (free : N) : simple_state :=
  initial_state
    (update (fun _ => new_node (kernel_operation 0) [] None)
            1 (assign_to_device dev2 (new_node (access_0_50 mode) [] None)))
    (buffer_100 [(dev1, rect_0_50)]) free.

(** Kernel node 0, bound to device 2, lists requirement node 1 and then the
    unsubmitted kernel node 2; the device memory is too small for the
    buffer. *)
Definition predecessor_state : simple_state :=
  initial_state
    (update (update (update (fun _ => new_node (kernel_operation 0) [] None)
                            0 (new_node (kernel_operation 7) [1; 2]
                                        (Some dev2)))
                    1 (new_node (access_0_50 read) [] None))
            2 (new_node (kernel_operation 8) [] None))
    (buffer_100 [(dev1, rect_0_50)]) 100.

(** Kernel node 0, without requirements, is bound to the Level Zero
    device. *)
Definition level_zero_state : simple_state :=
  initial_state
    (update (fun _ => new_node (kernel_operation 0) [] None)
            0 (new_node (kernel_operation 7) [] (Some ze_dev)))
    (buffer_100 []) 1000.


(** Requirement node 1 reads rectangle [0, 50) on the Level Zero device. *)
Definition level_zero_access_state : simple_state :=
  initial_state
    (update (fun _ => new_node (kernel_operation 0) [] None)
            1 (assign_to_device ze_dev (new_node (access_0_50 read) [] None)))
    (buffer_100 [(dev1, rect_0_50)]) 1000.

(** Kernel node 0, bound to device 2, lists node 1 twice; node 1 is a
    requirement that is submitted already. *)
Definition submitted_requirement_state : simple_state :=
  initial_state
    (update (update (fun _ => new_node (kernel_operation 0) [] None)
                    0 (new_node (kernel_operation 7) [1; 1] (Some dev2)))
            1 (mark_submitted device_event
                 (new_node (access_0_50 read) [] None)))
    (buffer_100 [(dev1, rect_0_50)]) 1000.

(** Node 1 is a requirement that is no buffer requirement. *)
Definition other_requirement_state : simple_state :=
  initial_state
    (update (fun _ => new_node (kernel_operation 0) [] None)
            1 (new_node (requirement_operation other_requirement) [] None))
    (buffer_100 []) 1000.

(** Requirement node 1 accesses rectangle [0, 50) on device 2 while both
    devices hold valid data for it. *)
Definition valid_access_state (mode : access_mode) : simple_state :=
  initial_state
    (update (fun _ => new_node (kernel_operation 0) [] None)
            1 (assign_to_device dev2 (new_node (access_0_50 mode) [] None)))
    (buffer_100 [(dev1, rect_0_50); (dev2, rect_0_50)]) 1000.

(** Requirement node 1 accesses rectangle [0, 50) on device 2 in the given
    mode, and requirement node 2 reads it on device 2 afterwards; device 1
    holds the valid data. *)
Definition access_then_read_state (mode : access_mode) : simple_state :=
  initial_state
    (update (update (fun _ => new_node (kernel_operation 0) [] None)
                    1 (assign_to_device dev2
                         (new_node (access_0_50 mode) [] None)))
            2 (assign_to_device dev2 (new_node (access_0_50 read) [] None)))
    (buffer_100 [(dev1, rect_0_50)]) 1000.

(** Kernel node 0, bound to device 2, lists requirement node 1, which is
    submitted already, and then the unsubmitted kernel node 2. *)
Definition submitted_then_kernel_state : simple_state :=
  initial_state
    (update (update (update (fun _ => new_node (kernel_operation 0) [] None)
                            0 (new_node (kernel_operation 7) [1; 2]
                                        (Some dev2)))
                    1 (mark_submitted device_event
                         (new_node (access_0_50 read) [] None)))
            2 (new_node (kernel_operation 8) [] None))
    (buffer_100 [(dev1, rect_0_50)]) 1000.

(** Kernel node 0, bound to the Level Zero device, lists requirement node 1
    and then the unsubmitted kernel node 2. *)
Definition level_zero_predecessor_state : simple_state :=
  initial_state
    (update (update (update (fun _ => new_node (kernel_operation 0) [] None)
                            0 (new_node (kernel_operation 7) [1; 2]
                                        (Some ze_dev)))
                    1 (new_node (access_0_50 read) [] None))
            2 (new_node (kernel_operation 8) [] None))
    (buffer_100 [(dev1, rect_0_50)]) 1000.

(** * Properties *)

(** ** Sorting and [std::unique] *)

Lemma unique_In (x : node_id) (l : list node_id) :
  In x (unique l) <-> In x l.
Proof.
  induction l as [|a tl IH]; [tauto|].
  destruct tl as [|b tl']; [simpl; tauto|].
  change (unique (a :: b :: tl'))
    with (if Nat.eqb a b then unique (b :: tl') else a :: unique (b :: tl')).
  destruct (Nat.eqb_spec a b) as [->|Hne].
  - rewrite IH. simpl. tauto.
  - simpl In at 1. rewrite IH. simpl. tauto.
Qed.

Lemma unique_NoDup (l : list node_id) :
  StronglySorted le l -> NoDup (unique l).
Proof.
  induction 1 as [|a tl Hs IH Hall]; [constructor|].
  destruct tl as [|b tl']; [repeat constructor; simpl; tauto|].
  change (unique (a :: b :: tl'))
    with (if Nat.eqb a b then unique (b :: tl') else a :: unique (b :: tl')).
  destruct (Nat.eqb_spec a b) as [->|Hne]; [exact IH|].
  constructor; [|exact IH].
  rewrite unique_In. intros Hin.
  inversion Hs as [|? ? _ Hb]; subst.
  inversion Hall as [|? ? Hab Hrest]; subst.
  destruct Hin as [->|Hin]; [congruence|].
  rewrite Forall_forall in Hb, Hrest.
  specialize (Hb _ Hin). lia.
Qed.

Lemma sort_strongly_sorted (l : list node_id) :
  StronglySorted le (NatSort.sort l).
Proof.
  assert (Hs : StronglySorted (fun x y => is_true (Nat.leb x y)) (NatSort.sort l)).
  { apply NatSort.StronglySorted_sort.
    intros x y z Hxy Hyz. apply Nat.leb_le in Hxy, Hyz. apply Nat.leb_le. lia. }
  induction Hs as [|a tl _ IH Hall]; constructor; [exact IH|].
  eapply Forall_impl; [|exact Hall]. intros b Hb. now apply Nat.leb_le.
Qed.

Lemma compress_requirements_NoDup (ns : node_id -> dag_node)
  (reqs : list node_id) : NoDup (compress_requirements ns reqs).
Proof. apply unique_NoDup, sort_strongly_sorted. Qed.

Lemma compress_requirements_In (ns : node_id -> dag_node)
  (reqs : list node_id) (r : node_id) :
  In r (compress_requirements ns reqs) <->
  In r reqs /\ is_complete (ns r) = false.
Proof.
  unfold compress_requirements. rewrite unique_In.
  split.
  - intros Hin.
    apply (Permutation_in _ (Permutation_sym (NatSort.Permuted_sort _))) in Hin.
    apply filter_In in Hin. destruct Hin as [Hin Hc].
    split; [exact Hin|]. now apply negb_true_iff in Hc.
  - intros [Hin Hc].
    apply (Permutation_in _ (NatSort.Permuted_sort _)).
    apply filter_In. split; [exact Hin|]. now rewrite Hc.
Qed.

Section Properties.

Context {DR AS : Type} {data_region : DataRegion DR}
        {backends : Backends AS} {graph : NodeGraph}.

Local Open Scope sched_scope.
Local Abbreviation state := (sched_state DR AS).

Lemma same_but_nodes_refl (st : state) : same_but_nodes st st.
Proof. repeat split. Qed.

Lemma same_but_nodes_trans (st1 st2 st3 : state) :
  same_but_nodes st1 st2 -> same_but_nodes st2 st3 -> same_but_nodes st1 st3.
Proof.
  unfold same_but_nodes. intros (?&?&?&?&?&?) (?&?&?&?&?&?).
  repeat split; congruence.
Qed.

Lemma update_eq {A} (f : nat -> A) k v : update f k v k = v.
Proof. unfold update. now rewrite Nat.eqb_refl. Qed.

Lemma update_neq {A} (f : nat -> A) k v m : m <> k -> update f k v m = f m.
Proof. unfold update. intros Hne. now apply Nat.eqb_neq in Hne as ->. Qed.

(** ** Equations of the monad *)

Lemma bind_some {A B} (c : M DR AS A) (k : A -> M DR AS B) (st st1 : state)
  (a : A) : c st = Some (a, st1) -> bind c k st = k a st1.
Proof. intros Hc. unfold bind. now rewrite Hc. Qed.

Arguments bind_some {A B c} k {st st1 a} _.

Lemma bind_ret {A B} (a : A) (k : A -> M DR AS B) (st : state) :
  bind (ret a) k st = k a st.
Proof. reflexivity. Qed.

Lemma bind_get_node {B} (n : node_id) (k : dag_node -> M DR AS B)
  (st : state) : bind (get_node n) k st = k (nodes st n) st.
Proof. reflexivity. Qed.

Lemma bind_get_region {B} (r : region_id) (k : DR -> M DR AS B)
  (st : state) : bind (get_region r) k st = k (regions st r) st.
Proof. reflexivity. Qed.

Lemma bind_modify_node {B} (n : node_id) (f : dag_node -> dag_node)
  (k : unit -> M DR AS B) (st : state) :
  bind (modify_node n f) k st
  = k tt (with_nodes (update (nodes st) n (f (nodes st n))) st).
Proof. reflexivity. Qed.

Lemma bind_register_error {B} (info : error_info)
  (k : result -> M DR AS B) (st : state) :
  bind (register_error info) k st = k (make_error info) (push_error info st).
Proof. reflexivity. Qed.

Lemma bind_assigned_device_of {B} (n : node_id) (k : device_id -> M DR AS B)
  (st : state) :
  bind (assigned_device_of n) k st = k (get_assigned_device (nodes st n)) st.
Proof. reflexivity. Qed.

(** ** [abort_submission] *)

Lemma cancel_unsubmitted_run (node : node_id) (l : list node_id) (st : state) :
  exists st',
    for_each l (fun req =>
      r <- get_node req ;;
      if negb (is_submitted r) then modify_node req cancel else ret tt) st
    = Some (tt, st') /\
    same_but_nodes st st' /\
    forall m, nodes st' m =
              if existsb (Nat.eqb m) l && negb (is_submitted (nodes st m))
              then cancel (nodes st m) else nodes st m.
Proof.
  revert st. induction l as [|x l IH]; intros st.
  - exists st. simpl. repeat split.
  - simpl for_each. unfold bind at 1. unfold bind at 1. unfold get_node at 1.
    destruct (is_submitted (nodes st x)) eqn:Hx; simpl negb; cbv iota.
    + unfold ret at 1. destruct (IH st) as (st' & Hrun & Hsame & Hn).
      exists st'. split; [exact Hrun|]. split; [exact Hsame|].
      intros m. rewrite Hn. simpl existsb.
      destruct (Nat.eqb_spec m x) as [->|Hne]; [|reflexivity].
      rewrite Hx. simpl. now rewrite andb_false_r.
    + unfold modify_node at 1.
      destruct (IH (with_nodes (update (nodes st) x (cancel (nodes st x))) st))
        as (st' & Hrun & Hsame & Hn).
      exists st'. split; [exact Hrun|]. split.
      { eapply same_but_nodes_trans; [|exact Hsame]. repeat split. }
      intros m. rewrite Hn. simpl nodes. simpl existsb.
      destruct (Nat.eqb_spec m x) as [->|Hne].
      * rewrite update_eq, Hx. simpl. now rewrite andb_false_r.
      * rewrite update_neq by exact Hne. reflexivity.
Qed.

Lemma abort_submission_run (node : node_id) (st : state) :
  exists st',
    abort_submission node st = Some (tt, st') /\
    same_but_nodes st st' /\
    forall m, nodes st' m = aborted_nodes (nodes st) node m.
Proof.
  unfold abort_submission. unfold bind at 1. unfold get_node at 1.
  unfold bind at 1.
  destruct (cancel_unsubmitted_run node (get_requirements (nodes st node)) st)
    as (st1 & Hrun & Hsame & Hn).
  rewrite Hrun. unfold modify_node.
  eexists. split; [reflexivity|]. split.
  { eapply same_but_nodes_trans; [exact Hsame|]. repeat split. }
  intros m. simpl nodes. unfold aborted_nodes.
  destruct (Nat.eqb_spec m node) as [->|Hne].
  - rewrite update_eq, Hn. reflexivity.
  - rewrite update_neq by exact Hne. apply Hn.
Qed.

Lemma aborted_nodes_cancelled (ns : node_id -> dag_node) (node : node_id) :
  is_cancelled (aborted_nodes ns node node) = true.
Proof. unfold aborted_nodes. now rewrite Nat.eqb_refl. Qed.

Lemma aborted_nodes_requirement (ns : node_id -> dag_node)
  (node req : node_id) :
  In req (get_requirements (ns node)) ->
  is_submitted (ns req) = false ->
  is_cancelled (aborted_nodes ns node req) = true.
Proof.
  intros Hin Hsub. unfold aborted_nodes.
  assert (Hex : existsb (Nat.eqb req) (get_requirements (ns node)) = true).
  { apply existsb_exists. exists req. split; [exact Hin|apply Nat.eqb_refl]. }
  rewrite Hex, Hsub. simpl. now destruct (Nat.eqb req node).
Qed.

Lemma aborted_nodes_submitted (ns : node_id -> dag_node)
  (node req : node_id) :
  In req (get_requirements (ns node)) ->
  is_submitted (aborted_nodes ns node req) = true.
Proof.
  intros Hin. unfold aborted_nodes.
  assert (Hex : existsb (Nat.eqb req) (get_requirements (ns node)) = true).
  { apply existsb_exists. exists req. split; [exact Hin|apply Nat.eqb_refl]. }
  rewrite Hex. simpl.
  destruct (is_submitted (ns req)) eqn:Hsub; simpl;
    destruct (Nat.eqb req node); simpl; auto.
Qed.

(** Aborting changes the submitted and cancelled flags only. *)
Lemma aborted_nodes_fields (ns : node_id -> dag_node) (node m : node_id) :
  get_operation (aborted_nodes ns node m) = get_operation (ns m) /\
  get_requirements (aborted_nodes ns node m) = get_requirements (ns m) /\
  get_assigned_device (aborted_nodes ns node m) = get_assigned_device (ns m) /\
  get_assigned_executor (aborted_nodes ns node m)
    = get_assigned_executor (ns m) /\
  get_event (aborted_nodes ns node m) = get_event (ns m).
Proof.
  unfold aborted_nodes.
  destruct (existsb (Nat.eqb m) (get_requirements (ns node))
            && negb (is_submitted (ns m)));
    destruct (Nat.eqb m node); simpl; repeat split.
Qed.

Lemma submit_live_run (e : executor_id) (node : node_id) (op : operation)
  (st : state) :
  submit (Some e) node op st = Some (tt, after_submit e node op st).
Proof. reflexivity. Qed.

Lemma after_submit_node (e : executor_id) (node : node_id) (op : operation)
  (st : state) :
  nodes (after_submit e node op st) node
  = mark_submitted device_event (assign_to_executor (Some e) (nodes st node)).
Proof. unfold after_submit. simpl. now rewrite !update_eq. Qed.

Lemma after_submit_other (e : executor_id) (node : node_id) (op : operation)
  (st : state) (m : node_id) :
  m <> node -> nodes (after_submit e node op st) m = nodes st m.
Proof.
  intros Hne. unfold after_submit. simpl. now rewrite !update_neq by exact Hne.
Qed.

(** ** C4: the explicit predecessors handed to an executor *)

(** C4.  Whenever [submit] hands a node to an executor, the call of
    [submit_directly] it makes carries a predecessor list without doubles,
    whatever the walk over the requirements collected and however often it
    collected a node, and a node is in that list exactly when it was
    collected and is not complete. *)
Theorem submit_predecessors_compressed (e : executor_id) (node : node_id)
  (op : operation) (st : state) :
  exists st' reqs,
    submit (Some e) node op st = Some (tt, st') /\
    dispatched st' = dispatched st ++ [mk_dispatch e node op reqs] /\
    NoDup reqs /\
    (forall r, In r reqs -> is_complete (nodes st r) = false) /\
    (forall r, In r reqs <->
               In r (nonvirtual_requirements (nodes st) node) /\
               is_complete (nodes st r) = false).
Proof.
  exists (after_submit e node op st).
  exists (compress_requirements (nodes st)
            (nonvirtual_requirements (nodes st) node)).
  split; [apply submit_live_run|]. split; [reflexivity|].
  split; [apply compress_requirements_NoDup|].
  split.
  - intros r Hin. now apply compress_requirements_In in Hin.
  - intros r. apply compress_requirements_In.
Qed.

(** ** C5: a node without a device hint *)

(** C5.  When the node carries no [bind_to_device] hint, [submit] returns
    after registering one feature-not-supported error and cancelling the node
    and each of its requirements that was not submitted; no node changes its
    device, executor, operation or event, no memory is allocated, the data
    regions are untouched, nothing is dispatched and nothing is
    registered as submitted. *)
Theorem submit_without_device_hint (node : node_id) (st : state) :
  bind_to_device (nodes st node) = None ->
  exists st',
    dag_direct_scheduler_submit node st = Some (tt, st') /\
    errors st' = errors st ++ [not_bound_to_device] /\
    etype not_bound_to_device = Some feature_not_supported /\
    is_cancelled (nodes st' node) = true /\
    (forall req, In req (get_requirements (nodes st node)) ->
                 is_submitted (nodes st req) = false ->
                 is_cancelled (nodes st' req) = true) /\
    (forall m, get_assigned_device (nodes st' m)
                 = get_assigned_device (nodes st m) /\
               get_assigned_executor (nodes st' m)
                 = get_assigned_executor (nodes st m) /\
               get_operation (nodes st' m) = get_operation (nodes st m) /\
               get_event (nodes st' m) = get_event (nodes st m)) /\
    regions st' = regions st /\
    device_memory st' = device_memory st /\
    allocations st' = allocations st /\
    dispatched st' = dispatched st /\
    registry st' = registry st.
Proof.
  intros Hhint.
  unfold dag_direct_scheduler_submit. unfold bind at 1. unfold get_node at 1.
  rewrite Hhint. unfold bind at 1. unfold register_error at 1.
  destruct (abort_submission_run node (push_error not_bound_to_device st))
    as (st' & Hrun & (Hr & Hm & Ha & He & Hd & Hg) & Hn).
  exists st'. split; [exact Hrun|].
  split; [exact He|]. split; [reflexivity|].
  split; [rewrite Hn; apply aborted_nodes_cancelled|].
  split; [intros req Hin Hsub; rewrite Hn;
          now apply aborted_nodes_requirement|].
  split.
  { intros m. rewrite Hn.
    destruct (aborted_nodes_fields (nodes (push_error not_bound_to_device st))
                node m) as (Ho & _ & Hd' & He' & Hev).
    simpl in *. auto. }
  simpl in *. auto.
Qed.

(** ** [ensure_allocation_exists] *)

Lemma ensure_allocation_exists_allocated
  (bmem_req : buffer_memory_requirement) (dev : device_id) (st : state) :
  has_allocation (regions st (get_data_region bmem_req)) dev = true ->
  ensure_allocation_exists bmem_req dev st = Some (make_success, st).
Proof.
  intros Hhas. unfold ensure_allocation_exists, bind, get_region.
  now rewrite Hhas.
Qed.

Lemma ensure_allocation_exists_null_allocator
  (bmem_req : buffer_memory_requirement) (dev : device_id) (st : state) :
  has_allocation (regions st (get_data_region bmem_req)) dev = false ->
  get_allocator (get_backend dev) dev = None ->
  ensure_allocation_exists bmem_req dev st = None.
Proof.
  intros Hhas Hnull. unfold ensure_allocation_exists, bind, get_region.
  now rewrite Hhas, Hnull.
Qed.

Lemma ensure_allocation_exists_fresh
  (bmem_req : buffer_memory_requirement) (dev : device_id) (st : state)
  (a : allocator_id) (p : ptr) (mem : AS) :
  let dr := regions st (get_data_region bmem_req) in
  has_allocation dr dev = false ->
  get_allocator (get_backend dev) dev = Some a ->
  allocate a 128 (allocation_size dr) (device_memory st) = (p, mem) ->
  ensure_allocation_exists bmem_req dev st =
  if N.eqb p nullptr
  then Some (make_error lazy_allocation_failed,
             push_error lazy_allocation_failed
               (after_allocate a 128 (allocation_size dr) mem st))
  else Some (make_success,
             register_allocation (get_data_region bmem_req) dev p
               (after_allocate a 128 (allocation_size dr) mem st)).
Proof.
  intros dr Hhas Ha Halloc. subst dr.
  unfold ensure_allocation_exists, bind, get_region.
  rewrite Hhas, Ha.
  unfold call_allocate. unfold allocation_size in Halloc |- *.
  cbv beta iota delta [negb]. rewrite Halloc.
  destruct (N.eqb p nullptr); reflexivity.
Qed.

Lemma size_t_mul_exact (n0 n1 n2 es : N) :
  (n0 * n1 * n2 * es < size_t_max)%N ->
  size_t_mul (range_size (n0, n1, n2)) es = (n0 * n1 * n2 * es)%N.
Proof.
  intros Hlt. unfold range_size, size_t_mul.
  assert (Hpos : (size_t_max <> 0)%N) by (unfold size_t_max; discriminate).
  rewrite (N.Div0.mul_mod_idemp_l (n0 * n1)).
  rewrite (N.Div0.mul_mod_idemp_l (n0 * n1 * n2)).
  now apply N.mod_small.
Qed.

(** ** The copies issued for a requirement *)

Lemma node_kept_refl (n : dag_node) : node_kept n n.
Proof. repeat split; auto. Qed.

Lemma node_kept_trans (n1 n2 n3 : dag_node) :
  node_kept n1 n2 -> node_kept n2 n3 -> node_kept n1 n3.
Proof.
  unfold node_kept. intros (?&?&?&?&?&?) (?&?&?&?&?&?).
  repeat split; try congruence; auto.
Qed.

Lemma copy_phase_refl (req : node_id) (st : state) : copy_phase req st st.
Proof.
  unfold copy_phase. repeat split; auto.
  - exists []. rewrite app_nil_r. repeat split; auto. congruence.
  - exists []. rewrite app_nil_r. split; auto.
Qed.

Lemma copy_phase_trans (req : node_id) (st1 st2 st3 : state) :
  copy_phase req st1 st2 -> copy_phase req st2 st3 -> copy_phase req st1 st3.
Proof.
  intros (Hr1 & Hm1 & Ha1 & Hg1 & Ho1 & Hk1 & Hop1 & Hv1
          & (new1 & Hd1 & Hf1 & He1 & Hne1) & (errs1 & Hes1 & Hfe1))
         (Hr2 & Hm2 & Ha2 & Hg2 & Ho2 & Hk2 & Hop2 & Hv2
          & (new2 & Hd2 & Hf2 & He2 & Hne2) & (errs2 & Hes2 & Hfe2)).
  unfold copy_phase.
  split; [congruence|]. split; [congruence|]. split; [congruence|].
  split; [congruence|].
  split; [intros m Hm; rewrite Ho2, Ho1; auto|].
  split; [eapply node_kept_trans; eauto|].
  split; [congruence|]. split; [congruence|].
  split.
  - exists (new1 ++ new2). rewrite Hd2, Hd1, app_assoc.
    split; [reflexivity|]. split; [apply Forall_app; auto|].
    split.
    + intros Hnil. apply app_eq_nil in Hnil as [-> ->].
      rewrite He2, He1; auto.
    + intros Hne. destruct new2 as [|d new2].
      * rewrite He2 by reflexivity.
        rewrite app_nil_r in Hne. destruct (Hne1 Hne) as [Hev Hsub].
        split; [exact Hev|]. now apply Hk2.
      * apply Hne2. discriminate.
  - exists (errs1 ++ errs2). rewrite Hes2, Hes1, app_assoc.
    split; [reflexivity|apply Forall_app; auto].
Qed.

Section LiveExecutors.

(** Every backend has an executor for every device. *)
Hypothesis live_executors : forall b d, get_executor b d <> None.

Lemma select_executor_live (node : node_id) (op : operation) (st : state) :
  is_requirement op = false ->
  exists e, select_executor node op st = Some (Some e, st).
Proof.
  intros Hop. unfold select_executor, bind, get_node. rewrite Hop.
  destruct (has_preferred_backend op) as [b|]; unfold ret.
  - destruct (get_executor b (get_assigned_device (nodes st node))) as [e|] eqn:He;
      [eauto | now apply live_executors in He].
  - destruct (get_executor (get_backend (get_assigned_device (nodes st node)))
                (get_assigned_device (nodes st node))) as [e|] eqn:He;
      [eauto | now apply live_executors in He].
Qed.

Lemma submit_copy_phase (e : executor_id) (req : node_id) (op : operation)
  (st : state) :
  is_data_transfer op = true ->
  exists st', submit (Some e) req op st = Some (tt, st') /\
              copy_phase req st st'.
Proof.
  intros Hop. eexists. split; [reflexivity|].
  unfold copy_phase. simpl.
  repeat (split; [reflexivity|]).
  split; [intros m Hm; now rewrite !update_neq by exact Hm|].
  rewrite !update_eq.
  split; [repeat split; auto|].
  split; [reflexivity|]. split; [reflexivity|].
  split.
  - eexists. split; [reflexivity|].
    split; [repeat constructor; exact Hop|].
    split; [discriminate|split; reflexivity].
  - exists []. now rewrite app_nil_r.
Qed.

Lemma requirement_op_handler_copy (req : node_id) (src dst : memory_location)
  (rng : range3) (res : result) (st : state) :
  exists st',
    requirement_op_handler req (memcpy_operation src dst rng) res st
    = Some (res, st') /\
    copy_phase req st st'.
Proof.
  unfold requirement_op_handler. cbn [is_data_transfer negb].
  destruct (select_executor_live req (memcpy_operation src dst rng) st eq_refl)
    as (e & He).
  rewrite (bind_some _ He).
  destruct (submit_copy_phase e req (memcpy_operation src dst rng) st eq_refl)
    as (st' & Hs & Hphase).
  rewrite (bind_some _ Hs).
  exists st'. split; [reflexivity|exact Hphase].
Qed.

Lemma update_outdated_regions_copy (req : node_id)
  (bmem_req : buffer_memory_requirement) (dev : device_id)
  (outdated : list rect) (res : result) (st : state) :
  exists st',
    update_outdated_regions req bmem_req dev (requirement_op_handler req)
                            outdated res st
    = Some (res, st') /\
    copy_phase req st st'.
Proof.
  revert st. induction outdated as [|region rest IH]; intros st.
  - exists st. split; [reflexivity|apply copy_phase_refl].
  - cbn [update_outdated_regions]. rewrite bind_get_region.
    destruct (get_update_source_candidates
                (regions st (get_data_region bmem_req)) dev region)
      as [|source sources].
    + eexists. split; [reflexivity|].
      unfold copy_phase. simpl.
      repeat (split; [reflexivity|]).
      split; [intros m Hm; now rewrite update_neq by exact Hm|].
      rewrite update_eq.
      split; [repeat split; auto|].
      split; [reflexivity|]. split; [reflexivity|].
      split.
      * exists []. rewrite app_nil_r. repeat split; auto. congruence.
      * exists [no_update_sources]. split; [reflexivity|].
        repeat constructor.
    + destruct (requirement_op_handler_copy req
                  (mk_location (fst source) (fst (snd source))
                               (get_data_region bmem_req))
                  (mk_location dev (fst region) (get_data_region bmem_req))
                  (snd region) res st) as (st1 & Hh & Hphase1).
      rewrite (bind_some _ Hh).
      destruct (IH st1) as (st' & Hrun & Hphase2).
      exists st'. split; [exact Hrun|].
      eapply copy_phase_trans; eauto.
Qed.

Lemma for_each_explicit_operation_copy (req : node_id) (res : result)
  (st : state) :
  is_requirement (get_operation (nodes st req)) = true ->
  exists st',
    for_each_explicit_operation req (requirement_op_handler req) res st
    = Some (res, st') /\
    copy_phase req st st'.
Proof.
  intros Hreq. unfold for_each_explicit_operation.
  rewrite bind_get_node.
  destruct (is_submitted (nodes st req)).
  { exists st. split; [reflexivity|apply copy_phase_refl]. }
  rewrite Hreq. cbn [negb].
  unfold execute_if_buffer_requirement. rewrite bind_get_node.
  destruct (get_operation (nodes st req)) as [k|? ? ?|[bmem_req|]];
    try discriminate.
  - rewrite bind_get_node, bind_get_region.
    apply update_outdated_regions_copy.
  - exists st. split; [reflexivity|apply copy_phase_refl].
Qed.

End LiveExecutors.

Lemma execute_if_buffer_requirement_buffer {R} (node : node_id)
  (h : buffer_memory_requirement -> M DR AS R) (otherwise : R) (st : state)
  (bmem_req : buffer_memory_requirement) :
  get_operation (nodes st node)
  = requirement_operation (buffer_requirement bmem_req) ->
  execute_if_buffer_requirement node h otherwise st = h bmem_req st.
Proof.
  intros Hop. unfold execute_if_buffer_requirement.
  rewrite bind_get_node. now rewrite Hop.
Qed.

Lemma execute_if_buffer_requirement_other {R} (node : node_id)
  (h : buffer_memory_requirement -> M DR AS R) (otherwise : R) (st : state) :
  (forall b, get_operation (nodes st node)
             <> requirement_operation (buffer_requirement b)) ->
  execute_if_buffer_requirement node h otherwise st = Some (otherwise, st).
Proof.
  intros Hop. unfold execute_if_buffer_requirement.
  rewrite bind_get_node.
  destruct (get_operation (nodes st node)) as [k|? ? ?|[b|]];
    try reflexivity.
  now elim (Hop b).
Qed.

Arguments execute_if_buffer_requirement_buffer {R} node h otherwise
  {st bmem_req} _.
Arguments execute_if_buffer_requirement_other {R} node h otherwise {st} _.

Lemma other_is_no_buffer (st : state) (req : node_id) :
  get_operation (nodes st req) = requirement_operation other_requirement ->
  forall b, get_operation (nodes st req)
            <> requirement_operation (buffer_requirement b).
Proof. intros Hop b. rewrite Hop. discriminate. Qed.

(** A requirement that is no buffer requirement needs no allocation and no
    copy. *)
Lemma submit_requirement_other (req : node_id) (st : state) :
  get_operation (nodes st req) = requirement_operation other_requirement ->
  is_submitted (nodes st req) = false ->
  submit_requirement req st =
  Some (make_success,
        match get_event (nodes st req) with
        | None => with_nodes
                    (update (nodes st) req
                            (mark_virtually_submitted (nodes st req))) st
        | Some _ => st
        end).
Proof.
  intros Hop Hsub. pose proof (other_is_no_buffer st req Hop) as Hother.
  unfold submit_requirement. rewrite bind_get_node. rewrite Hop, Hsub.
  cbn [is_requirement negb orb].
  rewrite (bind_some _ (execute_if_buffer_requirement_other _ _ _ Hother)).
  cbn [fst snd is_success negb].
  rewrite (bind_some _ (execute_if_buffer_requirement_other _ _ _ Hother)).
  cbn [is_discard access_mode_eqb orb negb].
  assert (Hfor : for_each_explicit_operation req (requirement_op_handler req)
                   make_success st = Some (make_success, st)).
  { unfold for_each_explicit_operation. rewrite bind_get_node.
    rewrite Hsub, Hop. cbn [is_requirement negb].
    now apply execute_if_buffer_requirement_other. }
  rewrite (bind_some _ Hfor). cbn [is_success negb].
  rewrite bind_get_node.
  destruct (get_event (nodes st req)).
  - now rewrite (bind_some _ (execute_if_buffer_requirement_other _ _ _ Hother)).
  - now rewrite bind_modify_node.
Qed.

(** ** The footprint of requirement resolution *)

Lemma resolution_refl (st : state) : resolution st st.
Proof.
  unfold resolution. repeat split; auto.
  - exists []. now rewrite app_nil_r.
  - exists []. now rewrite app_nil_r.
Qed.

Lemma resolution_trans (st1 st2 st3 : state) :
  resolution st1 st2 -> resolution st2 st3 -> resolution st1 st3.
Proof.
  intros (Hn1 & Hk1 & Hg1 & (new1 & Hd1 & Hf1) & (errs1 & He1 & Hfe1))
         (Hn2 & Hk2 & Hg2 & (new2 & Hd2 & Hf2) & (errs2 & He2 & Hfe2)).
  assert (Hreq : forall m, is_requirement (get_operation (nodes st2 m))
                           = is_requirement (get_operation (nodes st1 m)))
    by (intros m; apply (Hk1 m)).
  unfold resolution.
  split.
  { intros m Hm. rewrite Hn2, Hn1; auto. now rewrite Hreq. }
  split; [intros m; eapply node_kept_trans; eauto|].
  split; [congruence|].
  split.
  - exists (new1 ++ new2). rewrite Hd2, Hd1, app_assoc.
    split; [reflexivity|]. apply Forall_app. split; [exact Hf1|].
    eapply Forall_impl; [|exact Hf2].
    intros d [Hdt Hrq]. split; [exact Hdt|]. now rewrite <- Hreq.
  - exists (errs1 ++ errs2). rewrite He2, He1, app_assoc.
    split; [reflexivity|apply Forall_app; auto].
Qed.

Lemma resolution_of_node_change (req : node_id) (f : dag_node -> dag_node)
  (st : state) :
  is_requirement (get_operation (nodes st req)) = true ->
  node_kept (nodes st req) (f (nodes st req)) ->
  resolution st (with_nodes (update (nodes st) req (f (nodes st req))) st).
Proof.
  intros Hreq Hkept. unfold resolution. simpl.
  split.
  { intros m Hm. rewrite update_neq; [reflexivity|].
    intros ->. congruence. }
  split.
  { intros m. destruct (Nat.eq_dec m req) as [->|Hne].
    - now rewrite update_eq.
    - rewrite update_neq by exact Hne. apply node_kept_refl. }
  split; [reflexivity|].
  split; exists []; now rewrite app_nil_r.
Qed.

(** ** Aborted submissions *)

Lemma error_step_nodes (st_mid st_err : state) :
  error_step st_mid st_err ->
  nodes st_err = nodes st_mid /\
  registry st_err = registry st_mid /\
  dispatched st_err = dispatched st_mid /\
  exists olds e, errors st_err = errors st_mid ++ olds ++ [e] /\
                 (etype e = Some feature_not_supported \/
                  e = lazy_allocation_failed).
Proof.
  intros [(e & He & ->)|(st_f & (Hn & _ & Hd & Hg & Herr & _) & ->)]; simpl.
  - repeat split. exists [], e. auto.
  - repeat split; auto.
    exists [lazy_allocation_failed], lazy_allocation_failed.
    rewrite Herr, <- app_assoc. auto.
Qed.

Lemma aborted_after_resolution (node : node_id) (st st_mid st_err st' : state) :
  resolution st st_mid -> error_step st_mid st_err ->
  abort_submission node st_err = Some (tt, st') ->
  submission_aborted node st st'.
Proof.
  intros (Hn & Hk & Hg & (new & Hd & Hf) & (errs & He & _)) Hstep Habort.
  destruct (error_step_nodes Hstep)
    as (Hne & Hge & Hde & (olds & e & Hee & Hety)).
  destruct (abort_submission_run node st_err)
    as (st'' & Habort' & (_ & _ & _ & Hes & Hds & Hgs) & Hns).
  rewrite Habort in Habort'. injection Habort' as <-.
  assert (Hreqs : get_requirements (nodes st_err node)
                  = get_requirements (nodes st node)).
  { rewrite Hne. apply (Hk node). }
  unfold submission_aborted.
  split; [rewrite Hns; apply aborted_nodes_cancelled|].
  split.
  { intros r Hin. rewrite Hns. apply aborted_nodes_submitted.
    now rewrite Hreqs. }
  split.
  { intros r Hin [Hop Hsub]. rewrite Hns.
    apply aborted_nodes_requirement; [now rewrite Hreqs|].
    rewrite Hne, (Hn r Hop). exact Hsub. }
  split; [congruence|].
  split.
  - exists new. split; [congruence|exact Hf].
  - exists (errs ++ olds), e. split; [|exact Hety].
    rewrite Hes, Hee, He, <- !app_assoc. reflexivity.
Qed.

Lemma assign_to_device_same (n : dag_node) :
  assign_to_device (get_assigned_device n) n = n.
Proof. now destruct n. Qed.

Lemma devices_assigned_refl (st : state) : devices_assigned st st.
Proof.
  split; [apply same_but_nodes_refl|].
  intros m. exists (get_assigned_device (nodes st m)).
  now rewrite assign_to_device_same.
Qed.

Lemma devices_assigned_trans (st1 st2 st3 : state) :
  devices_assigned st1 st2 -> devices_assigned st2 st3 ->
  devices_assigned st1 st3.
Proof.
  intros [Hs1 Hn1] [Hs2 Hn2].
  split; [eapply same_but_nodes_trans; eauto|].
  intros m. destruct (Hn1 m) as [d1 H1]. destruct (Hn2 m) as [d2 H2].
  exists d2. rewrite H2, H1. reflexivity.
Qed.

Lemma devices_assigned_modify (n : node_id) (d : device_id) (st : state) :
  devices_assigned st
    (with_nodes (update (nodes st) n (assign_to_device d (nodes st n))) st).
Proof.
  split; [repeat split|].
  intros m. simpl. destruct (Nat.eq_dec m n) as [->|Hne].
  - rewrite update_eq. eauto.
  - rewrite update_neq by exact Hne.
    exists (get_assigned_device (nodes st m)).
    now rewrite assign_to_device_same.
Qed.

Lemma assign_devices_run (target : device_id) (l : list node_id)
  (st : state) :
  exists st',
    for_each l (fun req => assign_devices_or_default req target) st
    = Some (tt, st') /\
    devices_assigned st st'.
Proof.
  revert st. induction l as [|req l IH]; intros st.
  - exists st. split; [reflexivity|apply devices_assigned_refl].
  - cbn [for_each].
    assert (Hstep : exists d,
               assign_devices_or_default req target st
               = Some (tt, with_nodes
                             (update (nodes st) req
                                (assign_to_device d (nodes st req))) st)).
    { unfold assign_devices_or_default. rewrite bind_get_node.
      destruct (bind_to_device (nodes st req)) as [d|];
        [exists d|exists target]; reflexivity. }
    destruct Hstep as [d Hstep]. rewrite (bind_some _ Hstep).
    destruct (IH (with_nodes
                    (update (nodes st) req
                       (assign_to_device d (nodes st req))) st))
      as (st' & Hrun & Hassigned).
    exists st'. split; [exact Hrun|].
    eapply devices_assigned_trans; [apply devices_assigned_modify|eauto].
Qed.

Lemma existsb_eqb_In (m : node_id) (l : list node_id) :
  existsb (Nat.eqb m) l = true <-> In m l.
Proof.
  rewrite existsb_exists. split.
  - intros (x & Hin & Heq). apply Nat.eqb_eq in Heq. now subst.
  - intros Hin. exists m. split; [exact Hin|apply Nat.eqb_refl].
Qed.

Lemma assign_devices_closed_form (target : device_id) (l : list node_id)
  (st : state) :
  exists st',
    for_each l (fun req => assign_devices_or_default req target) st
    = Some (tt, st') /\
    same_but_nodes st st' /\
    forall m,
      nodes st' m =
      if existsb (Nat.eqb m) l
      then assign_to_device
             (match bind_to_device (nodes st m) with
              | Some d => d
              | None => target
              end) (nodes st m)
      else nodes st m.
Proof.
  revert st. induction l as [|req l IH]; intros st.
  - exists st. split; [reflexivity|]. split; [apply same_but_nodes_refl|].
    reflexivity.
  - cbn [for_each].
    set (d := match bind_to_device (nodes st req) with
              | Some d => d
              | None => target
              end).
    assert (Hstep : assign_devices_or_default req target st
                    = Some (tt, with_nodes
                                  (update (nodes st) req
                                     (assign_to_device d (nodes st req))) st)).
    { unfold assign_devices_or_default. rewrite bind_get_node. subst d.
      now destruct (bind_to_device (nodes st req)). }
    rewrite (bind_some _ Hstep).
    destruct (IH (with_nodes
                    (update (nodes st) req
                       (assign_to_device d (nodes st req))) st))
      as (st' & Hrun & Hsame & Hn).
    exists st'. split; [exact Hrun|]. split.
    { eapply same_but_nodes_trans; [|exact Hsame]. repeat split. }
    intros m. rewrite Hn. cbn [nodes with_nodes existsb].
    destruct (Nat.eqb_spec m req) as [->|Hne].
    + rewrite update_eq. cbn [orb bind_to_device assign_to_device].
      fold d. now destruct (existsb (Nat.eqb req) l).
    + rewrite update_neq by exact Hne. reflexivity.
Qed.

Lemma submission_aborted_assigned (node : node_id) (st st0 st' : state) :
  devices_assigned st st0 ->
  submission_aborted node st0 st' -> submission_aborted node st st'.
Proof.
  intros [(_ & _ & _ & He & Hd & Hg) Hn]
         (Hc & Hsub & Hpred & Hreg & (new & Hdisp & Hf) & Herr).
  assert (Hfield : forall m,
             get_requirements (nodes st0 m) = get_requirements (nodes st m) /\
             get_operation (nodes st0 m) = get_operation (nodes st m) /\
             is_submitted (nodes st0 m) = is_submitted (nodes st m)).
  { intros m. destruct (Hn m) as [d ->]. repeat split. }
  unfold submission_aborted.
  split; [exact Hc|].
  split; [intros r Hin; apply Hsub; now rewrite (proj1 (Hfield node))|].
  split.
  { intros r Hin [Hop Hs]. apply Hpred.
    - now rewrite (proj1 (Hfield node)).
    - destruct (Hfield r) as (_ & Ho & Hsb). split; congruence. }
  split; [congruence|].
  split.
  - exists new. split; [congruence|].
    eapply Forall_impl; [|exact Hf].
    intros d [Hdt Hrq]. split; [exact Hdt|].
    destruct (Hfield (d_node d)) as (_ & Ho & _). congruence.
  - destruct Herr as (olds & e & Herr & Hety).
    exists olds, e. split; [congruence|exact Hety].
Qed.

Section Lawful.

(** The contract of the data region: [get_memory] succeeds where
    [has_allocation] answers yes, and a registered allocation is seen. *)
Hypothesis get_memory_of_allocation :
  forall (dr : DR) d, has_allocation dr d = true -> get_memory dr d <> None.
Hypothesis has_allocation_after_add :
  forall (dr : DR) d p, has_allocation (add_empty_allocation dr d p) d = true.

(** Every backend has an executor and an allocator for every device. *)
Hypothesis live_executors : forall b d, get_executor b d <> None.
Hypothesis live_allocators : forall b d, get_allocator b d <> None.

Lemma allocation_step_has_allocation (dev : device_id) (dr dr1 : DR) :
  allocation_step dev dr dr1 -> has_allocation dr1 dev = true.
Proof.
  intros [[Hhas ->]|[_ (p & _ & ->)]];
    [exact Hhas|apply has_allocation_after_add].
Qed.

Lemma ensure_allocation_exists_outcome
  (bmem_req : buffer_memory_requirement) (dev : device_id) (st : state) :
  exists res st1,
    ensure_allocation_exists bmem_req dev st = Some (res, st1) /\
    ((res = make_error lazy_allocation_failed /\ failed_allocation st st1) \/
     (res = make_success /\ allocated (get_data_region bmem_req) dev st st1)).
Proof.
  destruct (has_allocation (regions st (get_data_region bmem_req)) dev)
    eqn:Hhas.
  - exists make_success, st.
    split; [now apply ensure_allocation_exists_allocated|].
    right. split; [reflexivity|].
    unfold allocated. repeat split; auto.
    left. auto.
  - destruct (get_allocator (get_backend dev) dev) as [a|] eqn:Ha;
      [|now apply live_allocators in Ha].
    destruct (allocate a 128
                (allocation_size (regions st (get_data_region bmem_req)))
                (device_memory st)) as [p mem] eqn:Halloc.
    rewrite (ensure_allocation_exists_fresh bmem_req dev st Hhas Ha Halloc).
    destruct (N.eqb_spec p nullptr) as [Hp|Hp].
    + eexists _, _. split; [reflexivity|]. left. split; [reflexivity|].
      unfold failed_allocation. simpl. repeat split; eauto.
    + eexists _, _. split; [reflexivity|]. right. split; [reflexivity|].
      unfold allocated. simpl.
      repeat (split; [reflexivity|]).
      split; [intros r Hr; now rewrite update_neq by exact Hr|].
      rewrite update_eq.
      split; [right; split; [exact Hhas|]; exists p; auto|].
      right. eauto.
Qed.

Lemma initialize_memory_access_run (req : node_id)
  (bmem_req : buffer_memory_requirement) (dev : device_id) (st : state) :
  has_allocation (regions st (get_data_region bmem_req)) dev = true ->
  exists p,
    initialize_memory_access req bmem_req dev st
    = Some (tt, with_nodes
                  (update (nodes st) req
                     (set_operation
                        (requirement_operation
                           (buffer_requirement
                              (initialize_device_data p bmem_req)))
                        (nodes st req))) st).
Proof.
  intros Hhas. unfold initialize_memory_access. rewrite bind_get_region.
  destruct (get_memory (regions st (get_data_region bmem_req)) dev)
    as [p|] eqn:Hmem.
  - exists p. reflexivity.
  - now apply get_memory_of_allocation in Hmem.
Qed.

Lemma submit_requirement_buffer (req : node_id)
  (bmem_req : buffer_memory_requirement) (st : state) :
  get_operation (nodes st req)
  = requirement_operation (buffer_requirement bmem_req) ->
  is_submitted (nodes st req) = false ->
  exists res st',
    submit_requirement req st = Some (res, st') /\
    ((res = make_error lazy_allocation_failed /\ failed_allocation st st') \/
     (res = make_success /\ buffer_resolved req bmem_req st st')).
Proof.
  intros Hop Hsub.
  set (dev := get_assigned_device (nodes st req)).
  set (rid := get_data_region bmem_req).
  set (mode := get_access_mode bmem_req).
  unfold submit_requirement. rewrite bind_get_node. rewrite Hop, Hsub.
  cbn [is_requirement negb orb].
  (* the allocation *)
  destruct (ensure_allocation_exists_outcome bmem_req dev st)
    as (res1 & st1 & Hens & Hout).
  assert (Hc1 : execute_if_buffer_requirement req
                  (fun bmem_req =>
                     dev <- assigned_device_of req ;;
                     res <- ensure_allocation_exists bmem_req dev ;;
                     ret (res, get_access_mode bmem_req))
                  (make_success, read_write) st
                = Some ((res1, mode), st1)).
  { rewrite (execute_if_buffer_requirement_buffer _ _ _ Hop).
    rewrite bind_assigned_device_of. fold dev.
    now rewrite (bind_some _ Hens). }
  rewrite (bind_some _ Hc1). cbn [fst snd].
  destruct Hout as [[-> Hfail]|[-> Hall]].
  { exists (make_error lazy_allocation_failed), st1.
    split; [reflexivity|]. left. auto. }
  cbn [is_success negb].
  destruct Hall as (Hn1 & He1 & Hd1 & Hg1 & Hr1 & Hstep & Hcalls).
  (* the device pointer *)
  assert (Hop1 : get_operation (nodes st1 req)
                 = requirement_operation (buffer_requirement bmem_req))
    by (now rewrite Hn1).
  destruct (initialize_memory_access_run req bmem_req dev st1
              (allocation_step_has_allocation Hstep)) as (p & Hinit).
  assert (Hc2 : execute_if_buffer_requirement req
                  (fun bmem_req =>
                     dev <- assigned_device_of req ;;
                     initialize_memory_access req bmem_req dev) tt st1
                = Some (tt, with_nodes
                              (update (nodes st1) req
                                 (set_operation
                                    (requirement_operation
                                       (buffer_requirement
                                          (initialize_device_data p bmem_req)))
                                    (nodes st1 req))) st1)).
  { rewrite (execute_if_buffer_requirement_buffer _ _ _ Hop1).
    rewrite bind_assigned_device_of.
    replace (get_assigned_device (nodes st1 req)) with dev
      by (unfold dev; now rewrite Hn1).
    exact Hinit. }
  rewrite (bind_some _ Hc2).
  set (bmem2 := initialize_device_data p bmem_req) in *.
  set (st2 := with_nodes _ st1) in *.
  assert (Hop2 : get_operation (nodes st2 req)
                 = requirement_operation (buffer_requirement bmem2))
    by (subst st2; simpl; now rewrite update_eq).
  (* the copies *)
  assert (Hcopy : exists st3,
             (if negb (is_discard mode)
              then for_each_explicit_operation req
                     (requirement_op_handler req) make_success
              else ret make_success) st2 = Some (make_success, st3) /\
             copy_phase req st2 st3 /\
             (is_discard mode = true -> dispatched st3 = dispatched st2)).
  { destruct (is_discard mode); cbn [negb].
    - exists st2. split; [reflexivity|].
      split; [apply copy_phase_refl|reflexivity].
    - destruct (for_each_explicit_operation_copy live_executors req
                  make_success st2) as (st3 & Hrun & Hphase).
      { now rewrite Hop2. }
      exists st3. split; [exact Hrun|]. split; [exact Hphase|discriminate]. }
  destruct Hcopy as (st3 & Hc3 & Hphase & Hdiscard).
  rewrite (bind_some _ Hc3). cbn [is_success negb].
  rewrite bind_get_node.
  destruct Hphase as (Hr3 & Hm3 & Ha3 & Hg3 & Ho3 & Hk3 & Hop3 & Hv3
                      & (new & Hd3 & Hf3 & Hev3 & Hne3)
                      & (errs & Hes3 & Hfe3)).
  assert (Hkept2 : node_kept (nodes st req) (nodes st2 req)).
  { subst st2. simpl. rewrite update_eq, Hn1.
    repeat split; auto. simpl. now rewrite Hop. }
  assert (Hdev3 : get_assigned_device (nodes st3 req) = dev).
  { destruct Hk3 as (_ & _ & Hdv & _). rewrite Hdv.
    subst st2. simpl. now rewrite update_eq, Hn1. }
  assert (Hev2 : get_event (nodes st2 req) = get_event (nodes st req)).
  { subst st2. simpl. now rewrite update_eq, Hn1. }
  assert (Hvirt2 : is_virtual (nodes st2 req) = is_virtual (nodes st req)).
  { subst st2. simpl. now rewrite update_eq, Hn1. }
  assert (Hnew : is_discard mode = true -> new = []).
  { intros Hdis. specialize (Hdiscard Hdis). rewrite Hd3 in Hdiscard.
    rewrite <- (app_nil_r (dispatched st2)) in Hdiscard at 2.
    now apply app_inv_head in Hdiscard. }
  destruct (get_event (nodes st3 req)) as [ev|] eqn:Hevent.
  - (* an event: the region tracker is updated *)
    assert (Hc4 : execute_if_buffer_requirement req
                    (mark_accessed_range req mode) tt st3
                  = Some (tt, with_regions
                                (update (regions st3) rid
                                   (mark_access mode dev bmem_req
                                      (regions st3 rid))) st3)).
    { rewrite (execute_if_buffer_requirement_buffer _ _ _
                 (eq_trans Hop3 Hop2)).
      unfold mark_accessed_range. rewrite bind_assigned_device_of.
      rewrite Hdev3. unfold mark_access.
      destruct (access_mode_eqb mode read); reflexivity. }
    rewrite (bind_some _ Hc4).
    eexists _, _. split; [reflexivity|]. right. split; [reflexivity|].
    unfold buffer_resolved. fold dev rid mode. simpl.
    split.
    { intros m Hm. rewrite Ho3 by exact Hm. subst st2. simpl.
      rewrite update_neq by exact Hm. now rewrite Hn1. }
    split; [eapply node_kept_trans; eauto|].
    split; [rewrite Hg3; subst st2; simpl; exact Hg1|].
    split; [rewrite Ha3; subst st2; simpl; exact Hcalls|].
    split.
    { exists errs. split; [|exact Hfe3].
      rewrite Hes3. subst st2. simpl. now rewrite He1. }
    split.
    { intros r Hr. rewrite update_neq by exact Hr.
      rewrite Hr3. subst st2. simpl. now apply Hr1. }
    exists (regions st1 rid), new.
    split; [exact Hstep|].
    split; [rewrite Hd3; subst st2; simpl; now rewrite Hd1|].
    split; [exact Hf3|]. split; [exact Hnew|].
    rewrite update_eq.
    assert (Hreg3 : regions st3 rid = regions st1 rid)
      by (rewrite Hr3; subst st2; reflexivity).
    rewrite Hreg3.
    split.
    { intros Hnone ->. specialize (Hev3 eq_refl).
      rewrite Hev2, Hnone in Hev3. discriminate. }
    split.
    { intros Hnone Hne. destruct (Hne3 Hne) as [Hdev Hsub3].
      rewrite Hevent, Hv3, Hvirt2. auto. }
    reflexivity.
  - (* no event: the requirement becomes virtual *)
    rewrite bind_modify_node.
    eexists _, _. split; [reflexivity|]. right. split; [reflexivity|].
    unfold buffer_resolved. fold dev rid mode. simpl.
    split.
    { intros m Hm. rewrite update_neq by exact Hm.
      rewrite Ho3 by exact Hm. subst st2. simpl.
      rewrite update_neq by exact Hm. now rewrite Hn1. }
    rewrite update_eq.
    split.
    { eapply node_kept_trans; [exact Hkept2|].
      eapply node_kept_trans; [exact Hk3|].
      repeat split; auto. }
    split; [rewrite Hg3; subst st2; simpl; exact Hg1|].
    split; [rewrite Ha3; subst st2; simpl; exact Hcalls|].
    split.
    { exists errs. split; [|exact Hfe3].
      rewrite Hes3. subst st2. simpl. now rewrite He1. }
    split.
    { intros r Hr. rewrite Hr3. subst st2. simpl. now apply Hr1. }
    exists (regions st1 rid), new.
    split; [exact Hstep|].
    split; [rewrite Hd3; subst st2; simpl; now rewrite Hd1|].
    split; [exact Hf3|]. split; [exact Hnew|].
    assert (Hreg3 : regions st3 rid = regions st1 rid)
      by (rewrite Hr3; subst st2; reflexivity).
    split; [intros _ _; simpl; auto|].
    split.
    { intros _ Hne. destruct (Hne3 Hne) as [Hdev _]. discriminate. }
    intros Hsome. exfalso.
    destruct new as [|d new'].
    + specialize (Hev3 eq_refl). rewrite Hev2 in Hev3. now apply Hsome.
    + destruct (Hne3 ltac:(discriminate)) as [Hdev _]. discriminate.
Qed.

Lemma buffer_resolved_resolution (req : node_id)
  (bmem_req : buffer_memory_requirement) (st st' : state) :
  is_requirement (get_operation (nodes st req)) = true ->
  buffer_resolved req bmem_req st st' -> resolution st st'.
Proof.
  intros Hreq (Hother & Hkept & Hreg & _ & Herrs & _
               & (dr1 & new & _ & Hd & Hf & _)).
  unfold resolution.
  split.
  { intros m Hm. apply Hother. intros ->. congruence. }
  split.
  { intros m. destruct (Nat.eq_dec m req) as [->|Hne]; [exact Hkept|].
    rewrite Hother by exact Hne. apply node_kept_refl. }
  split; [exact Hreg|]. split; [|exact Herrs].
  exists new. split; [exact Hd|].
  eapply Forall_impl; [|exact Hf].
  intros d [Hnode Hdt]. split; [exact Hdt|]. now rewrite Hnode.
Qed.

(** [submit_requirement] returns; it fails only when the lazy allocation
    of an unsubmitted requirement fails. *)
Lemma submit_requirement_outcome (req : node_id) (st : state) :
  exists res st',
    submit_requirement req st = Some (res, st') /\
    ((res = make_error lazy_allocation_failed /\
      failed_allocation st st') \/
     (res = make_success /\ resolution st st')).
Proof.
  destruct (is_requirement (get_operation (nodes st req))) eqn:Hreq;
    [destruct (is_submitted (nodes st req)) eqn:Hsub|].
  - exists make_success, st. split; [|right; split; [reflexivity|]].
    + unfold submit_requirement. rewrite bind_get_node.
      now rewrite Hreq, Hsub.
    + apply resolution_refl.
  - destruct (get_operation (nodes st req)) as [k|? ? ?|[bmem_req|]] eqn:Hop;
      try discriminate.
    + destruct (submit_requirement_buffer req st Hop Hsub)
        as (res & st' & Hrun & [[-> Hfail]|[-> Hres]]).
      * exists (make_error lazy_allocation_failed), st'. auto.
      * exists make_success, st'. split; [exact Hrun|]. right.
        split; [reflexivity|].
        eapply buffer_resolved_resolution; [|exact Hres]. now rewrite Hop.
    + eexists _, _. split; [now apply submit_requirement_other|].
      right. split; [reflexivity|].
      destruct (get_event (nodes st req)); [apply resolution_refl|].
      apply resolution_of_node_change; [now rewrite Hop|].
      repeat split; auto.
  - exists make_success, st. split; [|right; split; [reflexivity|]].
    + unfold submit_requirement. rewrite bind_get_node.
      now rewrite Hreq.
    + apply resolution_refl.
Qed.

(** ** The loop over the requirements *)

Lemma submit_requirements_outcome (node : node_id) (reqs : list node_id)
  (st : state) :
  exists b st',
    submit_requirements node reqs st = Some (b, st') /\
    (b = false ->
       resolution st st' /\
       Forall (fun r => ~ unsubmitted_predecessor st r) reqs) /\
    (b = true ->
       exists st_mid st_err,
         resolution st st_mid /\ error_step st_mid st_err /\
         abort_submission node st_err = Some (tt, st')).
Proof.
  revert st. induction reqs as [|req rest IH]; intros st.
  - exists false, st. split; [reflexivity|].
    split; [intros _; split; [apply resolution_refl|constructor]|discriminate].
  - cbn [submit_requirements]. rewrite bind_get_node.
    destruct (is_requirement (get_operation (nodes st req))) eqn:Hreq;
      cbn [negb].
    + destruct (submit_requirement_outcome req st)
        as (res & st1 & Hrun & [[-> Hfail]|[-> Hres]]);
        rewrite (bind_some _ Hrun); cbn [is_success negb].
      * cbn [register_error_result].
        destruct (abort_submission_run node
                    (push_error lazy_allocation_failed st1))
          as (st' & Habort & _).
        exists true, st'. split.
        { unfold bind at 1. unfold bind at 1. now rewrite Habort. }
        split; [discriminate|]. intros _.
        exists st, (push_error lazy_allocation_failed st1).
        split; [apply resolution_refl|]. split; [|exact Habort].
        right. exists st1. auto.
      * destruct (IH st1) as (b & st' & Hloop & Hfalse & Htrue).
        exists b, st'. split; [exact Hloop|]. split.
        { intros Hb. destruct (Hfalse Hb) as [Hres' Hall].
          split; [eapply resolution_trans; eauto|].
          constructor.
          - intros [Hk _]. congruence.
          - eapply Forall_impl; [|exact Hall].
            intros r Hr [Hk Hs]. apply Hr.
            destruct Hres as (Hn & _). unfold unsubmitted_predecessor.
            rewrite (Hn r Hk). auto. }
        { intros Hb. destruct (Htrue Hb) as (st_mid & st_err & Hr & He & Ha).
          exists st_mid, st_err. split; [|auto].
          eapply resolution_trans; eauto. }
    + destruct (is_submitted (nodes st req)) eqn:Hsub; cbn [negb].
      * destruct (IH st) as (b & st' & Hloop & Hfalse & Htrue).
        exists b, st'. split; [exact Hloop|]. split; [|exact Htrue].
        intros Hb. destruct (Hfalse Hb) as [Hres' Hall].
        split; [exact Hres'|]. constructor; [|exact Hall].
        intros [_ Hs]. congruence.
      * rewrite bind_register_error.
        destruct (abort_submission_run node
                    (push_error multiple_unsubmitted_nodes st))
          as (st' & Habort & _).
        exists true, st'. split.
        { unfold bind at 1. now rewrite Habort. }
        split; [discriminate|]. intros _.
        exists st, (push_error multiple_unsubmitted_nodes st).
        split; [apply resolution_refl|]. split; [|exact Habort].
        left. exists multiple_unsubmitted_nodes. auto.
Qed.

(** ** [dag_direct_scheduler::submit] returns, aborted or completed *)

Lemma submission_completed_assigned (node : node_id) (st st0 st' : state) :
  devices_assigned st st0 ->
  submission_completed node st0 st' -> submission_completed node st st'.
Proof.
  intros [(_ & _ & _ & He & _ & Hg) _] [Hreg (errs & Herr & Hf)].
  split; [congruence|]. exists errs. split; [congruence|exact Hf].
Qed.

Lemma unsubmitted_predecessor_assigned (st st0 : state) (r : node_id) :
  devices_assigned st st0 ->
  unsubmitted_predecessor st r -> unsubmitted_predecessor st0 r.
Proof.
  intros [_ Hn] [Hop Hsub]. destruct (Hn r) as [d Hd].
  unfold unsubmitted_predecessor. rewrite Hd. auto.
Qed.

Lemma submit_outcome (node : node_id) (st : state) :
  exists st',
    dag_direct_scheduler_submit node st = Some (tt, st') /\
    (submission_aborted node st st' \/
     (submission_completed node st st' /\
      bind_to_device (nodes st node) <> None /\
      Forall (fun r => ~ unsubmitted_predecessor st r)
             (get_requirements (nodes st node)))).
Proof.
  unfold dag_direct_scheduler_submit. rewrite bind_get_node.
  destruct (bind_to_device (nodes st node)) as [target|] eqn:Hhint.
  2:{ rewrite bind_register_error.
      destruct (abort_submission_run node (push_error not_bound_to_device st))
        as (st' & Habort & _).
      exists st'. split; [exact Habort|]. left.
      eapply aborted_after_resolution;
        [apply resolution_refl| |exact Habort].
      left. exists not_bound_to_device. auto. }
  rewrite bind_modify_node.
  set (st_a := with_nodes _ st).
  destruct (assign_devices_run target (get_requirements (nodes st node)) st_a)
    as (st0 & Hrun0 & Hass0).
  rewrite (bind_some _ Hrun0).
  assert (Hass : devices_assigned st st0).
  { eapply devices_assigned_trans; [|exact Hass0].
    apply devices_assigned_modify. }
  destruct (submit_requirements_outcome node
              (get_requirements (nodes st node)) st0)
    as (b & st1 & Hloop & Hfalse & Htrue).
  rewrite (bind_some _ Hloop).
  destruct b.
  { exists st1. split; [reflexivity|]. left.
    destruct (Htrue eq_refl) as (st_mid & st_err & Hres & Hstep & Habort).
    eapply submission_aborted_assigned; [exact Hass|].
    eapply aborted_after_resolution; eauto. }
  destruct (Hfalse eq_refl) as [Hres Hall]. clear Hfalse Htrue.
  assert (Hall' : Forall (fun r => ~ unsubmitted_predecessor st r)
                         (get_requirements (nodes st node))).
  { eapply Forall_impl; [|exact Hall].
    intros r Hr Hpred. apply Hr.
    eapply unsubmitted_predecessor_assigned; eauto. }
  rewrite bind_get_node.
  destruct (is_requirement (get_operation (nodes st1 node))) eqn:Hreq.
  - destruct (submit_requirement_outcome node st1)
      as (res & st2 & Hrun & [[-> Hfail]|[-> Hres2]]);
      rewrite (bind_some _ Hrun); cbn [is_success negb].
    + cbn [register_error_result].
      destruct (abort_submission_run node
                  (push_error lazy_allocation_failed st2))
        as (st' & Habort & _).
      exists st'. split.
      { unfold bind at 1. exact Habort. }
      left. eapply submission_aborted_assigned; [exact Hass|].
      eapply aborted_after_resolution; [exact Hres| |exact Habort].
      right. exists st2. auto.
    + eexists. split; [reflexivity|]. right.
      split; [|split; [congruence|exact Hall']].
      eapply submission_completed_assigned; [exact Hass|].
      destruct (resolution_trans Hres Hres2)
        as (_ & _ & Hg & _ & Herrs).
      split; [simpl; now rewrite Hg|exact Herrs].
  - destruct (select_executor_live live_executors node
                (get_operation (nodes st1 node)) st1 Hreq) as (e & Hsel).
    rewrite (bind_some _ Hsel).
    rewrite (bind_some _ (submit_live_run e node _ st1)).
    eexists. split; [reflexivity|]. right.
    split; [|split; [congruence|exact Hall']].
    eapply submission_completed_assigned; [exact Hass|].
    destruct Hres as (_ & _ & Hg & _ & Herrs).
    split; [simpl; now rewrite Hg|exact Herrs].
Qed.

End Lawful.

(** ** Runs that return

    A call through a null pointer and a failed [assert] leave no result.
    The lemmas of this part read off a result what the call has done,
    whatever the backends and the data region are. *)

Lemma bind_inv {A B} (c : M DR AS A) (k : A -> M DR AS B) (st st' : state)
  (b : B) :
  bind c k st = Some (b, st') ->
  exists a st1, c st = Some (a, st1) /\ k a st1 = Some (b, st').
Proof.
  unfold bind. destruct (c st) as [[a st1]|]; [eauto|discriminate].
Qed.

Lemma select_executor_run (node : node_id) (op : operation) (st : state) :
  is_requirement op = false ->
  select_executor node op st
  = Some (get_executor
            (match has_preferred_backend op with
             | Some b => b
             | None => get_backend (get_assigned_device (nodes st node))
             end) (get_assigned_device (nodes st node)), st).
Proof.
  intros Hop. unfold select_executor. rewrite bind_get_node, Hop.
  now destruct (has_preferred_backend op).
Qed.

Lemma submit_null_executor (node : node_id) (op : operation) (st : state) :
  submit None node op st = None.
Proof. reflexivity. Qed.

Lemma requirement_op_handler_inv (req : node_id) (src dst : memory_location)
  (rng : range3) (res res' : result) (st st' : state) :
  requirement_op_handler req (memcpy_operation src dst rng) res st
  = Some (res', st') ->
  res' = res /\
  exists e, st' = after_submit e req (memcpy_operation src dst rng) st.
Proof.
  unfold requirement_op_handler. cbn [is_data_transfer negb].
  rewrite (bind_some _ (@select_executor_run req
                          (memcpy_operation src dst rng) st eq_refl)).
  destruct (get_executor _ _) as [e|].
  - rewrite (bind_some _ (submit_live_run e req _ st)).
    intros Hrun. injection Hrun as <- <-. eauto.
  - unfold bind at 1. rewrite submit_null_executor. discriminate.
Qed.

Lemma ensure_allocation_exists_inv (bmem_req : buffer_memory_requirement)
  (dev : device_id) (st st1 : state) (res : result) :
  ensure_allocation_exists bmem_req dev st = Some (res, st1) ->
  let dr := regions st (get_data_region bmem_req) in
  (has_allocation dr dev = true /\ res = make_success /\ st1 = st) \/
  (has_allocation dr dev = false /\
   exists a p mem,
     get_allocator (get_backend dev) dev = Some a /\
     allocate a 128 (allocation_size dr) (device_memory st) = (p, mem) /\
     ((p = nullptr /\ res = make_error lazy_allocation_failed /\
       st1 = push_error lazy_allocation_failed
               (after_allocate a 128 (allocation_size dr) mem st)) \/
      (p <> nullptr /\ res = make_success /\
       st1 = register_allocation (get_data_region bmem_req) dev p
               (after_allocate a 128 (allocation_size dr) mem st)))).
Proof.
  intros Hrun dr. subst dr.
  destruct (has_allocation (regions st (get_data_region bmem_req)) dev)
    eqn:Hhas.
  - rewrite (ensure_allocation_exists_allocated bmem_req dev st Hhas) in Hrun.
    injection Hrun as <- <-. left. auto.
  - right. split; [reflexivity|].
    destruct (get_allocator (get_backend dev) dev) as [a|] eqn:Ha.
    2:{ rewrite (ensure_allocation_exists_null_allocator bmem_req dev st
                   Hhas Ha) in Hrun. discriminate. }
    destruct (allocate a 128
                (allocation_size (regions st (get_data_region bmem_req)))
                (device_memory st)) as [p mem] eqn:Halloc.
    rewrite (ensure_allocation_exists_fresh bmem_req dev st Hhas Ha Halloc)
      in Hrun.
    exists a, p, mem. split; [reflexivity|]. split; [exact Halloc|].
    destruct (N.eqb_spec p nullptr) as [Hp|Hp]; injection Hrun as <- <-;
      [left|right]; auto.
Qed.

(** The footprint of the allocation step. *)
Lemma ensure_allocation_exists_footprint
  (bmem_req : buffer_memory_requirement) (dev : device_id) (st st1 : state)
  (res : result) :
  ensure_allocation_exists bmem_req dev st = Some (res, st1) ->
  (res = make_error lazy_allocation_failed /\ failed_allocation st st1) \/
  (res = make_success /\ allocated (get_data_region bmem_req) dev st st1).
Proof.
  intros Hrun.
  destruct (ensure_allocation_exists_inv _ _ _ Hrun)
    as [(Hhas & -> & ->)
       |(Hhas & a & p & mem & Ha & Halloc
         & [(-> & -> & ->)|(Hp & -> & ->)])].
  - right. split; [reflexivity|].
    unfold allocated. repeat split; auto. left. auto.
  - left. split; [reflexivity|].
    unfold failed_allocation. simpl. repeat split; eauto.
  - right. split; [reflexivity|].
    unfold allocated. simpl.
    repeat (split; [reflexivity|]).
    split; [intros r Hr; now rewrite update_neq by exact Hr|].
    rewrite update_eq.
    split; [right; split; [exact Hhas|]; exists p; auto|].
    right. eauto.
Qed.

(** The copies issued for a requirement, read off a run that returned. *)
Lemma update_outdated_regions_inv (req : node_id)
  (bmem_req : buffer_memory_requirement) (target : device_id)
  (outdated : list rect) (res res' : result) (st st' : state) :
  update_outdated_regions req bmem_req target (requirement_op_handler req)
                          outdated res st = Some (res', st') ->
  res' = res /\
  copy_phase req st st' /\
  exists new covered,
    dispatched st' = dispatched st ++ new /\
    Forall2 (copy_from_first_source
               (regions st (get_data_region bmem_req)) target
               (get_data_region bmem_req) req) covered new /\
    (covered = outdated \/
     exists region rest,
       outdated = covered ++ region :: rest /\
       get_update_source_candidates
         (regions st (get_data_region bmem_req)) target region = []).
Proof.
  revert st. induction outdated as [|region rest IH]; intros st Hrun.
  - cbn [update_outdated_regions] in Hrun. injection Hrun as <- <-.
    split; [reflexivity|]. split; [apply copy_phase_refl|].
    exists [], []. rewrite app_nil_r.
    split; [reflexivity|]. split; [constructor|now left].
  - cbn [update_outdated_regions] in Hrun. rewrite bind_get_region in Hrun.
    destruct (get_update_source_candidates
                (regions st (get_data_region bmem_req)) target region)
      as [|source others] eqn:Hsrc.
    + assert (Hcalc :
                (register_error no_update_sources ;;
                 modify_node req cancel ;; ret res) st
                = Some (res, with_nodes
                               (update (nodes st) req (cancel (nodes st req)))
                               (push_error no_update_sources st)))
        by reflexivity.
      rewrite Hcalc in Hrun. injection Hrun as <- <-.
      split; [reflexivity|]. split.
      * unfold copy_phase. simpl.
        repeat (split; [reflexivity|]).
        split; [intros m Hm; now rewrite update_neq by exact Hm|].
        rewrite update_eq.
        split; [repeat split; auto|].
        split; [reflexivity|]. split; [reflexivity|].
        split.
        -- exists []. rewrite app_nil_r. repeat split; auto. congruence.
        -- exists [no_update_sources]. split; [reflexivity|].
           repeat constructor.
      * exists [], []. cbn [dispatched with_nodes push_error].
        rewrite app_nil_r. split; [reflexivity|]. split; [constructor|].
        right. exists region, rest. auto.
    + apply bind_inv in Hrun as (acc' & st1 & Hh & Hrest).
      apply requirement_op_handler_inv in Hh as [-> (e & ->)].
      set (op := memcpy_operation _ _ _) in *.
      destruct (IH _ Hrest) as (Hres & Hphase2 & new & covered & Hd & Hf & Hcase).
      split; [exact Hres|]. split.
      { eapply copy_phase_trans; [|exact Hphase2].
        destruct (submit_copy_phase e req op st eq_refl)
          as (st1' & Hs & Hph).
        rewrite submit_live_run in Hs. injection Hs as <-. exact Hph. }
      exists (mk_dispatch e req op
                (compress_requirements (nodes st)
                   (nonvirtual_requirements (nodes st) req)) :: new),
             (region :: covered).
      split; [rewrite Hd; cbn [dispatched after_submit];
              now rewrite <- app_assoc|].
      split.
      { constructor; [|exact Hf].
        split; [reflexivity|]. exists source, others. auto. }
      destruct Hcase as [->|(r & rs & -> & Hnone)]; [now left|].
      right. exists r, rs. auto.
Qed.

Lemma for_each_explicit_operation_inv (req : node_id) (res res' : result)
  (st st' : state) :
  is_requirement (get_operation (nodes st req)) = true ->
  for_each_explicit_operation req (requirement_op_handler req) res st
  = Some (res', st') ->
  res' = res /\ copy_phase req st st'.
Proof.
  intros Hreq. unfold for_each_explicit_operation. rewrite bind_get_node.
  destruct (is_submitted (nodes st req)).
  { intros Hrun. injection Hrun as <- <-.
    split; [reflexivity|apply copy_phase_refl]. }
  rewrite Hreq. cbn [negb].
  unfold execute_if_buffer_requirement. rewrite bind_get_node.
  destruct (get_operation (nodes st req)) as [k|? ? ?|[bmem_req|]];
    try discriminate.
  - rewrite bind_get_node, bind_get_region. intros Hrun.
    apply update_outdated_regions_inv in Hrun as (Hres & Hphase & _). auto.
  - intros Hrun. injection Hrun as <- <-.
    split; [reflexivity|apply copy_phase_refl].
Qed.

(** The phases of the resolution of a buffer requirement that returned: the
    allocation, the device pointer, the copies, and the virtual submission
    or the update of the region tracker. *)
Lemma submit_requirement_phases_inv (req : node_id)
  (bmem_req : buffer_memory_requirement) (st st' : state) (res : result) :
  get_operation (nodes st req)
  = requirement_operation (buffer_requirement bmem_req) ->
  is_submitted (nodes st req) = false ->
  submit_requirement req st = Some (res, st') ->
  let dev := get_assigned_device (nodes st req) in
  let rid := get_data_region bmem_req in
  let mode := get_access_mode bmem_req in
  (res = make_error lazy_allocation_failed /\
   allocation_failure req st st') \/
  (res = make_success /\
   exists st1 p st3,
     let st2 := with_nodes
                  (update (nodes st1) req
                     (set_operation
                        (requirement_operation
                           (buffer_requirement
                              (initialize_device_data p bmem_req)))
                        (nodes st1 req))) st1 in
     allocated rid dev st st1 /\
     get_memory (regions st1 rid) dev = Some p /\
     (if negb (is_discard mode)
      then for_each_explicit_operation req (requirement_op_handler req)
             make_success
      else ret make_success) st2 = Some (make_success, st3) /\
     copy_phase req st2 st3 /\
     st' = match get_event (nodes st3 req) with
           | None =>
               with_nodes
                 (update (nodes st3) req
                    (mark_virtually_submitted (nodes st3 req))) st3
           | Some _ =>
               with_regions
                 (update (regions st3) rid
                    (mark_access mode dev bmem_req (regions st3 rid))) st3
           end).
Proof.
  intros Hop Hsub Hrun dev rid mode.
  unfold submit_requirement in Hrun. rewrite bind_get_node in Hrun.
  rewrite Hop, Hsub in Hrun. cbn [is_requirement negb orb] in Hrun.
  apply bind_inv in Hrun as ([res1 mode1] & st1 & Hc1 & Hrun).
  rewrite (execute_if_buffer_requirement_buffer _ _ _ Hop) in Hc1.
  rewrite bind_assigned_device_of in Hc1. fold dev in Hc1.
  apply bind_inv in Hc1 as (res1' & st1' & Hens & Hret).
  unfold ret in Hret. injection Hret as E1 E2 E3. subst res1' mode1 st1'.
  cbn [fst snd] in Hrun. fold mode in Hrun.
  pose proof (ensure_allocation_exists_inv _ _ _ Hens) as Hinv.
  cbv zeta in Hinv.
  destruct (ensure_allocation_exists_footprint _ _ _ Hens)
    as [[-> Hfail]|[-> Hall]].
  { cbn [is_success negb] in Hrun. unfold ret in Hrun.
    injection Hrun as <- <-. left. split; [reflexivity|].
    destruct Hinv as [(_ & Hres & _)
                     |(Hhas & a & p & mem & Ha & Halloc
                       & [(-> & _ & ->)|(_ & Hres & _)])];
      try discriminate.
    exists bmem_req, a, mem. subst dev. repeat split; assumption. }
  clear Hinv. cbn [is_success negb] in Hrun.
  pose proof Hall as (Hn1 & _ & _ & _ & _ & Hstep & _).
  fold rid in Hstep.
  assert (Hop1 : get_operation (nodes st1 req)
                 = requirement_operation (buffer_requirement bmem_req))
    by (now rewrite Hn1).
  apply bind_inv in Hrun as ([] & st2 & Hc2 & Hrun).
  rewrite (execute_if_buffer_requirement_buffer _ _ _ Hop1) in Hc2.
  rewrite bind_assigned_device_of in Hc2.
  replace (get_assigned_device (nodes st1 req)) with dev in Hc2
    by (unfold dev; now rewrite Hn1).
  unfold initialize_memory_access in Hc2. rewrite bind_get_region in Hc2.
  fold rid in Hc2.
  destruct (get_memory (regions st1 rid) dev) as [p|] eqn:Hmem;
    [|discriminate].
  unfold modify_node in Hc2. injection Hc2 as <-.
  set (bmem2 := initialize_device_data p bmem_req) in *.
  set (st2 := with_nodes
                (update (nodes st1) req
                   (set_operation
                      (requirement_operation (buffer_requirement bmem2))
                      (nodes st1 req))) st1) in *.
  assert (Hop2 : get_operation (nodes st2 req)
                 = requirement_operation (buffer_requirement bmem2))
    by (subst st2; cbn [nodes with_nodes]; now rewrite update_eq).
  assert (Hdev2 : get_assigned_device (nodes st2 req) = dev).
  { subst st2. cbn [nodes with_nodes]. rewrite update_eq.
    cbn [get_assigned_device set_operation]. unfold dev. now rewrite Hn1. }
  apply bind_inv in Hrun as (res3 & st3 & Hc3 & Hrun).
  assert (Hcopy : res3 = make_success /\ copy_phase req st2 st3).
  { destruct (is_discard mode); cbn [negb] in Hc3.
    - unfold ret in Hc3. injection Hc3 as <- <-.
      split; [reflexivity|apply copy_phase_refl].
    - apply for_each_explicit_operation_inv in Hc3; [exact Hc3|].
      now rewrite Hop2. }
  destruct Hcopy as [-> Hphase].
  cbn [is_success negb] in Hrun. rewrite bind_get_node in Hrun.
  pose proof Hphase as (_ & _ & _ & _ & _ & (_ & _ & Hdev3 & _) & Hop3 & _).
  right. split.
  { destruct (get_event (nodes st3 req));
      apply bind_inv in Hrun as (u & st4 & _ & Hret);
      unfold ret in Hret; now injection Hret as <- _. }
  exists st1, p, st3. cbv zeta. fold bmem2. fold st2.
  split; [exact Hall|]. split; [exact Hmem|]. split; [exact Hc3|].
  split; [exact Hphase|].
  destruct (get_event (nodes st3 req)) as [ev|].
  - assert (Hc4 : execute_if_buffer_requirement req
                    (mark_accessed_range req mode) tt st3
                  = Some (tt, with_regions
                                (update (regions st3) rid
                                   (mark_access mode dev bmem_req
                                      (regions st3 rid))) st3)).
    { rewrite (execute_if_buffer_requirement_buffer _ _ _
                 (eq_trans Hop3 Hop2)).
      unfold mark_accessed_range. rewrite bind_assigned_device_of.
      rewrite Hdev3, Hdev2. unfold mark_access.
      destruct (access_mode_eqb mode read); reflexivity. }
    rewrite (bind_some _ Hc4) in Hrun. unfold ret in Hrun.
    now injection Hrun as _ <-.
  - rewrite bind_modify_node in Hrun. unfold ret in Hrun.
    now injection Hrun as _ <-.
Qed.

Lemma allocation_failure_failed (req : node_id) (st st' : state) :
  allocation_failure req st st' -> failed_allocation st st'.
Proof.
  intros (b & a & mem & _ & _ & _ & _ & _ & ->).
  unfold failed_allocation. simpl. repeat split; eauto.
Qed.

Lemma submit_requirement_buffer_inv (req : node_id)
  (bmem_req : buffer_memory_requirement) (st st' : state) (res : result) :
  get_operation (nodes st req)
  = requirement_operation (buffer_requirement bmem_req) ->
  is_submitted (nodes st req) = false ->
  submit_requirement req st = Some (res, st') ->
  (res = make_error lazy_allocation_failed /\
   allocation_failure req st st') \/
  (res = make_success /\ buffer_resolved req bmem_req st st').
Proof.
  intros Hop Hsub Hrun.
  destruct (@submit_requirement_phases_inv _ _ _ _ _ Hop Hsub Hrun)
    as [Hfail|(-> & st1 & p & st3 & Hall & Hmem & Hc3 & Hphase & Hst')];
    [left; exact Hfail|].
  right. split; [reflexivity|].
  set (dev := get_assigned_device (nodes st req)) in *.
  set (rid := get_data_region bmem_req) in *.
  set (mode := get_access_mode bmem_req) in *.
  set (st2 := with_nodes _ st1) in *.
  destruct Hall as (Hn1 & He1 & Hd1 & Hg1 & Hr1 & Hstep & Hcalls).
  assert (Hdiscard : is_discard mode = true ->
                     dispatched st3 = dispatched st2).
  { intros Hdis. rewrite Hdis in Hc3. cbn [negb] in Hc3.
    unfold ret in Hc3. now injection Hc3 as <-. }
  destruct Hphase as (Hr3 & Hm3 & Ha3 & Hg3 & Ho3 & Hk3 & Hop3 & Hv3
                      & (new & Hd3 & Hf3 & Hev3 & Hne3)
                      & (errs & Hes3 & Hfe3)).
  assert (Hkept2 : node_kept (nodes st req) (nodes st2 req)).
  { subst st2. simpl. rewrite update_eq, Hn1.
    repeat split; auto. simpl. now rewrite Hop. }
  assert (Hdev3 : get_assigned_device (nodes st3 req) = dev).
  { destruct Hk3 as (_ & _ & Hdv & _). rewrite Hdv.
    subst st2. simpl. now rewrite update_eq, Hn1. }
  assert (Hev2 : get_event (nodes st2 req) = get_event (nodes st req)).
  { subst st2. simpl. now rewrite update_eq, Hn1. }
  assert (Hvirt2 : is_virtual (nodes st2 req) = is_virtual (nodes st req)).
  { subst st2. simpl. now rewrite update_eq, Hn1. }
  assert (Hnew : is_discard mode = true -> new = []).
  { intros Hdis. specialize (Hdiscard Hdis). rewrite Hd3 in Hdiscard.
    rewrite <- (app_nil_r (dispatched st2)) in Hdiscard at 2.
    now apply app_inv_head in Hdiscard. }
  assert (Hreg3 : regions st3 rid = regions st1 rid)
    by (rewrite Hr3; subst st2; reflexivity).
  destruct (get_event (nodes st3 req)) as [ev|] eqn:Hevent; subst st'.
  - (* an event: the region tracker is updated *)
    unfold buffer_resolved. fold dev rid mode. simpl.
    split.
    { intros m Hm. rewrite Ho3 by exact Hm. subst st2. simpl.
      rewrite update_neq by exact Hm. now rewrite Hn1. }
    split; [eapply node_kept_trans; eauto|].
    split; [rewrite Hg3; subst st2; simpl; exact Hg1|].
    split; [rewrite Ha3; subst st2; simpl; exact Hcalls|].
    split.
    { exists errs. split; [|exact Hfe3].
      rewrite Hes3. subst st2. simpl. now rewrite He1. }
    split.
    { intros r Hr. rewrite update_neq by exact Hr.
      rewrite Hr3. subst st2. simpl. now apply Hr1. }
    exists (regions st1 rid), new.
    split; [exact Hstep|].
    split; [rewrite Hd3; subst st2; simpl; now rewrite Hd1|].
    split; [exact Hf3|]. split; [exact Hnew|].
    rewrite update_eq. rewrite Hreg3.
    split.
    { intros Hnone ->. specialize (Hev3 eq_refl).
      rewrite Hev2, Hnone in Hev3. discriminate. }
    split.
    { intros Hnone Hne. destruct (Hne3 Hne) as [Hdev Hsub3].
      rewrite Hevent, Hv3, Hvirt2. injection Hdev as ->. auto. }
    reflexivity.
  - (* no event: the requirement becomes virtual *)
    unfold buffer_resolved. fold dev rid mode. simpl.
    split.
    { intros m Hm. rewrite update_neq by exact Hm.
      rewrite Ho3 by exact Hm. subst st2. simpl.
      rewrite update_neq by exact Hm. now rewrite Hn1. }
    rewrite update_eq.
    split.
    { eapply node_kept_trans; [exact Hkept2|].
      eapply node_kept_trans; [exact Hk3|].
      repeat split; auto. }
    split; [rewrite Hg3; subst st2; simpl; exact Hg1|].
    split; [rewrite Ha3; subst st2; simpl; exact Hcalls|].
    split.
    { exists errs. split; [|exact Hfe3].
      rewrite Hes3. subst st2. simpl. now rewrite He1. }
    split.
    { intros r Hr. rewrite Hr3. subst st2. simpl. now apply Hr1. }
    exists (regions st1 rid), new.
    split; [exact Hstep|].
    split; [rewrite Hd3; subst st2; simpl; now rewrite Hd1|].
    split; [exact Hf3|]. split; [exact Hnew|].
    split; [intros _ _; simpl; auto|].
    split.
    { intros _ Hne. destruct (Hne3 Hne) as [Hdev _]. discriminate. }
    intros Hsome. exfalso.
    destruct new as [|d new'].
    + specialize (Hev3 eq_refl). rewrite Hev2 in Hev3. now apply Hsome.
    + destruct (Hne3 ltac:(discriminate)) as [Hdev _]. discriminate.
Qed.

Lemma submit_requirement_inv (req : node_id) (st st' : state)
  (res : result) :
  submit_requirement req st = Some (res, st') ->
  (res = make_error lazy_allocation_failed /\
   allocation_failure req st st') \/
  (res = make_success /\ resolution st st').
Proof.
  intros Hrun.
  destruct (is_requirement (get_operation (nodes st req))) eqn:Hreq;
    [destruct (is_submitted (nodes st req)) eqn:Hsub|].
  - unfold submit_requirement in Hrun. rewrite bind_get_node in Hrun.
    rewrite Hreq, Hsub in Hrun. cbn [negb orb] in Hrun.
    unfold ret in Hrun. injection Hrun as <- <-.
    right. split; [reflexivity|apply resolution_refl].
  - destruct (get_operation (nodes st req)) as [k|? ? ?|[bmem_req|]] eqn:Hop;
      try discriminate.
    + destruct (@submit_requirement_buffer_inv _ _ _ _ _ Hop Hsub Hrun)
        as [Hfail|[-> Hres]]; [left; exact Hfail|].
      right. split; [reflexivity|].
      eapply buffer_resolved_resolution; [|exact Hres]. now rewrite Hop.
    + rewrite (submit_requirement_other req st Hop Hsub) in Hrun.
      injection Hrun as <- <-. right. split; [reflexivity|].
      destruct (get_event (nodes st req)); [apply resolution_refl|].
      apply resolution_of_node_change; [now rewrite Hop|].
      repeat split; auto.
  - unfold submit_requirement in Hrun. rewrite bind_get_node in Hrun.
    rewrite Hreq in Hrun. cbn [negb orb] in Hrun.
    unfold ret in Hrun. injection Hrun as <- <-.
    right. split; [reflexivity|apply resolution_refl].
Qed.

(** Resolution leaves the entries alone that [submit] does not process. *)
Lemma unsubmitted_predecessor_resolution (st st1 : state) (r : node_id) :
  resolution st st1 ->
  unsubmitted_predecessor st r <-> unsubmitted_predecessor st1 r.
Proof.
  intros (Hn & Hk & _). unfold unsubmitted_predecessor.
  destruct (Hk r) as (_ & _ & _ & _ & Hreq & _).
  split; intros [Hop Hsub].
  - rewrite (Hn r Hop). auto.
  - rewrite Hreq in Hop. rewrite (Hn r Hop) in Hsub. auto.
Qed.

(** The loop over the requirements, read off a run that returned: it went
    through the whole list, or it stopped at the first entry [r] that is an
    unsubmitted node with an operation of its own, or at the first
    requirement [r] whose lazy allocation failed. *)
Lemma submit_requirements_inv (node : node_id) (reqs : list node_id)
  (st st' : state) (b : bool) :
  submit_requirements node reqs st = Some (b, st') ->
  (b = false /\ resolution st st' /\
   Forall (fun r => ~ unsubmitted_predecessor st r) reqs) \/
  (b = true /\
   exists pre r post st_mid st_err,
     reqs = pre ++ r :: post /\
     Forall (fun x => ~ unsubmitted_predecessor st x) pre /\
     resolution st st_mid /\
     ((unsubmitted_predecessor st r /\
       st_err = push_error multiple_unsubmitted_nodes st_mid) \/
      (is_requirement (get_operation (nodes st r)) = true /\
       exists st_f,
         allocation_failure r st_mid st_f /\
         st_err = push_error lazy_allocation_failed st_f)) /\
     abort_submission node st_err = Some (tt, st')).
Proof.
  revert st. induction reqs as [|req rest IH]; intros st Hrun.
  - cbn [submit_requirements] in Hrun. unfold ret in Hrun.
    injection Hrun as <- <-. left.
    split; [reflexivity|]. split; [apply resolution_refl|constructor].
  - cbn [submit_requirements] in Hrun. rewrite bind_get_node in Hrun.
    destruct (is_requirement (get_operation (nodes st req))) eqn:Hreq;
      cbn [negb] in Hrun.
    + apply bind_inv in Hrun as (res & st1 & Hsr & Hrun).
      destruct (submit_requirement_inv _ _ Hsr) as [[-> Hfail]|[-> Hres]];
        cbn [is_success negb] in Hrun.
      * cbn [register_error_result] in Hrun.
        apply bind_inv in Hrun as ([] & st2 & Hpush & Hrun).
        injection Hpush as <-.
        apply bind_inv in Hrun as ([] & st3 & Habort & Hret).
        unfold ret in Hret. injection Hret as <- <-.
        right. split; [reflexivity|].
        exists [], req, rest, st, (push_error lazy_allocation_failed st1).
        split; [reflexivity|]. split; [constructor|].
        split; [apply resolution_refl|]. split; [|exact Habort].
        right. split; [exact Hreq|]. exists st1. auto.
      * destruct (IH _ Hrun)
          as [(-> & Hres' & Hall)
             |(-> & pre & r & post & st_mid & st_err & -> & Hpre & Hmid
               & Hcase & Habort)].
        -- left. split; [reflexivity|].
           split; [eapply resolution_trans; eauto|].
           constructor.
           ++ intros [Hk _]. congruence.
           ++ eapply Forall_impl; [|exact Hall].
              intros x Hx Hpred. apply Hx.
              now apply (unsubmitted_predecessor_resolution x Hres).
        -- right. split; [reflexivity|].
           exists (req :: pre), r, post, st_mid, st_err.
           split; [reflexivity|].
           split.
           { constructor.
             - intros [Hk _]. congruence.
             - eapply Forall_impl; [|exact Hpre].
               intros x Hx Hpred. apply Hx.
               now apply (unsubmitted_predecessor_resolution x Hres). }
           split; [eapply resolution_trans; eauto|].
           split; [|exact Habort].
           destruct Hcase as [[Hpred ->]|[Hr Hf]].
           ++ left. split; [|reflexivity].
              now apply (unsubmitted_predecessor_resolution r Hres).
           ++ right. split; [|exact Hf].
              destruct Hres as (_ & Hk & _).
              destruct (Hk r) as (_ & _ & _ & _ & Hsame & _). congruence.
    + destruct (is_submitted (nodes st req)) eqn:Hsub; cbn [negb] in Hrun.
      * destruct (IH _ Hrun)
          as [(-> & Hres' & Hall)
             |(-> & pre & r & post & st_mid & st_err & -> & Hpre & Hmid
               & Hcase & Habort)].
        -- left. split; [reflexivity|]. split; [exact Hres'|].
           constructor; [|exact Hall]. intros [_ Hs]. congruence.
        -- right. split; [reflexivity|].
           exists (req :: pre), r, post, st_mid, st_err.
           split; [reflexivity|].
           split; [constructor; [intros [_ Hs]; congruence|exact Hpre]|].
           auto.
      * rewrite bind_register_error in Hrun.
        apply bind_inv in Hrun as ([] & st3 & Habort & Hret).
        unfold ret in Hret. injection Hret as <- <-.
        right. split; [reflexivity|].
        exists [], req, rest, st, (push_error multiple_unsubmitted_nodes st).
        split; [reflexivity|]. split; [constructor|].
        split; [apply resolution_refl|]. split; [|exact Habort].
        left. split; [split; assumption|reflexivity].
Qed.

(** Entries that are submitted already are passed over. *)
Lemma submit_requirements_submitted_prefix (node : node_id)
  (pre rest : list node_id) (st : state) :
  Forall (fun r => is_submitted (nodes st r) = true) pre ->
  submit_requirements node (pre ++ rest) st
  = submit_requirements node rest st.
Proof.
  induction 1 as [|req pre Hreq _ IH]; [reflexivity|].
  cbn [app submit_requirements]. rewrite bind_get_node.
  destruct (is_requirement (get_operation (nodes st req))) eqn:Hkind;
    cbn [negb].
  - assert (Hrun : submit_requirement req st = Some (make_success, st)).
    { unfold submit_requirement. rewrite bind_get_node.
      rewrite Hreq. now rewrite orb_true_r. }
    rewrite (bind_some _ Hrun). cbn [is_success negb]. exact IH.
  - rewrite Hreq. cbn [negb]. exact IH.
Qed.

Lemma devices_assigned_fields (st st0 : state) (m : node_id) :
  devices_assigned st st0 ->
  get_operation (nodes st0 m) = get_operation (nodes st m) /\
  is_submitted (nodes st0 m) = is_submitted (nodes st m) /\
  get_requirements (nodes st0 m) = get_requirements (nodes st m).
Proof. intros [_ Hn]. destruct (Hn m) as [d ->]. repeat split. Qed.

Lemma unsubmitted_predecessor_devices (st st0 : state) (r : node_id) :
  devices_assigned st st0 ->
  unsubmitted_predecessor st r <-> unsubmitted_predecessor st0 r.
Proof.
  intros Hass. destruct (devices_assigned_fields r Hass) as (Hop & Hsub & _).
  unfold unsubmitted_predecessor. now rewrite Hop, Hsub.
Qed.

(** [dag_direct_scheduler::submit], read off a run that returned.  The
    state [st0] is the state after the assignment of the devices. *)
Lemma submit_inv (node : node_id) (st st' : state) :
  dag_direct_scheduler_submit node st = Some (tt, st') ->
  (bind_to_device (nodes st node) = None /\
   abort_submission node (push_error not_bound_to_device st)
   = Some (tt, st')) \/
  (bind_to_device (nodes st node) <> None /\
   exists st0,
     devices_assigned st st0 /\
     ((exists pre r post st_mid,
          get_requirements (nodes st node) = pre ++ r :: post /\
          Forall (fun x => ~ unsubmitted_predecessor st x) pre /\
          unsubmitted_predecessor st r /\
          resolution st0 st_mid /\
          abort_submission node
            (push_error multiple_unsubmitted_nodes st_mid)
          = Some (tt, st')) \/
      (exists pre r post st_mid st_f,
          get_requirements (nodes st node) = pre ++ r :: post /\
          Forall (fun x => ~ unsubmitted_predecessor st x) pre /\
          is_requirement (get_operation (nodes st r)) = true /\
          resolution st0 st_mid /\
          allocation_failure r st_mid st_f /\
          abort_submission node (push_error lazy_allocation_failed st_f)
          = Some (tt, st')) \/
      (exists st_mid st_f,
          Forall (fun x => ~ unsubmitted_predecessor st x)
                 (get_requirements (nodes st node)) /\
          resolution st0 st_mid /\
          allocation_failure node st_mid st_f /\
          abort_submission node (push_error lazy_allocation_failed st_f)
          = Some (tt, st')) \/
      (Forall (fun x => ~ unsubmitted_predecessor st x)
              (get_requirements (nodes st node)) /\
       submission_completed node st st'))).
Proof.
  intros Hrun. unfold dag_direct_scheduler_submit in Hrun.
  rewrite bind_get_node in Hrun.
  destruct (bind_to_device (nodes st node)) as [target|] eqn:Hhint.
  2:{ rewrite bind_register_error in Hrun. left. auto. }
  right. split; [discriminate|].
  rewrite bind_modify_node in Hrun.
  set (st_a := with_nodes _ st) in Hrun.
  destruct (assign_devices_run target (get_requirements (nodes st node)) st_a)
    as (st0 & Hrun0 & Hass0).
  rewrite (bind_some _ Hrun0) in Hrun.
  assert (Hass : devices_assigned st st0).
  { eapply devices_assigned_trans; [|exact Hass0].
    apply devices_assigned_modify. }
  exists st0. split; [exact Hass|].
  assert (Hback : forall l,
             Forall (fun x => ~ unsubmitted_predecessor st0 x) l ->
             Forall (fun x => ~ unsubmitted_predecessor st x) l).
  { intros l Hl. eapply Forall_impl; [|exact Hl].
    intros x Hx Hpred. apply Hx.
    now apply (unsubmitted_predecessor_devices x Hass). }
  apply bind_inv in Hrun as (b & st1 & Hloop & Hrun).
  apply submit_requirements_inv in Hloop
    as [(-> & Hres & Hall)
       |(-> & pre & r & post & st_mid & st_err & Hsplit & Hpre & Hmid
         & Hcase & Habort)].
  2:{ unfold ret in Hrun. injection Hrun as <-.
      destruct Hcase as [[Hpred ->]|[Hr (st_f & Hf & ->)]].
      - left. exists pre, r, post, st_mid.
        split; [exact Hsplit|]. split; [now apply Hback|].
        split; [now apply (unsubmitted_predecessor_devices r Hass)|].
        auto.
      - right. left. exists pre, r, post, st_mid, st_f.
        split; [exact Hsplit|]. split; [now apply Hback|].
        split.
        { destruct (devices_assigned_fields r Hass) as (Hop & _).
          congruence. }
        auto. }
  apply Hback in Hall.
  rewrite bind_get_node in Hrun.
  destruct (is_requirement (get_operation (nodes st1 node))) eqn:Hreq.
  - apply bind_inv in Hrun as (res & st2 & Hsr & Hrun).
    destruct (submit_requirement_inv _ _ Hsr) as [[-> Hfail]|[-> Hres2]];
      cbn [is_success negb] in Hrun.
    + cbn [register_error_result] in Hrun.
      apply bind_inv in Hrun as ([] & st3 & Hpush & Habort).
      injection Hpush as <-.
      right. right. left. exists st1, st2. auto.
    + unfold register_submitted_ops in Hrun. injection Hrun as <-.
      right. right. right. split; [exact Hall|].
      eapply submission_completed_assigned; [exact Hass|].
      destruct (resolution_trans Hres Hres2)
        as (_ & _ & Hg & _ & Herrs).
      split; [simpl; now rewrite Hg|exact Herrs].
  - rewrite (bind_some _ (@select_executor_run node
                            (get_operation (nodes st1 node)) st1 Hreq))
      in Hrun.
    destruct (get_executor _ _) as [e|].
    + rewrite (bind_some _ (submit_live_run e node _ st1)) in Hrun.
      unfold register_submitted_ops in Hrun. injection Hrun as <-.
      right. right. right. split; [exact Hall|].
      eapply submission_completed_assigned; [exact Hass|].
      destruct Hres as (_ & _ & Hg & _ & Herrs).
      split; [simpl; now rewrite Hg|exact Herrs].
    + unfold bind at 1 in Hrun. rewrite submit_null_executor in Hrun.
      discriminate.
Qed.

(** A submission that returned was aborted or ran to its end. *)
Lemma submit_inv_outcome (node : node_id) (st st' : state) :
  dag_direct_scheduler_submit node st = Some (tt, st') ->
  submission_aborted node st st' \/
  (submission_completed node st st' /\
   bind_to_device (nodes st node) <> None /\
   Forall (fun r => ~ unsubmitted_predecessor st r)
          (get_requirements (nodes st node))).
Proof.
  intros Hrun.
  destruct (@submit_inv _ _ _ Hrun)
    as [[Hhint Habort]
       |(Hhint & st0 & Hass
         & [(pre & r & post & st_mid & _ & _ & _ & Hmid & Habort)
           |[(pre & r & post & st_mid & st_f & _ & _ & _ & Hmid & Hf
              & Habort)
            |[(st_mid & st_f & _ & Hmid & Hf & Habort)
             |[Hall Hdone]]]])].
  - left. eapply aborted_after_resolution;
      [apply resolution_refl| |exact Habort].
    left. exists not_bound_to_device. auto.
  - left. eapply submission_aborted_assigned; [exact Hass|].
    eapply aborted_after_resolution; [exact Hmid| |exact Habort].
    left. exists multiple_unsubmitted_nodes. auto.
  - left. eapply submission_aborted_assigned; [exact Hass|].
    eapply aborted_after_resolution; [exact Hmid| |exact Habort].
    right. exists st_f. split; [|reflexivity].
    eapply allocation_failure_failed; eauto.
  - left. eapply submission_aborted_assigned; [exact Hass|].
    eapply aborted_after_resolution; [exact Hmid| |exact Habort].
    right. exists st_f. split; [|reflexivity].
    eapply allocation_failure_failed; eauto.
  - right. auto.
Qed.

(** ** Aborted submissions that returned *)

Lemma copy_is_not_own_operation (st : state) (node : node_id) (d : dispatch) :
  copy_for_requirement (nodes st) d ->
  ~ (d_node d = node /\ d_operation d = get_operation (nodes st node)).
Proof.
  intros [Hdt Hrq] [Hnode Hop]. rewrite Hnode in Hrq. rewrite Hop in Hdt.
  destruct (get_operation (nodes st node)); discriminate.
Qed.

Lemma submit_requirement_allocation_failure (req : node_id)
  (bmem_req : buffer_memory_requirement) (st st1 : state) (e : error_info) :
  get_operation (nodes st req)
  = requirement_operation (buffer_requirement bmem_req) ->
  is_submitted (nodes st req) = false ->
  ensure_allocation_exists bmem_req (get_assigned_device (nodes st req)) st
  = Some (make_error e, st1) ->
  submit_requirement req st = Some (make_error e, st1).
Proof.
  intros Hop Hsub Hens.
  unfold submit_requirement. rewrite bind_get_node. rewrite Hop, Hsub.
  cbn [is_requirement negb orb].
  assert (Hc1 : execute_if_buffer_requirement req
                  (fun bmem_req =>
                     dev <- assigned_device_of req ;;
                     res <- ensure_allocation_exists bmem_req dev ;;
                     ret (res, get_access_mode bmem_req))
                  (make_success, read_write) st
                = Some ((make_error e, get_access_mode bmem_req), st1)).
  { rewrite (execute_if_buffer_requirement_buffer _ _ _ Hop).
    rewrite bind_assigned_device_of. now rewrite (bind_some _ Hens). }
  now rewrite (bind_some _ Hc1).
Qed.

Lemma allocation_error_aborts (node : node_id) (st st' : state)
  (new_errs : list error_info) :
  submission_aborted node st st' \/
  (submission_completed node st st' /\
   bind_to_device (nodes st node) <> None /\
   Forall (fun r => ~ unsubmitted_predecessor st r)
          (get_requirements (nodes st node))) ->
  errors st' = errors st ++ new_errs ->
  In lazy_allocation_failed new_errs ->
  submission_aborted node st st'.
Proof.
  intros [Hab|((_ & (errs & Herr & Hf)) & _)] Hnew Hin; [exact Hab|].
  rewrite Herr in Hnew. apply app_inv_head in Hnew. subst errs.
  rewrite Forall_forall in Hf. specialize (Hf _ Hin). discriminate.
Qed.

Lemma abort_submission_errors (node : node_id) (st st' : state) :
  abort_submission node st = Some (tt, st') ->
  errors st' = errors st /\ allocations st' = allocations st /\
  dispatched st' = dispatched st /\ regions st' = regions st /\
  registry st' = registry st /\
  forall m, nodes st' m = aborted_nodes (nodes st) node m.
Proof.
  intros Hrun.
  destruct (abort_submission_run node st)
    as (st'' & Hrun' & (Hr & _ & Ha & He & Hd & Hg) & Hn).
  rewrite Hrun in Hrun'. injection Hrun' as <-. repeat split; auto.
Qed.

(** ** C3: virtual submission, or the update of the region tracker *)

(** C3.  For every resolved requirement, that is, whenever
    [submit_requirement] has returned success for a requirement that was
    not submitted and had no event: the calls of [submit_directly] it made
    are copies for that requirement, and: if it made none, the requirement
    is marked virtually submitted, with an event that is ready, and no range
    was marked in any data region (a region changes by the lazy allocation
    at most); if it made one, the operation is a buffer requirement, the
    requirement is not marked virtual, and its data region is the region
    after the allocation step with the accessed range marked valid on the
    assigned device for mode [read], marked current for every other
    mode. *)
Theorem resolved_requirement_outcome (req : node_id) (st st' : state) :
  is_requirement (get_operation (nodes st req)) = true ->
  is_submitted (nodes st req) = false ->
  get_event (nodes st req) = None ->
  submit_requirement req st = Some (make_success, st') ->
  let dev := get_assigned_device (nodes st req) in
  exists new,
    dispatched st' = dispatched st ++ new /\
    Forall (issued_for req) new /\
    (new = [] ->
       is_virtual (nodes st' req) = true /\
       is_submitted (nodes st' req) = true /\
       get_event (nodes st' req) = Some ready_event /\
       forall r, regions st' r = regions st r \/
                 allocation_step dev (regions st r) (regions st' r)) /\
    (new <> [] ->
       exists bmem_req dr1,
         get_operation (nodes st req)
         = requirement_operation (buffer_requirement bmem_req) /\
         allocation_step dev (regions st (get_data_region bmem_req)) dr1 /\
         is_virtual (nodes st' req) = is_virtual (nodes st req) /\
         get_event (nodes st' req) = Some device_event /\
         (get_access_mode bmem_req = read ->
            regions st' (get_data_region bmem_req)
            = mark_range_valid dr1 dev (get_access_offset3d bmem_req)
                               (get_access_range3d bmem_req)) /\
         (get_access_mode bmem_req <> read ->
            regions st' (get_data_region bmem_req)
            = mark_range_current dr1 dev (get_access_offset3d bmem_req)
                                 (get_access_range3d bmem_req))).
Proof.
  intros Hreq Hsub Hev Hrun dev.
  destruct (get_operation (nodes st req)) as [k|? ? ?|[bmem_req|]] eqn:Hop;
    try discriminate.
  - destruct (@submit_requirement_buffer_inv _ _ _ _ _ Hop Hsub Hrun)
      as [[Hres _]|[_ Hres]]; [discriminate|].
    destruct Hres as (_ & _ & _ & _ & _ & Hregs
                      & (dr1 & new & Hstep & Hd & Hf & _ & Hnil & Hcons & _)).
    exists new. split; [exact Hd|]. split; [exact Hf|]. split.
    + intros Hnew. destruct (Hnil Hev Hnew) as (Hv & Hs & He & Hr).
      repeat (split; [assumption|]).
      intros r. destruct (Nat.eq_dec r (get_data_region bmem_req)) as [->|Hne].
      * right. rewrite Hr. exact Hstep.
      * left. now apply Hregs.
    + intros Hnew. destruct (Hcons Hev Hnew) as (Hv & Hs & He & Hr).
      exists bmem_req, dr1. split; [reflexivity|].
      split; [exact Hstep|]. split; [exact Hv|]. split; [exact He|].
      unfold mark_access in Hr. split.
      * intros Hmode. now rewrite Hr, Hmode.
      * intros Hmode. rewrite Hr.
        destruct (get_access_mode bmem_req); try reflexivity.
        now elim Hmode.
  - rewrite (submit_requirement_other req st Hop Hsub) in Hrun.
    injection Hrun as <-. rewrite Hev. exists []. simpl.
    split; [now rewrite app_nil_r|]. split; [constructor|].
    rewrite update_eq.
    split; [intros _; repeat split; auto|congruence].
Qed.

(** ** C6: an unsubmitted predecessor that is no requirement *)

(** C6, as the code has it.  The requirement list of the node has an entry
    [k] whose operation is no requirement and which is not submitted.
    Whenever [submit] returns, the submission is aborted: the node and the
    entry are cancelled, no listed requirement is left unsubmitted, the node
    is not registered as submitted, and the only operations dispatched are
    copies for requirement nodes, never the operation of the node itself.
    The errors it registered are missing-update-source errors followed
    either by one feature-not-supported error (no device hint, or an
    unsubmitted entry with an operation of its own), or, when the allocator
    returned [nullptr] for a requirement [r] listed before [k], by the
    memory-allocation error of that failure, registered by
    [ensure_allocation_exists] and once more by [submit], which aborts at
    once: [k] is never examined.  [submit] does return, with exactly one
    feature-not-supported error, without a call of an allocator or an
    executor, when the node has no device hint or every entry listed before
    [k] is submitted already. *)
Theorem unsubmitted_predecessor_aborts (node k : node_id) (st : state) :
  In k (get_requirements (nodes st node)) ->
  is_requirement (get_operation (nodes st k)) = false ->
  is_submitted (nodes st k) = false ->
  (forall st',
     dag_direct_scheduler_submit node st = Some (tt, st') ->
     is_cancelled (nodes st' node) = true /\
     is_cancelled (nodes st' k) = true /\
     (forall r, In r (get_requirements (nodes st node)) ->
                is_submitted (nodes st' r) = true) /\
     registry st' = registry st /\
     (exists new,
         dispatched st' = dispatched st ++ new /\
         Forall (copy_for_requirement (nodes st)) new /\
         forall d, In d new ->
                   ~ (d_node d = node /\
                      d_operation d = get_operation (nodes st node))) /\
     exists olds,
       Forall (eq no_update_sources) olds /\
       ((exists e,
            (e = not_bound_to_device \/ e = multiple_unsubmitted_nodes) /\
            etype e = Some feature_not_supported /\
            errors st' = errors st ++ olds ++ [e]) \/
        (exists pre r post st_mid st_f,
            get_requirements (nodes st node) = pre ++ r :: post /\
            ~ In k pre /\ In k post /\
            is_requirement (get_operation (nodes st r)) = true /\
            errors st_mid = errors st ++ olds /\
            allocation_failure r st_mid st_f /\
            abort_submission node (push_error lazy_allocation_failed st_f)
            = Some (tt, st') /\
            errors st'
            = errors st ++ olds
              ++ [lazy_allocation_failed; lazy_allocation_failed]))) /\
  (bind_to_device (nodes st node) = None \/
   (exists pre post,
       get_requirements (nodes st node) = pre ++ k :: post /\
       Forall (fun r => is_submitted (nodes st r) = true) pre) ->
   exists st' e,
     dag_direct_scheduler_submit node st = Some (tt, st') /\
     errors st' = errors st ++ [e] /\
     etype e = Some feature_not_supported /\
     allocations st' = allocations st /\
     dispatched st' = dispatched st /\
     regions st' = regions st).
Proof.
  intros Hin Hop Hsub.
  assert (Hk : unsubmitted_predecessor st k) by (split; assumption).
  assert (Hnot : forall l,
             Forall (fun x => ~ unsubmitted_predecessor st x) l ->
             ~ In k l).
  { intros l Hl Hkl. rewrite Forall_forall in Hl. now apply (Hl k Hkl). }
  split.
  - intros st' Hrun.
    destruct (@submit_inv_outcome _ _ _ Hrun) as [Hab|(_ & _ & Hall)];
      [|now elim (Hnot _ Hall)].
    destruct Hab as (Hc & Hs & Hp & Hg & (new & Hd & Hf) & _).
    split; [exact Hc|]. split; [now apply Hp|]. split; [exact Hs|].
    split; [exact Hg|].
    split.
    { exists new. split; [exact Hd|]. split; [exact Hf|].
      intros d Hd'. apply copy_is_not_own_operation.
      rewrite Forall_forall in Hf. now apply Hf. }
    destruct (@submit_inv _ _ _ Hrun)
      as [[Hhint Habort]
         |(Hhint & st0 & Hass
           & [(pre & r & post & st_mid & Hsplit & Hpre & Hr & Hmid & Habort)
             |[(pre & r & post & st_mid & st_f & Hsplit & Hpre & Hr & Hmid
                & Hfail & Habort)
              |[(st_mid & st_f & Hall & _)|[Hall _]]]])].
    + exists []. split; [constructor|]. left.
      exists not_bound_to_device. split; [now left|]. split; [reflexivity|].
      apply abort_submission_errors in Habort as (He & _).
      rewrite He. reflexivity.
    + destruct Hmid as (_ & _ & _ & _ & (errs & Herr & Hfe)).
      destruct Hass as [(_ & _ & _ & He0 & _) _].
      exists errs. split; [exact Hfe|]. left.
      exists multiple_unsubmitted_nodes.
      split; [now right|]. split; [reflexivity|].
      apply abort_submission_errors in Habort as (He & _).
      rewrite He. cbn [errors push_error].
      now rewrite Herr, He0, <- app_assoc.
    + destruct Hmid as (_ & _ & _ & _ & (errs & Herr & Hfe)).
      destruct Hass as [(_ & _ & _ & He0 & _) _].
      exists errs. split; [exact Hfe|]. right.
      exists pre, r, post, st_mid, st_f.
      split; [exact Hsplit|]. split; [now apply Hnot|].
      split.
      { rewrite Hsplit in Hin. apply in_app_or in Hin as [Hpre'|[->|Hpost]];
          [now elim (Hnot _ Hpre)|congruence|exact Hpost]. }
      split; [exact Hr|]. split; [now rewrite Herr, He0|].
      split; [exact Hfail|]. split; [exact Habort|].
      apply abort_submission_errors in Habort as (He & _).
      rewrite He.
      destruct Hfail as (b & a & mem & _ & _ & _ & _ & _ & ->).
      cbn [errors push_error after_allocate].
      now rewrite Herr, He0, <- !app_assoc.
    + now elim (Hnot _ Hall).
    + now elim (Hnot _ Hall).
  - intros Hcase.
    unfold dag_direct_scheduler_submit. rewrite bind_get_node.
    destruct (bind_to_device (nodes st node)) as [target|] eqn:Hhint.
    2:{ rewrite bind_register_error.
        destruct (abort_submission_run node
                    (push_error not_bound_to_device st))
          as (st' & Habort & (Hr & _ & Ha & He & Hd & _) & _).
        exists st', not_bound_to_device.
        split; [exact Habort|]. split; [exact He|]. split; [reflexivity|].
        auto. }
    destruct Hcase as [Hnone|(pre & post & Hsplit & Hpre)];
      [discriminate|].
    rewrite bind_modify_node.
    set (st_a := with_nodes _ st).
    destruct (assign_devices_run target (get_requirements (nodes st node))
                st_a) as (st0 & Hrun0 & Hass0).
    rewrite (bind_some _ Hrun0).
    assert (Hass : devices_assigned st st0).
    { eapply devices_assigned_trans; [|exact Hass0].
      apply devices_assigned_modify. }
    destruct (abort_submission_run node
                (push_error multiple_unsubmitted_nodes st0))
      as (st' & Habort & (Hr & _ & Ha & He & Hd & _) & _).
    assert (Hloop : submit_requirements node
                      (get_requirements (nodes st node)) st0
                    = Some (true, st')).
    { rewrite Hsplit. rewrite submit_requirements_submitted_prefix.
      2:{ eapply Forall_impl; [|exact Hpre]. intros r Hr'.
          destruct (devices_assigned_fields r Hass) as (_ & Hs0 & _).
          congruence. }
      cbn [submit_requirements]. rewrite bind_get_node.
      destruct (devices_assigned_fields k Hass) as (Hop0 & Hsub0 & _).
      rewrite Hop0, Hop, Hsub0, Hsub. cbn [negb].
      rewrite bind_register_error. unfold bind at 1. now rewrite Habort. }
    rewrite (bind_some _ Hloop).
    destruct Hass as [(Hr0 & _ & Ha0 & He0 & Hd0 & _) _].
    exists st', multiple_unsubmitted_nodes.
    split; [reflexivity|].
    split; [rewrite He; cbn [errors push_error]; now rewrite He0|].
    split; [reflexivity|].
    cbn [allocations dispatched regions push_error] in Ha, Hd, Hr.
    split; [congruence|]. split; congruence.
Qed.

(** ** C7: lazy allocation *)

(** The lazy allocation for a listed requirement that is reached with every
    earlier entry submitted already. *)
Lemma submit_allocation_failure (node req : node_id)
  (bmem_req : buffer_memory_requirement) (st : state) (target : device_id)
  (pre post : list node_id) (a : allocator_id) (mem : AS) :
  get_operation (nodes st req)
  = requirement_operation (buffer_requirement bmem_req) ->
  bind_to_device (nodes st node) = Some target ->
  get_requirements (nodes st node) = pre ++ req :: post ->
  Forall (fun r => is_submitted (nodes st r) = true) pre ->
  is_submitted (nodes st req) = false ->
  let dev := match bind_to_device (nodes st req) with
             | Some d => d
             | None => target
             end in
  let dr := regions st (get_data_region bmem_req) in
  has_allocation dr dev = false ->
  get_allocator (get_backend dev) dev = Some a ->
  allocate a 128 (allocation_size dr) (device_memory st) = (nullptr, mem) ->
  exists st0 st',
    devices_assigned st st0 /\
    dag_direct_scheduler_submit node st = Some (tt, st') /\
    abort_submission node
      (push_error lazy_allocation_failed
         (push_error lazy_allocation_failed
            (after_allocate a 128 (allocation_size dr) mem st0)))
    = Some (tt, st').
Proof.
  intros Hop Hhint Hsplit Hpre Hsub dev dr Hhas Ha Halloc.
  unfold dag_direct_scheduler_submit. rewrite bind_get_node, Hhint.
  rewrite bind_modify_node.
  set (st_a := with_nodes _ st).
  destruct (assign_devices_closed_form target
              (get_requirements (nodes st node)) st_a)
    as (st0 & Hrun0 & (Hr0 & Hm0 & _) & Hn0).
  rewrite (bind_some _ Hrun0).
  assert (Hass : devices_assigned st st0).
  { destruct (assign_devices_run target (get_requirements (nodes st node))
                st_a) as (st0' & Hrun0' & Hass0).
    rewrite Hrun0 in Hrun0'. injection Hrun0' as <-.
    eapply devices_assigned_trans; [|exact Hass0].
    apply devices_assigned_modify. }
  destruct (devices_assigned_fields req Hass) as (Hop0 & Hsub0 & _).
  assert (Hdev0 : get_assigned_device (nodes st0 req) = dev).
  { rewrite Hn0.
    assert (Hlisted : existsb (Nat.eqb req) (get_requirements (nodes st node))
                      = true).
    { apply existsb_eqb_In. rewrite Hsplit. apply in_or_app.
      right. now left. }
    rewrite Hlisted. subst st_a. cbn [nodes with_nodes].
    destruct (Nat.eqb_spec req node) as [->|Hne].
    - rewrite update_eq. reflexivity.
    - rewrite update_neq by exact Hne. reflexivity. }
  set (st1 := push_error lazy_allocation_failed
                (after_allocate a 128 (allocation_size dr) mem st0)).
  assert (Hens : ensure_allocation_exists bmem_req
                   (get_assigned_device (nodes st0 req)) st0
                 = Some (make_error lazy_allocation_failed, st1)).
  { rewrite Hdev0.
    rewrite (@ensure_allocation_exists_fresh bmem_req dev st0 a nullptr mem).
    - subst st1 dr. cbn [N.eqb nullptr]. now rewrite Hr0.
    - rewrite Hr0. exact Hhas.
    - exact Ha.
    - rewrite Hr0, Hm0. exact Halloc. }
  assert (Hreq0 : get_operation (nodes st0 req)
                  = requirement_operation (buffer_requirement bmem_req))
    by congruence.
  assert (Hsr : submit_requirement req st0
                = Some (make_error lazy_allocation_failed, st1)).
  { eapply submit_requirement_allocation_failure;
      [exact Hreq0|congruence|exact Hens]. }
  destruct (abort_submission_run node
              (push_error lazy_allocation_failed st1))
    as (st' & Habort & _).
  assert (Hloop : submit_requirements node
                    (get_requirements (nodes st node)) st0
                  = Some (true, st')).
  { rewrite Hsplit. rewrite submit_requirements_submitted_prefix.
    2:{ eapply Forall_impl; [|exact Hpre]. intros r Hr'.
        destruct (devices_assigned_fields r Hass) as (_ & Hs0 & _).
        congruence. }
    cbn [submit_requirements]. rewrite bind_get_node.
    rewrite Hreq0. cbn [is_requirement negb].
    rewrite (bind_some _ Hsr). cbn [is_success negb register_error_result].
    unfold bind at 1. unfold bind at 1. now rewrite Habort. }
  rewrite (bind_some _ Hloop).
  exists st0, st'. split; [exact Hass|]. split; [reflexivity|exact Habort].
Qed.

(** C7.  For the buffer requirement of node [req], assigned to device
    [dev]: (1) when the data region has an allocation on [dev], nothing is
    allocated and nothing changes; (2) when it has none and the allocator of
    the backend of [dev] returns a pointer, the allocator was called once,
    the pointer is registered with the data region by
    [add_empty_allocation], and no error is reported; (3) when the allocator
    returns [nullptr], it was called once, a memory-allocation error is
    registered, nothing is registered with the data region, and
    [submit_requirement] returns that error at once; (4) when [req] is
    listed by a node with a device hint, every entry listed before it is
    submitted already, and the allocator returns [nullptr] for the device
    [req] is assigned to (its own hint or that of the node), [submit]
    returns with the submission aborted: the allocator was called once and
    not again, the error is registered by [ensure_allocation_exists] and
    once more by [submit], the node and [req] are cancelled, no listed
    requirement is left unsubmitted, nothing is dispatched, no data region
    changes, and the node is not registered as submitted; (5) whenever a
    submission returns and that error was registered during it, the
    allocator returned [nullptr] for the node or one of its listed
    requirements, [submit] registered the error once more and aborted at
    once: the node is cancelled, no listed requirement is left unsubmitted,
    the node is not registered as submitted. *)
Theorem lazy_allocation_outcome (req : node_id)
  (bmem_req : buffer_memory_requirement) (st : state) :
  get_operation (nodes st req)
  = requirement_operation (buffer_requirement bmem_req) ->
  let dev := get_assigned_device (nodes st req) in
  let rid := get_data_region bmem_req in
  let dr := regions st rid in
  (has_allocation dr dev = true ->
     ensure_allocation_exists bmem_req dev st = Some (make_success, st)) /\
  (forall a p mem,
     has_allocation dr dev = false ->
     get_allocator (get_backend dev) dev = Some a ->
     allocate a 128 (allocation_size dr) (device_memory st) = (p, mem) ->
     p <> nullptr ->
     exists st1,
       ensure_allocation_exists bmem_req dev st = Some (make_success, st1) /\
       allocations st1
       = allocations st ++ [mk_allocation_call a 128 (allocation_size dr)] /\
       device_memory st1 = mem /\
       regions st1 rid = add_empty_allocation dr dev p /\
       (forall r, r <> rid -> regions st1 r = regions st r) /\
       errors st1 = errors st) /\
  (forall a mem,
     has_allocation dr dev = false ->
     get_allocator (get_backend dev) dev = Some a ->
     allocate a 128 (allocation_size dr) (device_memory st) = (nullptr, mem) ->
     exists st1,
       ensure_allocation_exists bmem_req dev st
       = Some (make_error lazy_allocation_failed, st1) /\
       etype lazy_allocation_failed = Some memory_allocation_error /\
       allocations st1
       = allocations st ++ [mk_allocation_call a 128 (allocation_size dr)] /\
       errors st1 = errors st ++ [lazy_allocation_failed] /\
       regions st1 = regions st /\
       dispatched st1 = dispatched st /\
       (is_submitted (nodes st req) = false ->
        submit_requirement req st
        = Some (make_error lazy_allocation_failed, st1))) /\
  (forall node target pre post a mem,
     bind_to_device (nodes st node) = Some target ->
     get_requirements (nodes st node) = pre ++ req :: post ->
     Forall (fun r => is_submitted (nodes st r) = true) pre ->
     is_submitted (nodes st req) = false ->
     let target_dev := match bind_to_device (nodes st req) with
                       | Some d => d
                       | None => target
                       end in
     has_allocation dr target_dev = false ->
     get_allocator (get_backend target_dev) target_dev = Some a ->
     allocate a 128 (allocation_size dr) (device_memory st) = (nullptr, mem) ->
     exists st',
       dag_direct_scheduler_submit node st = Some (tt, st') /\
       allocations st'
       = allocations st ++ [mk_allocation_call a 128 (allocation_size dr)] /\
       errors st'
       = errors st ++ [lazy_allocation_failed; lazy_allocation_failed] /\
       is_cancelled (nodes st' node) = true /\
       is_cancelled (nodes st' req) = true /\
       (forall r, In r (get_requirements (nodes st node)) ->
                  is_submitted (nodes st' r) = true) /\
       dispatched st' = dispatched st /\
       regions st' = regions st /\
       registry st' = registry st) /\
  (forall node st' new_errs,
     dag_direct_scheduler_submit node st = Some (tt, st') ->
     errors st' = errors st ++ new_errs ->
     In lazy_allocation_failed new_errs ->
     is_cancelled (nodes st' node) = true /\
     (forall r, In r (get_requirements (nodes st node)) ->
                is_submitted (nodes st' r) = true) /\
     registry st' = registry st /\
     exists r st_mid st_f,
       (r = node \/ In r (get_requirements (nodes st node))) /\
       allocation_failure r st_mid st_f /\
       abort_submission node (push_error lazy_allocation_failed st_f)
       = Some (tt, st')).
Proof.
  intros Hop dev rid dr. subst dev rid dr.
  split; [apply ensure_allocation_exists_allocated|].
  split.
  { intros a p mem Hhas Ha Halloc Hp.
    rewrite (ensure_allocation_exists_fresh bmem_req _ st Hhas Ha Halloc).
    apply N.eqb_neq in Hp. rewrite Hp.
    eexists. split; [reflexivity|]. simpl.
    rewrite update_eq. repeat split; auto.
    intros r Hr. now rewrite update_neq by exact Hr. }
  split.
  { intros a mem Hhas Ha Halloc.
    pose proof (ensure_allocation_exists_fresh bmem_req _ st Hhas Ha Halloc)
      as Hens.
    cbn [N.eqb nullptr] in Hens.
    eexists. split; [exact Hens|]. simpl. repeat split; auto.
    intros Hsub. eapply submit_requirement_allocation_failure; eauto. }
  split.
  { intros node target pre post a mem Hhint Hsplit Hpre Hsub target_dev
           Hhas Ha Halloc.
    destruct (@submit_allocation_failure node req bmem_req st target pre post
                a mem Hop Hhint Hsplit Hpre Hsub Hhas Ha Halloc)
      as (st0 & st' & Hass & Hrun & Habort).
    exists st'. split; [exact Hrun|].
    apply abort_submission_errors in Habort
      as (He & Hal & Hd & Hr & Hg & Hn).
    cbn [errors allocations dispatched regions registry nodes push_error
         after_allocate] in He, Hal, Hd, Hr, Hg, Hn.
    destruct (devices_assigned_fields node Hass) as (_ & _ & Hreqs0).
    destruct (devices_assigned_fields req Hass) as (_ & Hsub0 & _).
    destruct Hass as [(Hr0 & _ & Ha0 & He0 & Hd0 & Hg0) _].
    split; [now rewrite Hal, Ha0|].
    split; [now rewrite He, He0, <- app_assoc|].
    split; [rewrite Hn; apply aborted_nodes_cancelled|].
    split.
    { rewrite Hn. apply aborted_nodes_requirement; [|congruence].
      rewrite Hreqs0, Hsplit. apply in_or_app. right. now left. }
    split.
    { intros r Hr'. rewrite Hn. apply aborted_nodes_submitted.
      now rewrite Hreqs0. }
    split; [congruence|]. split; congruence. }
  intros node st' new_errs Hrun Hnew Hin.
  destruct (allocation_error_aborts new_errs
              (@submit_inv_outcome _ _ _ Hrun) Hnew Hin)
    as (Hc & Hs & _ & Hg & _).
  split; [exact Hc|]. split; [exact Hs|]. split; [exact Hg|].
  assert (Hnus : forall errs,
             Forall (eq no_update_sources) errs ->
             ~ In lazy_allocation_failed errs).
  { intros errs Hf Hl. rewrite Forall_forall in Hf.
    specialize (Hf _ Hl). discriminate. }
  destruct (@submit_inv _ _ _ Hrun)
    as [[Hhint Habort]
       |(Hhint & st0 & Hass
         & [(pre & r & post & st_mid & Hsplit & _ & _ & Hmid & Habort)
           |[(pre & r & post & st_mid & st_f & Hsplit & _ & _ & _
              & Hfail & Habort)
            |[(st_mid & st_f & _ & _ & Hfail & Habort)
             |[_ (_ & errs & Herr & Hfe)]]]])].
  - exfalso. apply abort_submission_errors in Habort as (He & _).
    cbn [errors push_error] in He. rewrite He in Hnew.
    apply app_inv_head in Hnew. subst new_errs.
    destruct Hin as [H|[]]. discriminate.
  - exfalso. apply abort_submission_errors in Habort as (He & _).
    destruct Hmid as (_ & _ & _ & _ & (errs & Herr & Hfe)).
    destruct Hass as [(_ & _ & _ & He0 & _) _].
    cbn [errors push_error] in He.
    rewrite He, Herr, He0, <- app_assoc in Hnew.
    apply app_inv_head in Hnew. subst new_errs.
    apply in_app_or in Hin as [Hl|[H|[]]];
      [now apply (Hnus errs)|discriminate].
  - exists r, st_mid, st_f. split; [|auto].
    right. rewrite Hsplit. apply in_or_app. right. now left.
  - exists node, st_mid, st_f. auto.
  - exfalso. rewrite Herr in Hnew. apply app_inv_head in Hnew.
    subst new_errs. now apply (Hnus errs).
Qed.

(** ** C9: the size of a lazy allocation *)

(** C9.  When [ensure_allocation_exists] allocates, it calls the allocator
    once, with alignment 128 and with the size of the whole data region: the
    number of its elements times its element size, in [size_t] arithmetic,
    that is, the exact product when it fits in 64 bits.  The accessed offset
    and range play no part: two requirements on the same data region lead to
    the same call. *)
Theorem lazy_allocation_size (bmem_req : buffer_memory_requirement)
  (dev : device_id) (st : state) (a : allocator_id) :
  let dr := regions st (get_data_region bmem_req) in
  has_allocation dr dev = false ->
  get_allocator (get_backend dev) dev = Some a ->
  exists res st',
    ensure_allocation_exists bmem_req dev st = Some (res, st') /\
    allocations st'
    = allocations st ++
      [mk_allocation_call a 128
         (size_t_mul (range_size (get_num_elements dr))
                     (get_element_size dr))] /\
    (forall n0 n1 n2 : N,
       get_num_elements dr = (n0, n1, n2) ->
       (n0 * n1 * n2 * get_element_size dr < 2 ^ 64)%N ->
       size_t_mul (range_size (get_num_elements dr)) (get_element_size dr)
       = (n0 * n1 * n2 * get_element_size dr)%N) /\
    (forall other : buffer_memory_requirement,
       get_data_region other = get_data_region bmem_req ->
       ensure_allocation_exists other dev st
       = ensure_allocation_exists bmem_req dev st).
Proof.
  intros dr Hhas Ha. subst dr.
  destruct (allocate a 128
              (allocation_size (regions st (get_data_region bmem_req)))
              (device_memory st)) as [p mem] eqn:Halloc.
  pose proof (ensure_allocation_exists_fresh bmem_req dev st Hhas Ha Halloc)
    as Hens.
  destruct (N.eqb p nullptr);
    (eexists _, _; split; [exact Hens|]; split; [reflexivity|]; split;
     [intros n0 n1 n2 Hn Hlt; rewrite Hn; now apply size_t_mul_exact
     |intros other Hsame; unfold ensure_allocation_exists;
      now rewrite Hsame]).
Qed.

(** ** C8: the choice of the executor *)

(** C8, as the code has it.  For an operation that is no requirement,
    [select_executor] answers with the executor the operation's preferred
    backend has for the assigned device of the node, when the operation
    names a preferred backend, and with the executor of the backend of that
    device otherwise.  When the lookup gives an executor, the operation is
    handed to it.  When it gives none, no error is registered: [submit]
    calls [submit_directly] through the null pointer and the run ends
    abnormally, also for a node without requirements submitted through
    [dag_direct_scheduler::submit]. *)
Theorem executor_selection (node : node_id) (op : operation) (st : state) :
  is_requirement op = false ->
  let dev := get_assigned_device (nodes st node) in
  let backend := match has_preferred_backend op with
                 | Some b => b
                 | None => get_backend dev
                 end in
  select_executor node op st = Some (get_executor backend dev, st) /\
  (forall e, get_executor backend dev = Some e ->
             (exec <- select_executor node op ;; submit exec node op) st
             = Some (tt, after_submit e node op st)) /\
  (get_executor backend dev = None ->
     (exec <- select_executor node op ;; submit exec node op) st = None) /\
  (forall target,
     bind_to_device (nodes st node) = Some target ->
     get_requirements (nodes st node) = [] ->
     get_operation (nodes st node) = op ->
     get_executor (match has_preferred_backend op with
                   | Some b => b
                   | None => get_backend target
                   end) target = None ->
     dag_direct_scheduler_submit node st = None).
Proof.
  intros Hop dev backend.
  assert (Hsel : forall st0 : state,
             select_executor node op st0
             = Some (get_executor
                       (match has_preferred_backend op with
                        | Some b => b
                        | None => get_backend
                                    (get_assigned_device (nodes st0 node))
                        end)
                       (get_assigned_device (nodes st0 node)), st0)).
  { intros st0. unfold select_executor. rewrite bind_get_node, Hop.
    now destruct (has_preferred_backend op). }
  split; [apply Hsel|].
  split.
  { intros e He. rewrite (bind_some _ (Hsel st)). fold dev backend.
    rewrite He. apply submit_live_run. }
  split.
  { intros He. rewrite (bind_some _ (Hsel st)). fold dev backend.
    now rewrite He. }
  intros target Hhint Hreqs Hnode He.
  unfold dag_direct_scheduler_submit. rewrite bind_get_node.
  rewrite Hhint, Hreqs. rewrite bind_modify_node.
  cbn [for_each submit_requirements]. rewrite !bind_ret.
  rewrite bind_get_node. cbn [nodes with_nodes]. rewrite update_eq.
  cbn [get_operation assign_to_device]. rewrite Hnode, Hop.
  rewrite (bind_some _ (Hsel _)).
  cbn [nodes with_nodes]. rewrite update_eq.
  cbn [get_assigned_device assign_to_device]. now rewrite He.
Qed.

End Properties.

(** * The scheduler on concrete inputs *)

Lemma sr_get_memory_of_allocation (dr : simple_region) (d : device_id) :
  sr_has_allocation dr d = true -> sr_get_memory dr d <> None.
Proof.
  unfold sr_has_allocation, sr_get_memory.
  induction (sr_allocations dr) as [|a l IH]; simpl; [discriminate|].
  destruct (device_eqb (fst a) d); simpl; [discriminate | exact IH].
Qed.

Lemma device_eqb_refl (d : device_id) : device_eqb d d = true.
Proof.
  destruct d as [[|t] i]; unfold device_eqb; simpl;
    rewrite ?Nat.eqb_refl; reflexivity.
Qed.

Lemma sr_has_allocation_after_add (dr : simple_region) (d : device_id)
  (p : ptr) : sr_has_allocation (sr_add_empty_allocation dr d p) d = true.
Proof.
  unfold sr_has_allocation; simpl. now rewrite device_eqb_refl.
Qed.

Lemma live_backends_executors :
  forall b d, @get_executor N live_backends b d <> None.
Proof. discriminate. Qed.

Lemma live_backends_allocators :
  forall b d, @get_allocator N live_backends b d <> None.
Proof. discriminate. Qed.

Section LevelZeroRuntime.

#[local] Existing Instance simple_backends.

(** C1, on the code.  Kernel node 0 on device 2 reads through requirement
    node 1 a rectangle no device holds valid data for.  [submit] registers
    the missing-source error and cancels the requirement, and then carries
    on: the requirement is marked virtually submitted, the kernel of node 0
    is dispatched, and node 0 is registered as submitted, not cancelled. *)
Theorem no_update_source_not_aborted :
  exists st',
    dag_direct_scheduler_submit 0 no_source_state = Some (tt, st') /\
    errors st' = [no_update_sources] /\
    is_cancelled (nodes st' 1) = true /\
    is_virtual (nodes st' 1) = true /\
    is_cancelled (nodes st' 0) = false /\
    dispatched st' = [mk_dispatch 2 0 (kernel_operation 7) []] /\
    registry st' = [0].
Proof.
  eexists. split; [vm_compute; reflexivity|].
  vm_compute. repeat split.
Qed.

(** C10, on the code.  Node 0 is itself a read requirement without an
    update source: [submit] registers the error, cancels node 0, and still
    registers it as submitted. *)
Theorem cancelled_node_registered :
  exists st',
    dag_direct_scheduler_submit 0 own_requirement_state = Some (tt, st') /\
    errors st' = [no_update_sources] /\
    is_cancelled (nodes st' 0) = true /\
    registry st' = [0].
Proof.
  eexists. split; [vm_compute; reflexivity|].
  vm_compute. repeat split.
Qed.

(** C2, on the code.  Requirement node 1 accesses rectangle [0, 50) on
    device 2 in mode [discard_write] while device 1 holds the valid data.
    Its resolution succeeds without a copy, and the data region is not
    marked: device 1 is still the only valid holder, the rectangle is still
    outdated on device 2, and the region is not the result of
    [mark_range_current] on any region.  The read of node 2 on device 2
    that follows therefore copies the rectangle from device 1 over what was
    written on device 2.  In mode [write] the same access leaves device 2
    as the only valid holder, and the read that follows copies nothing. *)
Theorem discard_write_not_marked_current :
  exists st1 st2,
    submit_requirement 1 (access_then_read_state discard_write)
    = Some (make_success, st1) /\
    dispatched st1 = [] /\
    is_virtual (nodes st1 1) = true /\
    sr_valid (regions st1 0) = [(dev1, rect_0_50)] /\
    get_outdated_regions (regions st1 0) dev2 (fst rect_0_50) (snd rect_0_50)
    = [rect_0_50] /\
    (forall dr1,
        regions st1 0
        <> mark_range_current dr1 dev2 (fst rect_0_50) (snd rect_0_50)) /\
    submit_requirement 2 st1 = Some (make_success, st2) /\
    dispatched st2
    = [mk_dispatch 2 2
         (memcpy_operation (mk_location dev1 (fst rect_0_50) 0)
                           (mk_location dev2 (fst rect_0_50) 0)
                           (snd rect_0_50)) []] /\
    exists st1' st2',
      submit_requirement 1 (access_then_read_state write)
      = Some (make_success, st1') /\
      sr_valid (regions st1' 0) = [(dev2, rect_0_50)] /\
      submit_requirement 2 st1' = Some (make_success, st2') /\
      dispatched st2' = dispatched st1'.
Proof.
  eexists. eexists. split; [vm_compute; reflexivity|].
  split; [reflexivity|]. split; [reflexivity|]. split; [reflexivity|].
  split; [reflexivity|].
  split.
  { intros dr1 Heq.
    apply (f_equal (fun dr => last (sr_valid dr) (dev1, rect_0_50))) in Heq.
    change (sr_valid (mark_range_current dr1 dev2 (fst rect_0_50)
                                         (snd rect_0_50)))
      with (filter (fun v => negb (rect_eqb (snd v) rect_0_50)) (sr_valid dr1)
            ++ [(dev2, rect_0_50)]) in Heq.
    rewrite last_last in Heq. vm_compute in Heq. discriminate. }
  split; [vm_compute; reflexivity|].
  split; [reflexivity|].
  eexists. eexists. split; [vm_compute; reflexivity|].
  split; [reflexivity|]. split; [vm_compute; reflexivity|].
  reflexivity.
Qed.

(** C6 fails as stated.  Node 0 lists requirement node 1 and then the
    unsubmitted kernel node 2.  The lazy allocation for node 1 fails first:
    the submission is aborted with the memory-allocation error registered
    twice, and no feature-not-supported error is registered.  When node 0
    is bound to the Level Zero device instead, whose backend has no
    allocator, [submit] does not return at all. *)
Lemma allocation_failure_before_predecessor :
  In 2 (get_requirements (nodes predecessor_state 0)) /\
  is_requirement (get_operation (nodes predecessor_state 2)) = false /\
  is_submitted (nodes predecessor_state 2) = false /\
  (exists st',
      dag_direct_scheduler_submit 0 predecessor_state = Some (tt, st') /\
      errors st' = [lazy_allocation_failed; lazy_allocation_failed] /\
      is_cancelled (nodes st' 0) = true /\
      forall e, In e (errors st') -> etype e <> Some feature_not_supported) /\
  In 2 (get_requirements (nodes level_zero_predecessor_state 0)) /\
  is_requirement (get_operation (nodes level_zero_predecessor_state 2))
  = false /\
  is_submitted (nodes level_zero_predecessor_state 2) = false /\
  dag_direct_scheduler_submit 0 level_zero_predecessor_state = None.
Proof.
  split; [simpl; tauto|]. split; [reflexivity|]. split; [reflexivity|].
  split.
  { eexists. split; [vm_compute; reflexivity|].
    split; [reflexivity|]. split; [reflexivity|].
    intros e [<-|[<-|[]]]; discriminate. }
  split; [simpl; tauto|]. split; [reflexivity|]. split; [reflexivity|].
  vm_compute. reflexivity.
Qed.

(** Scenarios 1 and 2, a read and a write on device 2 of data valid on
    device 1 only, and a read of data that is valid on device 2 already. *)
Lemma resolved_requirement_outcome_witness :
  (exists st' dr1,
      submit_requirement 1 (access_state read 1000)
      = Some (make_success, st') /\
      dispatched st' <> [] /\
      is_virtual (nodes st' 1) = false /\
      get_event (nodes st' 1) = Some device_event /\
      allocation_step dev2 (buffer_100 [(dev1, rect_0_50)]) dr1 /\
      regions st' 0
      = mark_range_valid dr1 dev2 (fst rect_0_50) (snd rect_0_50)) /\
  (exists st' dr1,
      submit_requirement 1 (access_state write 1000)
      = Some (make_success, st') /\
      dispatched st' <> [] /\
      is_virtual (nodes st' 1) = false /\
      allocation_step dev2 (buffer_100 [(dev1, rect_0_50)]) dr1 /\
      regions st' 0
      = mark_range_current dr1 dev2 (fst rect_0_50) (snd rect_0_50)) /\
  (exists st',
      submit_requirement 1 (valid_access_state read)
      = Some (make_success, st') /\
      dispatched st' = [] /\
      is_virtual (nodes st' 1) = true /\
      get_event (nodes st' 1) = Some ready_event).
Proof.
  split; [|split].
  - set (st' := match submit_requirement 1 (access_state read 1000) with
                | Some (_, s) => s
                | None => access_state read 1000
                end).
    assert (Hrun : submit_requirement 1 (access_state read 1000)
                   = Some (make_success, st'))
      by (vm_compute; reflexivity).
    destruct (resolved_requirement_outcome
                (data_region := simple_data_region)
                (backends := simple_backends)
                1 (access_state read 1000) eq_refl eq_refl eq_refl Hrun)
      as (new & Hd & _ & _ & Hcons).
    assert (Hne : new <> []).
    { intros ->. vm_compute in Hd. discriminate. }
    destruct (Hcons Hne) as (bmem_req & dr1 & Hop & Hstep & Hv & He & Hr & _).
    vm_compute in Hop. injection Hop as <-.
    exists st', dr1. split; [exact Hrun|].
    split; [intros Hnil; rewrite Hnil in Hd;
            destruct new; [now apply Hne|discriminate]|].
    split; [exact Hv|]. split; [exact He|]. split; [exact Hstep|].
    exact (Hr eq_refl).
  - set (st' := match submit_requirement 1 (access_state write 1000) with
                | Some (_, s) => s
                | None => access_state write 1000
                end).
    assert (Hrun : submit_requirement 1 (access_state write 1000)
                   = Some (make_success, st'))
      by (vm_compute; reflexivity).
    destruct (resolved_requirement_outcome
                (data_region := simple_data_region)
                (backends := simple_backends)
                1 (access_state write 1000) eq_refl eq_refl eq_refl Hrun)
      as (new & Hd & _ & _ & Hcons).
    assert (Hne : new <> []).
    { intros ->. vm_compute in Hd. discriminate. }
    destruct (Hcons Hne) as (bmem_req & dr1 & Hop & Hstep & Hv & _ & _ & Hw).
    vm_compute in Hop. injection Hop as <-.
    exists st', dr1. split; [exact Hrun|].
    split; [intros Hnil; rewrite Hnil in Hd;
            destruct new; [now apply Hne|discriminate]|].
    split; [exact Hv|]. split; [exact Hstep|].
    apply Hw. discriminate.
  - set (st' := match submit_requirement 1 (valid_access_state read) with
                | Some (_, s) => s
                | None => valid_access_state read
                end).
    assert (Hrun : submit_requirement 1 (valid_access_state read)
                   = Some (make_success, st'))
      by (vm_compute; reflexivity).
    destruct (resolved_requirement_outcome
                (data_region := simple_data_region)
                (backends := simple_backends)
                1 (valid_access_state read) eq_refl eq_refl eq_refl Hrun)
      as (new & Hd & _ & Hnil & _).
    assert (Hnew : new = []).
    { vm_compute in Hd. now symmetry. }
    destruct (Hnil Hnew) as (Hv & _ & He & _).
    exists st'. split; [exact Hrun|]. split; [now rewrite Hd, Hnew|].
    auto.
Defined.

(** A node that lists a submitted requirement and then an unsubmitted
    kernel, and a node whose first requirement cannot be allocated. *)
Lemma unsubmitted_predecessor_aborts_witness :
  (exists st' e,
      dag_direct_scheduler_submit 0 submitted_then_kernel_state
      = Some (tt, st') /\
      errors st' = [e] /\
      etype e = Some feature_not_supported /\
      is_cancelled (nodes st' 0) = true /\
      is_cancelled (nodes st' 2) = true /\
      dispatched st' = [] /\
      registry st' = []) /\
  (exists st' olds,
      dag_direct_scheduler_submit 0 predecessor_state = Some (tt, st') /\
      errors st' = olds ++ [lazy_allocation_failed; lazy_allocation_failed] /\
      is_cancelled (nodes st' 0) = true /\
      is_cancelled (nodes st' 2) = true /\
      registry st' = []).
Proof.
  split.
  - destruct (unsubmitted_predecessor_aborts
                (data_region := simple_data_region)
                (backends := simple_backends)
                0 2 submitted_then_kernel_state
                (or_intror (or_introl eq_refl)) eq_refl eq_refl)
      as [Hreturned Hreturns].
    destruct Hreturns as (st' & e & Hrun & He & Hty & _ & Hd & _).
    { right. exists [1], []. split; [reflexivity|].
      repeat constructor. }
    destruct (Hreturned st' Hrun) as (Hc & Hk & _ & Hg & _).
    exists st', e. auto 10.
  - set (st' := match dag_direct_scheduler_submit 0 predecessor_state with
                | Some (_, s) => s
                | None => predecessor_state
                end).
    assert (Hrun : dag_direct_scheduler_submit 0 predecessor_state
                   = Some (tt, st'))
      by (vm_compute; reflexivity).
    destruct (unsubmitted_predecessor_aborts
                (data_region := simple_data_region)
                (backends := simple_backends)
                0 2 predecessor_state
                (or_intror (or_introl eq_refl)) eq_refl eq_refl)
      as [Hreturned _].
    destruct (Hreturned st' Hrun)
      as (Hc & Hk & _ & Hg & _
          & (olds & _ & [(e & He & _ & Herr)
                        |(pre & r & post & st_mid & st_f & _ & _ & _ & _ & _
                          & _ & _ & Herr)])).
    + exfalso.
      change (errors st') with ([lazy_allocation_failed]
                               ++ [lazy_allocation_failed]) in Herr.
      change (errors predecessor_state ++ olds ++ [e])
        with (olds ++ [e]) in Herr.
      apply app_inj_tail in Herr as [_ Herr].
      destruct He as [-> | ->]; discriminate.
    + exists st', olds. split; [exact Hrun|]. split; [exact Herr|]. auto.
Defined.

(** The lazy allocation for the first access to the buffer on device 2:
    400 bytes fit into 1000 free bytes and do not fit into 100; the
    submission of the node that lists the requirement is then aborted. *)
Lemma lazy_allocation_outcome_witness :
  (exists st1,
      ensure_allocation_exists
        (mk_bmem 0 read (fst rect_0_50) (snd rect_0_50) None) dev2
        (access_state read 1000) = Some (make_success, st1) /\
      allocations st1 = [mk_allocation_call 2 128 400] /\
      regions st1 0
      = add_empty_allocation (buffer_100 [(dev1, rect_0_50)]) dev2 4352%N) /\
  (exists st1,
      submit_requirement 1 (access_state read 100)
      = Some (make_error lazy_allocation_failed, st1) /\
      allocations st1 = [mk_allocation_call 2 128 400] /\
      errors st1 = [lazy_allocation_failed]) /\
  (exists st',
      dag_direct_scheduler_submit 0 predecessor_state = Some (tt, st') /\
      allocations st' = [mk_allocation_call 2 128 400] /\
      errors st' = [lazy_allocation_failed; lazy_allocation_failed] /\
      is_cancelled (nodes st' 0) = true /\
      is_cancelled (nodes st' 1) = true /\
      dispatched st' = [] /\
      registry st' = []).
Proof.
  split; [|split].
  - destruct (lazy_allocation_outcome
                (data_region := simple_data_region)
                (backends := simple_backends)
                1 (access_state read 1000) eq_refl)
      as (_ & Hfresh & _).
    destruct (Hfresh 2 4352%N 600%N eq_refl eq_refl eq_refl)
      as (st1 & Hens & Ha & _ & Hr & _); [discriminate|].
    exists st1. auto.
  - destruct (lazy_allocation_outcome
                (data_region := simple_data_region)
                (backends := simple_backends)
                1 (access_state read 100) eq_refl)
      as (_ & _ & Hfail & _).
    destruct (Hfail 2 100%N eq_refl eq_refl eq_refl)
      as (st1 & _ & _ & Ha & He & _ & _ & Hsub).
    exists st1. split; [now apply Hsub|]. auto.
  - destruct (lazy_allocation_outcome
                (data_region := simple_data_region)
                (backends := simple_backends)
                1 predecessor_state eq_refl)
      as (_ & _ & _ & Hsubmit & _).
    destruct (Hsubmit 0 dev2 [] [2] 2 100%N eq_refl eq_refl
                (Forall_nil _) eq_refl eq_refl eq_refl eq_refl)
      as (st' & Hrun & Ha & He & Hc & Hreq & _ & Hd & _ & Hg).
    exists st'. auto 10.
Defined.

(** C8 fails as stated.  Kernel node 0 is bound to the Level Zero device,
    whose backend has no executor.  [submit] does not return: no state
    with a registered error results. *)
Lemma level_zero_submit_crashes :
  get_executor level_zero ze_dev = None /\
  dag_direct_scheduler_submit 0 level_zero_state = None /\
  ~ exists st', dag_direct_scheduler_submit 0 level_zero_state
                = Some (tt, st').
Proof.
  split; [reflexivity|].
  assert (Hrun : dag_direct_scheduler_submit 0 level_zero_state = None)
    by (vm_compute; reflexivity).
  split; [exact Hrun|]. intros [st' Hst]. rewrite Hrun in Hst. discriminate.
Qed.

(** The choice of the executor, at the Level Zero node. *)
Lemma executor_selection_witness :
  is_requirement (kernel_operation 7) = false /\
  dag_direct_scheduler_submit 0 level_zero_state = None.
Proof.
  split; [reflexivity|].
  destruct (executor_selection 0 (kernel_operation 7) level_zero_state
              eq_refl) as (_ & _ & _ & Htop).
  apply (Htop ze_dev); reflexivity.
Defined.

End LevelZeroRuntime.

Section LiveRuntime.

#[local] Existing Instance live_backends.

(** Scenario 1 of the specification: device 1 holds rectangle [0, 50);
    a read on device 2 issues exactly one copy from device 1 to device 2,
    after which the rectangle is no longer outdated on device 2 and device 1
    is still a valid holder. *)
Example scenario_read_copies_once :
  exists st',
    submit_requirement 1 (access_state read 1000) = Some (make_success, st') /\
    dispatched st'
    = [mk_dispatch 2 1
         (memcpy_operation (mk_location dev1 (fst rect_0_50) 0)
                           (mk_location dev2 (fst rect_0_50) 0)
                           (snd rect_0_50)) []] /\
    get_outdated_regions (regions st' 0) dev2 (fst rect_0_50) (snd rect_0_50)
    = [] /\
    get_outdated_regions (regions st' 0) dev1 (fst rect_0_50) (snd rect_0_50)
    = [] /\
    is_virtual (nodes st' 1) = false.
Proof.
  eexists. split; [vm_compute; reflexivity|].
  vm_compute. repeat split.
Qed.

(** Scenario 2: a write on device 2 of data valid on device 1 copies it and
    leaves device 2 as the only holder. *)
Example scenario_write_invalidates :
  exists st',
    submit_requirement 1 (access_state write 1000) = Some (make_success, st') /\
    List.length (dispatched st') = 1 /\
    sr_valid (regions st' 0) = [(dev2, rect_0_50)] /\
    get_outdated_regions (regions st' 0) dev1 (fst rect_0_50) (snd rect_0_50)
    = [rect_0_50].
Proof.
  eexists. split; [vm_compute; reflexivity|].
  vm_compute. repeat split.
Qed.

(** A submission without a device hint. *)
Lemma submit_without_device_hint_witness :
  bind_to_device (nodes no_hint_state 0) = None /\
  exists st',
    dag_direct_scheduler_submit 0 no_hint_state = Some (tt, st') /\
    errors st' = [not_bound_to_device] /\
    is_cancelled (nodes st' 0) = true /\
    is_cancelled (nodes st' 1) = true /\
    allocations st' = [] /\
    dispatched st' = [] /\
    registry st' = [].
Proof.
  split; [reflexivity|].
  destruct (submit_without_device_hint 0 no_hint_state eq_refl)
    as (st' & Hrun & He & _ & Hc & Hreqs & _ & _ & _ & Ha & Hd & Hg).
  exists st'. split; [exact Hrun|]. split; [exact He|]. split; [exact Hc|].
  split; [apply Hreqs; [simpl; tauto|reflexivity]|].
  auto.
Defined.

(** The buffer of 100 elements of 4 bytes is allocated as 400 bytes for an
    access to its first 50 elements. *)
Lemma lazy_allocation_size_witness :
  has_allocation (regions (access_state read 1000) 0) dev2 = false /\
  get_allocator (get_backend dev2) dev2 = Some 2 /\
  exists res st',
    ensure_allocation_exists
      (mk_bmem 0 read (fst rect_0_50) (snd rect_0_50) None) dev2
      (access_state read 1000) = Some (res, st') /\
    allocations st' = [mk_allocation_call 2 128 400].
Proof.
  split; [reflexivity|]. split; [reflexivity|].
  destruct (lazy_allocation_size
              (data_region := simple_data_region) (backends := live_backends)
              (mk_bmem 0 read (fst rect_0_50) (snd rect_0_50) None) dev2
              (access_state read 1000) eq_refl eq_refl)
    as (res & st' & Hrun & Ha & _).
  exists res, st'. split; [exact Hrun|exact Ha].
Defined.

End LiveRuntime.

(** * Further properties of the scheduler *)

Arguments bind_some {DR AS A B c} k {st st1 a} _.
Arguments execute_if_buffer_requirement_buffer {DR AS R} node h otherwise
  {st bmem_req} _.
Arguments execute_if_buffer_requirement_other {DR AS R} node h otherwise
  {st} _.

Section SchedulerProperties.

Context {DR AS : Type} {data_region : DataRegion DR}
        {backends : Backends AS} {graph : NodeGraph}.

Local Open Scope sched_scope.
Local Abbreviation state := (sched_state DR AS).

(** ** [abort_submission] *)

Lemma cancel_idempotent (n : dag_node) : cancel (cancel n) = cancel n.
Proof. reflexivity. Qed.

Lemma aborted_nodes_idempotent (ns : node_id -> dag_node) (node m : node_id) :
  aborted_nodes (aborted_nodes ns node) node m = aborted_nodes ns node m.
Proof.
  unfold aborted_nodes. rewrite Nat.eqb_refl.
  replace (get_requirements
             (cancel
                (if existsb (Nat.eqb node) (get_requirements (ns node))
                    && negb (is_submitted (ns node))
                 then cancel (ns node) else ns node)))
    with (get_requirements (ns node))
    by (destruct (existsb (Nat.eqb node) (get_requirements (ns node))
                  && negb (is_submitted (ns node))); reflexivity).
  destruct (existsb (Nat.eqb m) (get_requirements (ns node))) eqn:Hin;
    destruct (is_submitted (ns m)) eqn:Hsub;
    destruct (Nat.eqb m node) eqn:Hm; simpl; rewrite ?Hsub; reflexivity.
Qed.

(** X1.  [abort_submission] cancels the node; apart from the node itself it
    leaves alone every requirement that is already submitted and every node
    that is no requirement of the node, a cancelled node stays cancelled,
    nothing but nodes changes, and aborting a second time changes
    nothing. *)
Theorem abort_submission_spares_submitted (node : node_id) (st : state) :
  exists st',
    abort_submission node st = Some (tt, st') /\
    same_but_nodes st st' /\
    is_cancelled (nodes st' node) = true /\
    (forall m, m <> node ->
               is_submitted (nodes st m) = true \/
               ~ In m (get_requirements (nodes st node)) ->
               nodes st' m = nodes st m) /\
    (forall m, is_cancelled (nodes st m) = true ->
               is_cancelled (nodes st' m) = true) /\
    exists st'',
      abort_submission node st' = Some (tt, st'') /\
      forall m, nodes st'' m = nodes st' m.
Proof.
  destruct (abort_submission_run node st) as (st' & Hrun & Hsame & Hn).
  exists st'. split; [exact Hrun|]. split; [exact Hsame|].
  split; [rewrite Hn; apply aborted_nodes_cancelled|].
  split.
  { intros m Hne Hcase. rewrite Hn. unfold aborted_nodes.
    apply Nat.eqb_neq in Hne. rewrite Hne.
    destruct Hcase as [Hsub|Hnot].
    - rewrite Hsub. now rewrite andb_false_r.
    - destruct (existsb (Nat.eqb m) (get_requirements (nodes st node)))
        eqn:Hex; [|reflexivity].
      apply existsb_exists in Hex. destruct Hex as (x & Hin & Heq).
      apply Nat.eqb_eq in Heq. subst x. contradiction. }
  split.
  { intros m Hc. rewrite Hn. unfold aborted_nodes.
    destruct (existsb (Nat.eqb m) (get_requirements (nodes st node))
              && negb (is_submitted (nodes st m)));
      destruct (Nat.eqb m node); simpl; auto. }
  destruct (abort_submission_run node st') as (st'' & Hrun2 & _ & Hn2).
  exists st''. split; [exact Hrun2|].
  intros m. rewrite Hn2.
  assert (Hext : forall k, aborted_nodes (nodes st') node k
                           = aborted_nodes (aborted_nodes (nodes st) node)
                                           node k).
  { intros k. unfold aborted_nodes. rewrite !Hn. reflexivity. }
  rewrite Hext, Hn. apply aborted_nodes_idempotent.
Qed.

(** ** The devices of the requirements *)

(** X2.  The loop of [submit] over [assign_devices_or_default] gives every
    listed requirement the device of its own [bind_to_device] hint when it
    has one, and the device of the node otherwise, also when a requirement
    is listed more than once; it changes nothing else of the listed nodes
    and nothing at all of the other nodes. *)
Theorem requirements_get_hint_or_default (target : device_id)
  (l : list node_id) (st : state) :
  exists st',
    for_each l (fun req => assign_devices_or_default req target) st
    = Some (tt, st') /\
    same_but_nodes st st' /\
    (forall req d, In req l -> bind_to_device (nodes st req) = Some d ->
                   get_assigned_device (nodes st' req) = d) /\
    (forall req, In req l -> bind_to_device (nodes st req) = None ->
                 get_assigned_device (nodes st' req) = target) /\
    (forall m, ~ In m l -> nodes st' m = nodes st m) /\
    (forall m, nodes st' m
               = assign_to_device (get_assigned_device (nodes st' m))
                                  (nodes st m)).
Proof.
  destruct (assign_devices_closed_form target l st)
    as (st' & Hrun & Hsame & Hn).
  exists st'. split; [exact Hrun|]. split; [exact Hsame|].
  split.
  { intros req d Hin Hhint. rewrite Hn.
    apply existsb_eqb_In in Hin. now rewrite Hin, Hhint. }
  split.
  { intros req Hin Hhint. rewrite Hn.
    apply existsb_eqb_In in Hin. now rewrite Hin, Hhint. }
  split.
  { intros m Hnot. rewrite Hn.
    destruct (existsb (Nat.eqb m) l) eqn:Hex; [|reflexivity].
    apply existsb_eqb_In in Hex. contradiction. }
  intros m. rewrite Hn.
  destruct (existsb (Nat.eqb m) l); [reflexivity|].
  now rewrite assign_to_device_same.
Qed.

(** ** The predecessor list as a canonical form *)

Lemma unique_strictly_sorted (l : list node_id) :
  StronglySorted le l -> StronglySorted lt (unique l).
Proof.
  induction 1 as [|a tl Hs IH Hall]; [constructor|].
  destruct tl as [|b tl']; [repeat constructor|].
  change (unique (a :: b :: tl'))
    with (if Nat.eqb a b then unique (b :: tl') else a :: unique (b :: tl')).
  destruct (Nat.eqb_spec a b) as [->|Hne]; [exact IH|].
  constructor; [exact IH|].
  apply Forall_forall. intros x Hx. rewrite unique_In in Hx.
  inversion Hs as [|? ? _ Hb]; subst.
  inversion Hall as [|? ? Hab Hrest]; subst.
  rewrite Forall_forall in Hb. simpl in Hx.
  destruct Hx as [Hx|Hx]; [subst x; lia|]. specialize (Hb _ Hx). lia.
Qed.

Lemma strictly_sorted_ext (l1 l2 : list node_id) :
  StronglySorted lt l1 -> StronglySorted lt l2 ->
  (forall x, In x l1 <-> In x l2) -> l1 = l2.
Proof.
  intros H1. revert l2. induction H1 as [|a l1 Hs1 IH Ha]; intros l2 H2 Hext.
  - destruct l2 as [|b l2]; [reflexivity|].
    destruct (proj2 (Hext b) (or_introl eq_refl)).
  - destruct H2 as [|b l2 Hs2 Hb].
    { destruct (proj1 (Hext a) (or_introl eq_refl)). }
    rewrite Forall_forall in Ha, Hb.
    assert (Hab : a = b).
    { destruct (proj1 (Hext a) (or_introl eq_refl)) as [Heq|Hin];
        [now symmetry|].
      destruct (proj2 (Hext b) (or_introl eq_refl)) as [Heq|Hin'];
        [exact Heq|].
      specialize (Ha _ Hin'). specialize (Hb _ Hin). lia. }
    subst b. f_equal. apply IH; [exact Hs2|].
    intros x. split; intros Hx.
    + destruct (proj1 (Hext x) (or_intror Hx)) as [Heq|Hin]; [|exact Hin].
      subst x. specialize (Ha _ Hx). lia.
    + destruct (proj2 (Hext x) (or_intror Hx)) as [Heq|Hin]; [|exact Hin].
      subst x. specialize (Hb _ Hx). lia.
Qed.

(** X3.  The predecessor list [submit] builds is strictly ascending, and it
    depends on the set of the collected requirements only: two collections
    with the same members, in whatever order and multiplicity, give the
    same list. *)
Theorem compress_requirements_canonical (ns : node_id -> dag_node)
  (l1 l2 : list node_id) :
  (forall r, In r l1 <-> In r l2) ->
  StronglySorted lt (compress_requirements ns l1) /\
  compress_requirements ns l1 = compress_requirements ns l2.
Proof.
  intros Hext.
  assert (Hsorted : forall l, StronglySorted lt (compress_requirements ns l))
    by (intros l; apply unique_strictly_sorted, sort_strongly_sorted).
  split; [apply Hsorted|].
  apply strictly_sorted_ext; try apply Hsorted.
  intros x. rewrite !compress_requirements_In, Hext. reflexivity.
Qed.

(** ** Requirements that are no buffer requirements *)

(** X4.  Resolving an unsubmitted requirement without an event that is no
    buffer requirement succeeds and only marks the node virtually submitted,
    with a ready event: no allocator is called, no data region, error,
    dispatch or registry entry changes, and no other node changes. *)
Theorem other_requirement_is_virtual (req : node_id) (st : state) :
  get_operation (nodes st req) = requirement_operation other_requirement ->
  is_submitted (nodes st req) = false ->
  get_event (nodes st req) = None ->
  exists st',
    submit_requirement req st = Some (make_success, st') /\
    same_but_nodes st st' /\
    nodes st' req = mark_virtually_submitted (nodes st req) /\
    is_virtual (nodes st' req) = true /\
    get_event (nodes st' req) = Some ready_event /\
    forall m, m <> req -> nodes st' m = nodes st m.
Proof.
  intros Hop Hsub Hev.
  eexists. split; [now apply submit_requirement_other|].
  rewrite Hev. cbn [nodes with_nodes].
  split; [repeat split|]. rewrite update_eq.
  repeat split. intros m Hne. now rewrite update_neq by exact Hne.
Qed.

(** ** A node whose requirements are all submitted *)

Lemma submit_requirements_all_submitted (node : node_id)
  (reqs : list node_id) (st : state) :
  (forall r, In r reqs -> is_submitted (nodes st r) = true) ->
  submit_requirements node reqs st = Some (false, st).
Proof.
  induction reqs as [|req rest IH]; intros Hall; [reflexivity|].
  assert (Hreq : is_submitted (nodes st req) = true)
    by (apply Hall; now left).
  cbn [submit_requirements]. rewrite bind_get_node.
  destruct (is_requirement (get_operation (nodes st req))) eqn:Hkind;
    cbn [negb].
  - assert (Hrun : submit_requirement req st = Some (make_success, st)).
    { unfold submit_requirement. rewrite bind_get_node.
      rewrite Hreq. now rewrite orb_true_r. }
    rewrite (bind_some _ Hrun). cbn [is_success negb].
    apply IH. intros r Hr. apply Hall. now right.
  - rewrite Hreq. cbn [negb]. apply IH. intros r Hr. apply Hall. now right.
Qed.

(** X5.  When the node has a device hint, its operation is no requirement,
    every listed requirement is already submitted and the selected backend
    has an executor for the device of the hint, [submit] returns after
    exactly one call of [submit_directly], for the operation of the node on
    that executor, with a predecessor list without doubles and without
    complete nodes; it registers the node as submitted and registers no
    error, calls no allocator and touches no data region.  This holds
    whether or not the node itself was submitted before: [submit] does not
    look at that. *)
Theorem submit_with_submitted_requirements (node : node_id) (st : state)
  (target : device_id) (e : executor_id) :
  bind_to_device (nodes st node) = Some target ->
  is_requirement (get_operation (nodes st node)) = false ->
  (forall r, In r (get_requirements (nodes st node)) ->
             is_submitted (nodes st r) = true) ->
  get_executor
    (match has_preferred_backend (get_operation (nodes st node)) with
     | Some b => b
     | None => get_backend target
     end) target = Some e ->
  exists st' preds,
    dag_direct_scheduler_submit node st = Some (tt, st') /\
    dispatched st'
    = dispatched st
      ++ [mk_dispatch e node (get_operation (nodes st node)) preds] /\
    NoDup preds /\
    (forall r, In r preds -> is_complete (nodes st r) = false) /\
    registry st' = registry st ++ [node] /\
    errors st' = errors st /\
    allocations st' = allocations st /\
    device_memory st' = device_memory st /\
    regions st' = regions st /\
    is_submitted (nodes st' node) = true /\
    get_event (nodes st' node) = Some device_event /\
    get_assigned_executor (nodes st' node) = Some e /\
    get_assigned_device (nodes st' node) = target.
Proof.
  intros Hhint Hop Hall He.
  unfold dag_direct_scheduler_submit. rewrite bind_get_node.
  rewrite Hhint. rewrite bind_modify_node.
  set (st_a := with_nodes _ st).
  destruct (assign_devices_closed_form target
              (get_requirements (nodes st node)) st_a)
    as (st0 & Hrun0 & (Hr0 & Hm0 & Ha0 & He0 & Hd0 & Hg0) & Hn0).
  rewrite (bind_some _ Hrun0).
  (* the nodes after the assignment of devices *)
  assert (Hfields : forall m, exists d,
             nodes st0 m = assign_to_device d (nodes st m)).
  { intros m. rewrite Hn0. subst st_a. cbn [nodes with_nodes].
    destruct (Nat.eqb_spec m node) as [->|Hne].
    - rewrite update_eq.
      destruct (existsb (Nat.eqb node) (get_requirements (nodes st node)));
        eexists; reflexivity.
    - rewrite update_neq by exact Hne.
      destruct (existsb (Nat.eqb m) (get_requirements (nodes st node)));
        [eexists; reflexivity|].
      exists (get_assigned_device (nodes st m)).
      now rewrite assign_to_device_same. }
  assert (Hnode0 : nodes st0 node = assign_to_device target (nodes st node)).
  { rewrite Hn0. subst st_a. cbn [nodes with_nodes]. rewrite update_eq.
    cbn [bind_to_device assign_to_device]. rewrite Hhint.
    now destruct (existsb (Nat.eqb node) (get_requirements (nodes st node))). }
  assert (Hall0 : forall r, In r (get_requirements (nodes st node)) ->
                            is_submitted (nodes st0 r) = true).
  { intros r Hr. destruct (Hfields r) as [d ->]. now apply Hall. }
  rewrite (bind_some _ (submit_requirements_all_submitted node _ st0 Hall0)).
  rewrite bind_get_node. rewrite Hnode0.
  cbn [get_operation assign_to_device]. rewrite Hop.
  assert (Hsel : select_executor node (get_operation (nodes st node)) st0
                 = Some (Some e, st0)).
  { unfold select_executor. rewrite bind_get_node, Hop, Hnode0.
    cbn [get_assigned_device assign_to_device].
    destruct (has_preferred_backend (get_operation (nodes st node)));
      unfold ret; now rewrite He. }
  rewrite (bind_some _ Hsel).
  rewrite (bind_some _ (submit_live_run e node _ st0)).
  eexists _, _. split; [reflexivity|].
  cbn [dispatched registry errors allocations device_memory regions nodes
       after_submit].
  rewrite !update_eq, Hnode0.
  split; [now rewrite Hd0|].
  split; [apply compress_requirements_NoDup|].
  split.
  { intros r Hin. apply compress_requirements_In in Hin.
    destruct Hin as [_ Hc]. destruct (Hfields r) as [d Hd].
    now rewrite Hd in Hc. }
  split; [now rewrite Hg0|]. split; [exact He0|].
  split; [exact Ha0|]. split; [exact Hm0|]. split; [exact Hr0|].
  repeat split.
Qed.

(** ** The copies of a requirement *)

Section Copies.

Hypothesis live_executors : forall b d, get_executor b d <> None.

Lemma requirement_op_handler_dispatch (req : node_id)
  (src dst : memory_location) (rng : range3) (res : result) (st : state) :
  exists e,
    requirement_op_handler req (memcpy_operation src dst rng) res st
    = Some (res, after_submit e req (memcpy_operation src dst rng) st).
Proof.
  unfold requirement_op_handler. cbn [is_data_transfer negb].
  destruct (select_executor_live live_executors req
              (memcpy_operation src dst rng) st eq_refl) as (e & He).
  exists e. rewrite (bind_some _ He).
  now rewrite (bind_some _ (submit_live_run e req _ st)).
Qed.

Lemma update_outdated_regions_copies (req : node_id)
  (bmem_req : buffer_memory_requirement) (target : device_id)
  (outdated : list rect) (res : result) (st : state) :
  let rid := get_data_region bmem_req in
  exists st' new covered,
    update_outdated_regions req bmem_req target (requirement_op_handler req)
                            outdated res st
    = Some (res, st') /\
    dispatched st' = dispatched st ++ new /\
    Forall2 (copy_from_first_source (regions st rid) target rid req)
            covered new /\
    regions st' = regions st /\
    allocations st' = allocations st /\
    registry st' = registry st /\
    ((covered = outdated /\
      errors st' = errors st /\
      is_cancelled (nodes st' req) = is_cancelled (nodes st req)) \/
     (exists region rest,
         outdated = covered ++ region :: rest /\
         get_update_source_candidates (regions st rid) target region = [] /\
         errors st' = errors st ++ [no_update_sources] /\
         is_cancelled (nodes st' req) = true)).
Proof.
  intros rid. revert st. induction outdated as [|region rest IH]; intros st.
  - exists st, [], []. split; [reflexivity|].
    rewrite app_nil_r. repeat split; auto.
  - cbn [update_outdated_regions]. rewrite bind_get_region. fold rid.
    destruct (get_update_source_candidates (regions st rid) target region)
      as [|source others] eqn:Hsrc.
    + eexists _, [], []. split; [reflexivity|].
      cbn [dispatched regions allocations registry errors nodes with_nodes
           push_error].
      rewrite app_nil_r, update_eq.
      repeat (split; [reflexivity || constructor|]).
      right. exists region, rest. repeat split; auto.
    + destruct (requirement_op_handler_dispatch req
                  (mk_location (fst source) (fst (snd source)) rid)
                  (mk_location target (fst region) rid) (snd region) res st)
        as (e & Hh).
      rewrite (bind_some _ Hh).
      set (op := memcpy_operation _ _ _) in *.
      destruct (IH (after_submit e req op st))
        as (st' & new & covered & Hrun & Hd & Hf & Hr & Ha & Hg & Hcase).
      exists st', (mk_dispatch e req op
                     (compress_requirements (nodes st)
                        (nonvirtual_requirements (nodes st) req)) :: new),
             (region :: covered).
      split; [exact Hrun|].
      split; [rewrite Hd; cbn [dispatched after_submit];
              now rewrite <- app_assoc|].
      split.
      { constructor; [|exact Hf].
        split; [reflexivity|]. exists source, others. auto. }
      split; [exact Hr|]. split; [exact Ha|]. split; [exact Hg|].
      assert (Hc : is_cancelled (nodes (after_submit e req op st) req)
                   = is_cancelled (nodes st req))
        by (now rewrite after_submit_node).
      destruct Hcase as [(-> & He & Hcan)|(r & rs & -> & Hnone & He & Hcan)].
      * left. repeat split; [exact He|congruence].
      * right. exists r, rs. repeat split; auto.
Qed.

Lemma for_each_explicit_operation_buffer {R : Type} (req : node_id)
  (bmem_req : buffer_memory_requirement)
  (h : operation -> R -> M DR AS R) (acc : R) (st : state) :
  get_operation (nodes st req)
  = requirement_operation (buffer_requirement bmem_req) ->
  is_submitted (nodes st req) = false ->
  for_each_explicit_operation req h acc st
  = update_outdated_regions req bmem_req
      (get_assigned_device (nodes st req)) h
      (get_outdated_regions (regions st (get_data_region bmem_req))
         (get_assigned_device (nodes st req))
         (get_access_offset3d bmem_req) (get_access_range3d bmem_req))
      acc st.
Proof.
  intros Hop Hsub.
  unfold for_each_explicit_operation. rewrite bind_get_node.
  rewrite Hsub, Hop. cbn [is_requirement negb].
  rewrite (execute_if_buffer_requirement_buffer _ _ _ Hop).
  now rewrite bind_get_node, bind_get_region.
Qed.

(** X6.  With an executor for every device, the copies issued for an
    unsubmitted buffer requirement are these: the outdated regions of the
    accessed rectangle on the assigned device are taken in order, and for
    each one that has update-source candidates one copy is dispatched, from
    the first candidate to the assigned device over that region.  When every
    outdated region has a candidate, that is all: no error, no
    cancellation.  At the first outdated region without a candidate the
    error is registered once, the node is cancelled and the remaining
    regions are not looked at.  In both cases the captured result is handed
    back unchanged, and no data region changes. *)
Theorem copies_from_first_sources (req : node_id)
  (bmem_req : buffer_memory_requirement) (res : result) (st : state) :
  get_operation (nodes st req)
  = requirement_operation (buffer_requirement bmem_req) ->
  is_submitted (nodes st req) = false ->
  let target := get_assigned_device (nodes st req) in
  let rid := get_data_region bmem_req in
  let outdated :=
    get_outdated_regions (regions st rid) target
      (get_access_offset3d bmem_req) (get_access_range3d bmem_req) in
  exists st' new covered,
    for_each_explicit_operation req (requirement_op_handler req) res st
    = Some (res, st') /\
    dispatched st' = dispatched st ++ new /\
    Forall2 (copy_from_first_source (regions st rid) target rid req)
            covered new /\
    regions st' = regions st /\
    ((covered = outdated /\
      errors st' = errors st /\
      is_cancelled (nodes st' req) = is_cancelled (nodes st req)) \/
     (exists region rest,
         outdated = covered ++ region :: rest /\
         get_update_source_candidates (regions st rid) target region = [] /\
         errors st' = errors st ++ [no_update_sources] /\
         is_cancelled (nodes st' req) = true)).
Proof.
  intros Hop Hsub target rid outdated.
  destruct (update_outdated_regions_copies req bmem_req target outdated
              res st)
    as (st' & new & covered & Hrun & Hd & Hf & Hr & _ & _ & Hcase).
  exists st', new, covered.
  split; [|auto].
  rewrite (for_each_explicit_operation_buffer _ _ _ _ Hop Hsub).
  exact Hrun.
Qed.

End Copies.

(** ** A backend without an allocator *)

(** X10.  Resolving an unsubmitted buffer requirement whose data region has
    no allocation on the assigned device, when the backend of that device
    has no allocator (as [ze_backend::get_allocator] answers for every
    device), does not return: [allocate] is called through the null
    pointer. *)
Theorem null_allocator_is_dereferenced (req : node_id)
  (bmem_req : buffer_memory_requirement) (st : state) :
  get_operation (nodes st req)
  = requirement_operation (buffer_requirement bmem_req) ->
  is_submitted (nodes st req) = false ->
  let dev := get_assigned_device (nodes st req) in
  has_allocation (regions st (get_data_region bmem_req)) dev = false ->
  get_allocator (get_backend dev) dev = None ->
  ensure_allocation_exists bmem_req dev st = None /\
  submit_requirement req st = None.
Proof.
  intros Hop Hsub dev Hhas Hnull.
  pose proof (ensure_allocation_exists_null_allocator bmem_req dev st
                Hhas Hnull) as Hens.
  split; [exact Hens|].
  unfold submit_requirement. rewrite bind_get_node. rewrite Hop, Hsub.
  cbn [is_requirement negb orb]. unfold bind at 1.
  rewrite (execute_if_buffer_requirement_buffer _ _ _ Hop).
  rewrite bind_assigned_device_of. fold dev. unfold bind at 1.
  now rewrite Hens.
Qed.

(** ** Successful resolutions *)

(** X7.  After the successful resolution of an unsubmitted buffer
    requirement, the operation of the node is that requirement with its
    device data initialised to the pointer [get_memory] gives for the
    assigned device on the data region as the allocation step left it;
    nothing else of the requirement (data region, mode, offset, range)
    changes. *)
Theorem resolution_binds_device_pointer (req : node_id)
  (bmem_req : buffer_memory_requirement) (st st' : state) :
  get_operation (nodes st req)
  = requirement_operation (buffer_requirement bmem_req) ->
  is_submitted (nodes st req) = false ->
  submit_requirement req st = Some (make_success, st') ->
  let dev := get_assigned_device (nodes st req) in
  let rid := get_data_region bmem_req in
  exists p dr1,
    allocation_step dev (regions st rid) dr1 /\
    get_memory dr1 dev = Some p /\
    get_operation (nodes st' req)
    = requirement_operation
        (buffer_requirement
           (mk_bmem rid (get_access_mode bmem_req)
                    (get_access_offset3d bmem_req)
                    (get_access_range3d bmem_req) (Some p))).
Proof.
  intros Hop Hsub Hrun dev rid.
  eapply submit_requirement_phases_inv in Hrun; [|exact Hop|exact Hsub].
  destruct Hrun
    as [[Hres _]|(_ & st1 & p & st3 & Hall & Hmem & _ & Hphase & Hst')];
    [discriminate|].
  destruct Hall as (_ & _ & _ & _ & _ & Hstep & _).
  destruct Hphase as (_ & _ & _ & _ & _ & _ & Hop3 & _).
  cbn [nodes with_nodes] in Hop3. rewrite update_eq in Hop3.
  cbn [get_operation set_operation] in Hop3.
  exists p, (regions st1 rid). split; [exact Hstep|]. split; [exact Hmem|].
  rewrite Hst'.
  destruct (get_event (nodes st3 req)); cbn [nodes with_nodes with_regions].
  - exact Hop3.
  - rewrite update_eq. exact Hop3.
Qed.

(** X8.  Resolution is idempotent: after the successful resolution of an
    unsubmitted requirement without an event the node is submitted, and
    resolving it again succeeds without changing anything. *)
Theorem resolved_requirement_is_not_resolved_again (req : node_id)
  (st st' : state) :
  is_requirement (get_operation (nodes st req)) = true ->
  is_submitted (nodes st req) = false ->
  get_event (nodes st req) = None ->
  submit_requirement req st = Some (make_success, st') ->
  is_submitted (nodes st' req) = true /\
  submit_requirement req st' = Some (make_success, st').
Proof.
  intros Hreq Hsub Hev Hrun.
  assert (Hagain : forall st' : state,
             is_submitted (nodes st' req) = true ->
             submit_requirement req st' = Some (make_success, st')).
  { intros st0 Hs. unfold submit_requirement. rewrite bind_get_node.
    rewrite Hs. now rewrite orb_true_r. }
  assert (Hs : is_submitted (nodes st' req) = true);
    [|split; [exact Hs|now apply Hagain]].
  destruct (get_operation (nodes st req)) as [k|? ? ?|[bmem_req|]] eqn:Hop;
    try discriminate.
  - eapply submit_requirement_buffer_inv in Hrun; [|exact Hop|exact Hsub].
    destruct Hrun as [[Hres _]|[_ Hres]]; [discriminate|].
    destruct Hres as (_ & _ & _ & _ & _ & _
                      & (dr1 & new & _ & _ & _ & _ & Hnil & Hcons & _)).
    destruct new as [|d new].
    + now destruct (Hnil Hev eq_refl) as (_ & Hs & _).
    + now destruct (Hcons Hev ltac:(discriminate)) as (_ & Hs & _).
  - rewrite (submit_requirement_other req st Hop Hsub) in Hrun.
    injection Hrun as <-. rewrite Hev.
    cbn [nodes with_nodes]. now rewrite update_eq.
Qed.

(** X13.  An access with nothing outdated changes no validity, whatever its
    mode: when the data region, after the allocation step, reports no
    outdated region of the accessed rectangle on the assigned device, the
    successful resolution of an unsubmitted requirement without an event
    dispatches nothing, marks the node virtually submitted and leaves the
    data region as the allocation step left it.  In particular a write
    access does not reach [mark_range_current]. *)
Theorem nothing_outdated_nothing_marked (req : node_id)
  (bmem_req : buffer_memory_requirement) (st st' : state) :
  get_operation (nodes st req)
  = requirement_operation (buffer_requirement bmem_req) ->
  is_submitted (nodes st req) = false ->
  get_event (nodes st req) = None ->
  let dev := get_assigned_device (nodes st req) in
  let rid := get_data_region bmem_req in
  (forall dr1, allocation_step dev (regions st rid) dr1 ->
               get_outdated_regions dr1 dev (get_access_offset3d bmem_req)
                                    (get_access_range3d bmem_req) = []) ->
  submit_requirement req st = Some (make_success, st') ->
  dispatched st' = dispatched st /\
  is_virtual (nodes st' req) = true /\
  get_event (nodes st' req) = Some ready_event /\
  allocation_step dev (regions st rid) (regions st' rid) /\
  forall r, r <> rid -> regions st' r = regions st r.
Proof.
  intros Hop Hsub Hev dev rid Hnothing Hrun.
  eapply submit_requirement_phases_inv in Hrun; [|exact Hop|exact Hsub].
  destruct Hrun
    as [[Hres _]|(_ & st1 & p & st3 & Hall & _ & Hc3 & _ & Hst')];
    [discriminate|].
  destruct Hall as (Hn1 & _ & Hd1 & _ & Hr1 & Hstep & _).
  fold rid in Hstep, Hr1.
  set (st2 := with_nodes _ st1) in *.
  assert (Hdev2 : get_assigned_device (nodes st2 req) = dev).
  { subst st2. cbn [nodes with_nodes]. rewrite update_eq.
    cbn [get_assigned_device set_operation]. unfold dev. now rewrite Hn1. }
  assert (H3 : st3 = st2).
  { destruct (is_discard (get_access_mode bmem_req)); cbn [negb] in Hc3.
    - now injection Hc3 as <-.
    - rewrite (for_each_explicit_operation_buffer req
                 (bmem_req := initialize_device_data p bmem_req)) in Hc3;
        [|subst st2; cbn [nodes with_nodes]; now rewrite update_eq
         |subst st2; cbn [nodes with_nodes]; rewrite update_eq;
          cbn [is_submitted set_operation]; now rewrite Hn1].
      rewrite Hdev2 in Hc3.
      cbn [get_data_region initialize_device_data get_access_offset3d
           get_access_range3d] in Hc3.
      fold rid in Hc3.
      replace (regions st2 rid) with (regions st1 rid) in Hc3 by reflexivity.
      rewrite (Hnothing _ Hstep) in Hc3.
      cbn [update_outdated_regions] in Hc3. now injection Hc3 as <-. }
  subst st3.
  assert (Hev2 : get_event (nodes st2 req) = None).
  { subst st2. cbn [nodes with_nodes]. rewrite update_eq.
    cbn [get_event set_operation]. now rewrite Hn1. }
  rewrite Hev2 in Hst'. subst st'. cbn [dispatched nodes regions with_nodes].
  rewrite update_eq.
  split; [exact Hd1|]. split; [reflexivity|]. split; [reflexivity|].
  split; [exact Hstep|exact Hr1].
Qed.

(** X14.  An access that is no discard access, with a first outdated region
    that has an update source: when the data region, after the allocation
    step, reports outdated regions of the accessed rectangle and candidates
    for the first of them, the successful resolution of an unsubmitted
    requirement without an event dispatches first the copy of that region
    from its first candidate, does not mark the node virtual, and leaves the
    data region with the accessed range marked: valid for mode [read],
    current for every other mode. *)
Theorem outdated_region_is_copied_and_marked (req : node_id)
  (bmem_req : buffer_memory_requirement) (st st' : state) :
  get_operation (nodes st req)
  = requirement_operation (buffer_requirement bmem_req) ->
  is_submitted (nodes st req) = false ->
  get_event (nodes st req) = None ->
  is_discard (get_access_mode bmem_req) = false ->
  let dev := get_assigned_device (nodes st req) in
  let rid := get_data_region bmem_req in
  (forall dr1, allocation_step dev (regions st rid) dr1 ->
     exists region rest source others,
       get_outdated_regions dr1 dev (get_access_offset3d bmem_req)
                            (get_access_range3d bmem_req) = region :: rest /\
       get_update_source_candidates dr1 dev region = source :: others) ->
  submit_requirement req st = Some (make_success, st') ->
  exists dr1 region rest d new,
    allocation_step dev (regions st rid) dr1 /\
    get_outdated_regions dr1 dev (get_access_offset3d bmem_req)
                         (get_access_range3d bmem_req) = region :: rest /\
    dispatched st' = dispatched st ++ d :: new /\
    copy_from_first_source dr1 dev rid req region d /\
    is_virtual (nodes st' req) = is_virtual (nodes st req) /\
    regions st' rid
    = mark_access (get_access_mode bmem_req) dev bmem_req dr1.
Proof.
  intros Hop Hsub Hev Hdis dev rid Hsourced Hrun.
  eapply submit_requirement_phases_inv in Hrun; [|exact Hop|exact Hsub].
  destruct Hrun
    as [[Hres _]|(_ & st1 & p & st3 & Hall & _ & Hc3 & Hphase & Hst')];
    [discriminate|].
  destruct Hall as (Hn1 & _ & Hd1 & _ & _ & Hstep & _).
  fold rid in Hstep.
  destruct (Hsourced _ Hstep)
    as (region & rest & source & others & Hout_regions & Hcand).
  set (st2 := with_nodes _ st1) in *.
  rewrite Hdis in Hc3. cbn [negb] in Hc3.
  rewrite (for_each_explicit_operation_buffer req
             (bmem_req := initialize_device_data p bmem_req)) in Hc3;
    [|subst st2; cbn [nodes with_nodes]; now rewrite update_eq
     |subst st2; cbn [nodes with_nodes]; rewrite update_eq;
      cbn [is_submitted set_operation]; now rewrite Hn1].
  assert (Hdev2 : get_assigned_device (nodes st2 req) = dev).
  { subst st2. cbn [nodes with_nodes]. rewrite update_eq.
    cbn [get_assigned_device set_operation]. unfold dev. now rewrite Hn1. }
  rewrite Hdev2 in Hc3.
  cbn [get_data_region initialize_device_data get_access_offset3d
       get_access_range3d] in Hc3.
  fold rid in Hc3.
  replace (regions st2 rid) with (regions st1 rid) in Hc3 by reflexivity.
  rewrite Hout_regions in Hc3.
  apply update_outdated_regions_inv in Hc3
    as (_ & _ & new & covered & Hd3 & Hf & Hcase).
  cbn [get_data_region initialize_device_data] in Hf, Hcase.
  fold rid in Hf, Hcase.
  replace (regions st2 rid) with (regions st1 rid) in Hf, Hcase
    by reflexivity.
  assert (Hfirst : exists d new',
             new = d :: new' /\
             copy_from_first_source (regions st1 rid) dev rid req region d).
  { destruct Hcase as [->|(r & rs & Hsplit & Hnone)].
    - inversion Hf as [|? d ? new' Hcopy _]; subst. eauto.
    - destruct covered as [|c covered].
      + cbn [app] in Hsplit. injection Hsplit as <- _. congruence.
      + cbn [app] in Hsplit. injection Hsplit as <- _.
        inversion Hf as [|? d ? new' Hcopy _]; subst. eauto. }
  destruct Hfirst as (d & new' & -> & Hcopy).
  destruct Hphase as (Hr3 & _ & _ & _ & _ & _ & _ & Hv3
                      & (new_cp & Hdcp & _ & _ & Hne) & _).
  assert (Hsame : new_cp = d :: new').
  { rewrite Hd3 in Hdcp. now apply app_inv_head in Hdcp. }
  destruct (Hne ltac:(rewrite Hsame; discriminate)) as [Hevent _].
  rewrite Hevent in Hst'. subst st'.
  exists (regions st1 rid), region, rest, d, new'.
  split; [exact Hstep|]. split; [exact Hout_regions|].
  cbn [dispatched nodes regions with_regions].
  split; [rewrite Hd3; subst st2; cbn [dispatched with_nodes];
          now rewrite Hd1|].
  split; [exact Hcopy|].
  split.
  { rewrite Hv3. subst st2. cbn [nodes with_nodes]. rewrite update_eq.
    cbn [is_virtual set_operation]. now rewrite Hn1. }
  rewrite update_eq. now rewrite Hr3.
Qed.

(** X17.  A discard access issues no copy and does not update the region
    tracker: whenever the resolution of an unsubmitted buffer requirement
    in mode [discard_write] or [discard_read_write] returns, it has made no
    call of [submit_directly], whatever the data region reports as
    outdated.  When it returns success for a requirement without an event,
    the requirement is marked virtually submitted and its data region is
    left as the allocation step left it: no range is marked.  The accessed
    range is marked current only for a requirement that carried an event
    already. *)
Theorem discard_requirement_outcome (req : node_id)
  (bmem_req : buffer_memory_requirement) (st st' : state) (res : result) :
  get_operation (nodes st req)
  = requirement_operation (buffer_requirement bmem_req) ->
  is_submitted (nodes st req) = false ->
  get_access_mode bmem_req = discard_write \/
  get_access_mode bmem_req = discard_read_write ->
  submit_requirement req st = Some (res, st') ->
  let dev := get_assigned_device (nodes st req) in
  let rid := get_data_region bmem_req in
  dispatched st' = dispatched st /\
  (res = make_success ->
   exists dr1,
     allocation_step dev (regions st rid) dr1 /\
     (get_event (nodes st req) = None ->
        is_virtual (nodes st' req) = true /\
        get_event (nodes st' req) = Some ready_event /\
        regions st' rid = dr1) /\
     (get_event (nodes st req) <> None ->
        regions st' rid
        = mark_range_current dr1 dev (get_access_offset3d bmem_req)
                             (get_access_range3d bmem_req))).
Proof.
  intros Hop Hsub Hmode Hrun dev rid. subst dev rid.
  assert (Hdis : is_discard (get_access_mode bmem_req) = true)
    by (destruct Hmode as [-> | ->]; reflexivity).
  assert (Hnr : access_mode_eqb (get_access_mode bmem_req) read = false)
    by (destruct Hmode as [-> | ->]; reflexivity).
  eapply submit_requirement_buffer_inv in Hrun; [|exact Hop|exact Hsub].
  destruct Hrun as [[-> Hfail]|[-> Hres]].
  { apply allocation_failure_failed in Hfail as (_ & _ & Hd & _).
    split; [exact Hd|discriminate]. }
  destruct Hres as (_ & _ & _ & _ & _ & _
                    & (dr1 & new & Hstep & Hd & _ & Hnew & Hnil & _ & Hsome)).
  specialize (Hnew Hdis). subst new. rewrite app_nil_r in Hd.
  split; [exact Hd|]. intros _. exists dr1. split; [exact Hstep|]. split.
  - intros Hev. destruct (Hnil Hev eq_refl) as (Hv & _ & He & Hr). auto.
  - intros Hev. rewrite (Hsome Hev). unfold mark_access. now rewrite Hnr.
Qed.

(** ** Submission under the contract of the data region *)

Section Contract.

Hypothesis get_memory_of_allocation :
  forall (dr : DR) d, has_allocation dr d = true -> get_memory dr d <> None.
Hypothesis has_allocation_after_add :
  forall (dr : DR) d p, has_allocation (add_empty_allocation dr d p) d = true.
Hypothesis live_executors : forall b d, get_executor b d <> None.
Hypothesis live_allocators : forall b d, get_allocator b d <> None.

(** X9.  Under the contract, [submit] returns, and it only appends to the
    error sink and to the registry.  The registry gets the node as its new
    last entry or stays as it is.  A submission that registers no error
    registers the node; a submission that leaves the registry as it is has
    registered an error and has cancelled the node. *)
Theorem submit_registers_or_reports (node : node_id) (st : state) :
  exists st' new_errs,
    dag_direct_scheduler_submit node st = Some (tt, st') /\
    errors st' = errors st ++ new_errs /\
    (registry st' = registry st \/ registry st' = registry st ++ [node]) /\
    (new_errs = [] -> registry st' = registry st ++ [node]) /\
    (registry st' = registry st ->
       new_errs <> [] /\ is_cancelled (nodes st' node) = true).
Proof.
  destruct (submit_outcome get_memory_of_allocation has_allocation_after_add
              live_executors live_allocators node st)
    as (st' & Hrun & [Hab|(Hdone & _)]).
  - destruct Hab as (Hc & _ & _ & Hg & _ & (olds & e & Herr & _)).
    exists st', (olds ++ [e]). split; [exact Hrun|]. split; [exact Herr|].
    split; [now left|]. split.
    + intros Hnil. now apply app_eq_nil in Hnil as [_ Hnil].
    + intros _. split; [|exact Hc].
      intros Hnil. now apply app_eq_nil in Hnil as [_ Hnil].
  - destruct Hdone as (Hg & (errs & Herr & _)).
    exists st', errs. split; [exact Hrun|]. split; [exact Herr|].
    split; [now right|]. split; [intros _; exact Hg|].
    intros Hsame. rewrite Hsame in Hg.
    apply (f_equal (@List.length node_id)) in Hg.
    rewrite length_app in Hg. cbn [List.length] in Hg. lia.
Qed.

(** X15.  [submit_requirement] returns, and it fails by the failure of the
    lazy allocation only: the error it returns is the memory-allocation
    error, registered once by then; on success the only errors it
    registered are those of missing update sources.  The error for
    operations that are no data transfers is never returned and never
    registered: resolving a requirement generates copies only. *)
Theorem resolution_fails_by_allocation_only (req : node_id) (st : state) :
  exists res st' new_errs,
    submit_requirement req st = Some (res, st') /\
    errors st' = errors st ++ new_errs /\
    ((res = make_success /\ Forall (eq no_update_sources) new_errs) \/
     (res = make_error lazy_allocation_failed /\
      new_errs = [lazy_allocation_failed])) /\
    res <> make_error only_data_transfers /\
    ~ In only_data_transfers new_errs.
Proof.
  destruct (submit_requirement_outcome
              get_memory_of_allocation has_allocation_after_add
              live_executors live_allocators req st)
    as (res & st' & Hrun & [[-> Hfail]|[-> Hres]]).
  - destruct Hfail as (_ & _ & _ & _ & Herr & _).
    exists (make_error lazy_allocation_failed), st', [lazy_allocation_failed].
    split; [exact Hrun|]. split; [exact Herr|].
    split; [right; auto|]. split; [discriminate|].
    intros [H|[]]. discriminate.
  - destruct Hres as (_ & _ & _ & _ & (errs & Herr & Hf)).
    exists make_success, st', errs.
    split; [exact Hrun|]. split; [exact Herr|].
    split; [left; auto|]. split; [discriminate|].
    intros Hin. rewrite Forall_forall in Hf. specialize (Hf _ Hin).
    discriminate.
Qed.

(** X16.  For a node with a device hint whose operation is no requirement,
    [submit] returns in one of two ways.  Either the submission is aborted:
    the node is cancelled and not registered.  Or the calls of
    [submit_directly] it made are copies for requirement nodes followed,
    last, by the one call for the operation of the node itself, with a
    predecessor list without doubles, and the node is registered as
    submitted. *)
Theorem own_operation_is_dispatched_last (node : node_id) (st : state)
  (target : device_id) :
  bind_to_device (nodes st node) = Some target ->
  is_requirement (get_operation (nodes st node)) = false ->
  exists st',
    dag_direct_scheduler_submit node st = Some (tt, st') /\
    ((is_cancelled (nodes st' node) = true /\ registry st' = registry st) \/
     (exists copies e preds,
         dispatched st'
         = dispatched st ++ copies
           ++ [mk_dispatch e node (get_operation (nodes st node)) preds] /\
         Forall (copy_for_requirement (nodes st)) copies /\
         NoDup preds /\
         registry st' = registry st ++ [node])).
Proof.
  intros Hhint Hop.
  unfold dag_direct_scheduler_submit. rewrite bind_get_node.
  rewrite Hhint. rewrite bind_modify_node.
  set (st_a := with_nodes _ st).
  destruct (assign_devices_run target (get_requirements (nodes st node)) st_a)
    as (st0 & Hrun0 & Hass0).
  rewrite (bind_some _ Hrun0).
  assert (Hass : devices_assigned st st0).
  { eapply devices_assigned_trans; [|exact Hass0].
    apply devices_assigned_modify. }
  assert (Hfield : forall m,
             get_operation (nodes st0 m) = get_operation (nodes st m)).
  { intros m. destruct Hass as [_ Hn]. now destruct (Hn m) as [d ->]. }
  destruct (submit_requirements_outcome
              get_memory_of_allocation has_allocation_after_add
              live_executors live_allocators node
              (get_requirements (nodes st node)) st0)
    as (b & st1 & Hloop & Hfalse & Htrue).
  rewrite (bind_some _ Hloop).
  destruct b.
  { exists st1. split; [reflexivity|]. left.
    destruct (Htrue eq_refl) as (st_mid & st_err & Hres & Hstep & Habort).
    assert (Hab : submission_aborted node st st1).
    { eapply submission_aborted_assigned; [exact Hass|].
      eapply aborted_after_resolution; eauto. }
    destruct Hab as (Hc & _ & _ & Hg & _). auto. }
  destruct (Hfalse eq_refl)
    as [(Hn & _ & Hg & (copies & Hd & Hf) & _) _].
  assert (Hop0 : is_requirement (get_operation (nodes st0 node)) = false)
    by (now rewrite Hfield).
  rewrite bind_get_node. rewrite (Hn node Hop0), Hop0, Hfield.
  destruct (select_executor_live live_executors node
              (get_operation (nodes st node)) st1 Hop) as (e & Hsel).
  rewrite (bind_some _ Hsel).
  rewrite (bind_some _ (submit_live_run e node _ st1)).
  eexists. split; [reflexivity|]. right.
  exists copies, e,
    (compress_requirements (nodes st1)
       (nonvirtual_requirements (nodes st1) node)).
  cbn [dispatched registry after_submit].
  destruct Hass as [(_ & _ & _ & _ & Hd0 & Hg0) _].
  split; [now rewrite Hd, Hd0, <- app_assoc|].
  split.
  { eapply Forall_impl; [|exact Hf].
    intros d [Hdt Hrq]. split; [exact Hdt|]. now rewrite <- Hfield. }
  split; [apply compress_requirements_NoDup|].
  now rewrite Hg, Hg0.
Qed.

End Contract.

End SchedulerProperties.

(** * The Level Zero hardware manager *)

(** What the loop of [get_ze_global_memory_ordinal] keeps: [result] is the
    first index of the largest size seen so far, and index 0 as long as no
    positive size was seen. *)
Lemma memory_ordinal_loop_invariant (rest pre : list N) (m res : N) :
  (N.of_nat (List.length (pre ++ rest)) < uint32_max)%N ->
  nth (N.to_nat res) pre 0%N = m ->
  (forall j, (nth j pre 0 <= m)%N) ->
  (forall j, j < N.to_nat res -> (nth j pre 0 < m)%N) ->
  (N.to_nat res < List.length pre \/ res = 0%N) ->
  let r := memory_ordinal_loop rest (N.of_nat (List.length pre)) m res in
  (forall j, (nth j (pre ++ rest) 0 <= nth (N.to_nat r) (pre ++ rest) 0)%N) /\
  (forall j, j < N.to_nat r ->
             (nth j (pre ++ rest) 0 < nth (N.to_nat r) (pre ++ rest) 0)%N) /\
  (N.to_nat r < List.length (pre ++ rest) \/ r = 0%N).
Proof.
  revert pre m res. induction rest as [|x rest IH]; intros pre m res.
  - rewrite app_nil_r. cbn [memory_ordinal_loop]. intros _ Hm Hle Hlt Hr.
    rewrite Hm. auto.
  - intros Hlen Hm Hle Hlt Hr.
    assert (Hlen' : (N.of_nat (List.length ((pre ++ [x]) ++ rest))
                     < uint32_max)%N)
      by (now rewrite <- app_assoc).
    assert (Hidx : (N.of_nat (List.length pre) + 1)%N
                   = N.of_nat (List.length (pre ++ [x])))
      by (rewrite length_app; cbn [List.length]; lia).
    cbn [memory_ordinal_loop]. rewrite Hidx.
    replace (pre ++ x :: rest) with ((pre ++ [x]) ++ rest)
      by (now rewrite <- app_assoc).
    destruct (N.ltb_spec m x) as [Hmx|Hxm].
    + assert (Hsmall : (N.of_nat (List.length pre) mod uint32_max
                        = N.of_nat (List.length pre))%N).
      { apply N.mod_small. rewrite length_app in Hlen. lia. }
      rewrite Hsmall. apply IH; [exact Hlen'| | | |].
      * rewrite Nat2N.id. now rewrite nth_middle.
      * intros j. destruct (Nat.lt_ge_cases j (List.length pre)).
        -- rewrite app_nth1 by assumption. specialize (Hle j). lia.
        -- rewrite app_nth2 by assumption.
           destruct (j - List.length pre) as [|[|k]]; cbn [nth]; lia.
      * rewrite Nat2N.id. intros j Hj. rewrite app_nth1 by assumption.
        specialize (Hle j). lia.
      * left. rewrite Nat2N.id, length_app. cbn [List.length]. lia.
    + apply IH; [exact Hlen'| | | |].
      * destruct Hr as [Hr| ->].
        -- now rewrite app_nth1 by assumption.
        -- destruct pre as [|p pre]; [|now cbn [nth app N.to_nat] in *].
           cbn [nth app N.to_nat] in *. lia.
      * intros j. destruct (Nat.lt_ge_cases j (List.length pre)).
        -- rewrite app_nth1 by assumption. apply Hle.
        -- rewrite app_nth2 by assumption.
           destruct (j - List.length pre) as [|[|k]]; cbn [nth]; lia.
      * intros j Hj. destruct Hr as [Hr| ->]; [|cbn in Hj; lia].
        rewrite app_nth1 by lia. now apply Hlt.
      * destruct Hr as [Hr| ->]; [left|now right].
        rewrite length_app. lia.
Qed.

(** X11.  For fewer than [2^32] memory properties,
    [get_ze_global_memory_ordinal] answers with the index of an entry of
    maximal [totalSize], and with the first such index: every entry before
    it is strictly smaller.  The index is in range unless it is 0, which is
    also the answer for no entries and for entries that are all of size
    0. *)
Theorem global_memory_ordinal_is_first_maximum (memory_props : list N) :
  (N.of_nat (List.length memory_props) < 2 ^ 32)%N ->
  let r := N.to_nat (get_ze_global_memory_ordinal memory_props) in
  (forall j, (nth j memory_props 0 <= nth r memory_props 0)%N) /\
  (forall j, j < r -> (nth j memory_props 0 < nth r memory_props 0)%N) /\
  (r < List.length memory_props \/ r = 0) /\
  ((forall x, In x memory_props -> x = 0%N) -> r = 0).
Proof.
  intros Hlen r.
  destruct (@memory_ordinal_loop_invariant memory_props [] 0%N 0%N)
    as (Hmax & Hfirst & Hrange);
    [exact Hlen|reflexivity|intros j; destruct j; cbn; lia
    |cbn; lia|now right|].
  cbn [app List.length N.of_nat] in Hmax, Hfirst, Hrange.
  fold (get_ze_global_memory_ordinal memory_props) in Hmax, Hfirst, Hrange.
  fold r in Hmax, Hfirst, Hrange.
  split; [exact Hmax|]. split; [exact Hfirst|].
  split; [destruct Hrange as [H|H]; [now left|right; subst r; now rewrite H]|].
  intros Hzero.
  destruct (Nat.eq_dec r 0) as [Hr|Hr]; [exact Hr|].
  assert (H0 : 0 < r) by lia. specialize (Hfirst 0 H0).
  assert (Hnth : nth r memory_props 0%N = 0%N).
  { destruct (nth_in_or_default r memory_props 0%N) as [Hin|Hd];
      [now apply Hzero|exact Hd]. }
  rewrite Hnth in Hfirst. lia.
Qed.

Lemma global_memory_ordinal_is_first_maximum_witness :
  get_ze_global_memory_ordinal [0; 512; 4096; 4096]%N = 2%N /\
  (forall j, (nth j [0; 512; 4096; 4096] 0 <= 4096)%N).
Proof.
  split; [reflexivity|].
  destruct (global_memory_ordinal_is_first_maximum [0; 512; 4096; 4096]%N)
    as (Hmax & _); [reflexivity|].
  exact Hmax.
Defined.

Lemma static_cast_int_small (i : nat) :
  (N.of_nat i < 2 ^ 31)%N -> static_cast_int (N.of_nat i) = Z.of_nat i.
Proof.
  intros Hi. unfold static_cast_int, uint32_max.
  rewrite N.mod_small by (eapply N.lt_trans; [exact Hi|reflexivity]).
  rewrite nat_N_Z.
  assert (Hz : (Z.of_nat i < 2 ^ 31)%Z).
  { rewrite <- nat_N_Z. change (2 ^ 31)%Z with (Z.of_N (2 ^ 31)).
    now apply N2Z.inj_lt. }
  apply Z.ltb_lt in Hz. now rewrite Hz.
Qed.

Lemma device_handle_search_absent (devices : list N) (i d : N)
  (out : backend_id * Z) :
  ~ In d devices ->
  device_handle_to_device_id_from devices i d out
  = (make_error cannot_convert_handle, out).
Proof.
  revert i. induction devices as [|h rest IH]; intros i Hnot; [reflexivity|].
  cbn [device_handle_to_device_id_from].
  destruct (N.eqb_spec h d) as [->|Hne]; [elim Hnot; now left|].
  apply IH. intros Hin. apply Hnot. now right.
Qed.

Lemma device_handle_search_first (devices : list N) (base : N) (d : N)
  (out : backend_id * Z) (i : nat) :
  nth_error devices i = Some d ->
  (forall j, j < i -> nth_error devices j <> Some d) ->
  device_handle_to_device_id_from devices base d out
  = (make_success, get_device_id (base + N.of_nat i)).
Proof.
  revert base i. induction devices as [|h rest IH]; intros base i Hnth Hfirst.
  - destruct i; discriminate.
  - cbn [device_handle_to_device_id_from]. destruct i as [|i].
    + injection Hnth as ->. rewrite N.eqb_refl. now rewrite N.add_0_r.
    + destruct (N.eqb_spec h d) as [->|Hne].
      * elim (Hfirst 0); [lia|reflexivity].
      * rewrite (IH (base + 1)%N i Hnth).
        -- f_equal. f_equal. lia.
        -- intros j Hj. apply (Hfirst (S j)). lia.
Qed.

(** X12.  [device_handle_to_device_id] fails, leaving [out] as it was, when
    the handle belongs to no device.  When the handle first occurs at an
    index below [2^31], it succeeds and [out] becomes the Level Zero device
    id of that index; so for pairwise distinct handles, looking up the
    handle of device [i] gives back [i]. *)
Theorem device_handle_lookup (devices : list N) (out : backend_id * Z) :
  (N.of_nat (List.length devices) <= 2 ^ 31)%N ->
  (forall d, ~ In d devices ->
     device_handle_to_device_id devices d out
     = (make_error cannot_convert_handle, out)) /\
  (forall d i,
     nth_error devices i = Some d ->
     (forall j, j < i -> nth_error devices j <> Some d) ->
     device_handle_to_device_id devices d out
     = (make_success, (level_zero, Z.of_nat i))) /\
  (NoDup devices ->
   forall i, i < List.length devices ->
     device_handle_to_device_id devices (nth i devices 0%N) out
     = (make_success, (level_zero, Z.of_nat i))).
Proof.
  intros Hlen.
  assert (Hfirst : forall d i,
             nth_error devices i = Some d ->
             (forall j, j < i -> nth_error devices j <> Some d) ->
             device_handle_to_device_id devices d out
             = (make_success, (level_zero, Z.of_nat i))).
  { intros d i Hnth Hbefore. unfold device_handle_to_device_id.
    rewrite (device_handle_search_first devices 0 out Hnth Hbefore).
    unfold get_device_id. rewrite N.add_0_l, static_cast_int_small;
      [reflexivity|].
    assert (Hi : i < List.length devices)
      by (apply nth_error_Some; congruence).
    lia. }
  split; [intros d Hnot; now apply device_handle_search_absent|].
  split; [exact Hfirst|].
  intros Hnodup i Hi. apply Hfirst.
  - now apply nth_error_nth'.
  - intros j Hj Hsame.
    assert (Hjl : j < List.length devices) by lia.
    rewrite (nth_error_nth' devices 0%N Hjl) in Hsame.
    injection Hsame as Hsame.
    rewrite NoDup_nth in Hnodup. specialize (Hnodup j i Hjl Hi Hsame). lia.
Qed.

Lemma device_handle_lookup_witness :
  device_handle_to_device_id [7; 9; 11]%N 9%N (level_zero, (-1)%Z)
  = (make_success, (level_zero, 1%Z)) /\
  device_handle_to_device_id [7; 9; 11]%N 8%N (level_zero, (-1)%Z)
  = (make_error cannot_convert_handle, (level_zero, (-1)%Z)).
Proof.
  destruct (device_handle_lookup [7; 9; 11]%N (level_zero, (-1)%Z))
    as (Habsent & Hfirst & _); [cbn; lia|].
  split.
  - apply (Hfirst 9%N 1); [reflexivity|].
    intros j Hj. destruct j; [discriminate|lia].
  - apply Habsent. cbn. intros [H|[H|[H|[]]]]; discriminate.
Defined.

(** * The further properties on concrete inputs *)

Lemma compress_requirements_canonical_witness :
  compress_requirements (fun _ => new_node (kernel_operation 0) [] None)
                        [3; 1; 3]
  = compress_requirements (fun _ => new_node (kernel_operation 0) [] None)
                          [1; 3].
Proof.
  apply (compress_requirements_canonical
           (fun _ => new_node (kernel_operation 0) [] None) [3; 1; 3] [1; 3]).
  intros r. simpl. tauto.
Defined.

Section LevelZeroExamples.

#[local] Existing Instance simple_backends.

(** A first access to the buffer on the Level Zero device. *)
Lemma null_allocator_is_dereferenced_witness :
  has_allocation (regions level_zero_access_state 0) ze_dev = false /\
  get_allocator (get_backend ze_dev) ze_dev = None /\
  submit_requirement 1 level_zero_access_state = None.
Proof.
  split; [reflexivity|]. split; [reflexivity|].
  apply (null_allocator_is_dereferenced
           (data_region := simple_data_region) (backends := simple_backends)
           1 level_zero_access_state eq_refl eq_refl eq_refl eq_refl).
Defined.

(** Scenario 1 resolves: the requirement is bound to the new allocation. *)
Lemma resolution_binds_device_pointer_witness :
  exists st' p,
    submit_requirement 1 (access_state read 1000)
    = Some (make_success, st') /\
    get_operation (nodes st' 1)
    = requirement_operation
        (buffer_requirement
           (mk_bmem 0 read (fst rect_0_50) (snd rect_0_50) (Some p))).
Proof.
  set (st' := match submit_requirement 1 (access_state read 1000) with
              | Some (_, s) => s
              | None => access_state read 1000
              end).
  assert (Hrun : submit_requirement 1 (access_state read 1000)
                 = Some (make_success, st'))
    by (vm_compute; reflexivity).
  destruct (resolution_binds_device_pointer
              (data_region := simple_data_region)
              (backends := simple_backends)
              1 (access_state read 1000) eq_refl eq_refl Hrun)
    as (p & _ & _ & _ & Hop).
  exists st', p. split; [exact Hrun|exact Hop].
Defined.

Lemma resolved_requirement_is_not_resolved_again_witness :
  exists st',
    submit_requirement 1 (access_state read 1000)
    = Some (make_success, st') /\
    is_submitted (nodes st' 1) = true /\
    submit_requirement 1 st' = Some (make_success, st').
Proof.
  set (st' := match submit_requirement 1 (access_state read 1000) with
              | Some (_, s) => s
              | None => access_state read 1000
              end).
  assert (Hrun : submit_requirement 1 (access_state read 1000)
                 = Some (make_success, st'))
    by (vm_compute; reflexivity).
  exists st'. split; [exact Hrun|].
  exact (resolved_requirement_is_not_resolved_again
           (data_region := simple_data_region) (backends := simple_backends)
           1 (access_state read 1000) eq_refl eq_refl eq_refl Hrun).
Defined.

(** A write on device 2 of a rectangle that is valid on both devices:
    device 1 stays a valid holder. *)
Lemma nothing_outdated_nothing_marked_witness :
  exists st',
    submit_requirement 1 (valid_access_state write)
    = Some (make_success, st') /\
    dispatched st' = [] /\
    is_virtual (nodes st' 1) = true /\
    allocation_step dev2 (buffer_100 [(dev1, rect_0_50); (dev2, rect_0_50)])
                    (regions st' 0).
Proof.
  set (st' := match submit_requirement 1 (valid_access_state write) with
              | Some (_, s) => s
              | None => valid_access_state write
              end).
  assert (Hrun : submit_requirement 1 (valid_access_state write)
                 = Some (make_success, st'))
    by (vm_compute; reflexivity).
  assert (Hnothing : forall dr1,
             allocation_step dev2 (regions (valid_access_state write) 0) dr1 ->
             get_outdated_regions dr1 dev2 (fst rect_0_50) (snd rect_0_50)
             = []).
  { intros dr1 [[_ ->]|[_ (q & _ & ->)]]; reflexivity. }
  destruct (nothing_outdated_nothing_marked
              (data_region := simple_data_region)
              (backends := simple_backends)
              1 (valid_access_state write) eq_refl eq_refl eq_refl
              Hnothing Hrun)
    as (Hd & Hv & _ & Hstep & _).
  exists st'. auto.
Defined.

(** Scenario 2: a write on device 2 of data valid on device 1 only. *)
Lemma outdated_region_is_copied_and_marked_witness :
  exists st' dr1 d new,
    submit_requirement 1 (access_state write 1000)
    = Some (make_success, st') /\
    dispatched st' = d :: new /\
    copy_from_first_source dr1 dev2 0 1 rect_0_50 d /\
    regions st' 0
    = mark_range_current dr1 dev2 (fst rect_0_50) (snd rect_0_50).
Proof.
  set (st' := match submit_requirement 1 (access_state write 1000) with
              | Some (_, s) => s
              | None => access_state write 1000
              end).
  assert (Hrun : submit_requirement 1 (access_state write 1000)
                 = Some (make_success, st'))
    by (vm_compute; reflexivity).
  assert (Hsourced : forall dr1,
             allocation_step dev2 (regions (access_state write 1000) 0) dr1 ->
             exists region rest source others,
               get_outdated_regions dr1 dev2 (fst rect_0_50) (snd rect_0_50)
               = region :: rest /\
               get_update_source_candidates dr1 dev2 region
               = source :: others).
  { intros dr1 [[_ ->]|[_ (q & _ & ->)]];
      (exists rect_0_50, [], (dev1, rect_0_50), []; split; reflexivity). }
  destruct (outdated_region_is_copied_and_marked
              (data_region := simple_data_region)
              (backends := simple_backends)
              1 (access_state write 1000) eq_refl eq_refl eq_refl eq_refl
              Hsourced Hrun)
    as (dr1 & region & rest & d & new & Hstep & Hregions & Hd & Hcopy & _
        & Hmark).
  assert (Hregion : region = rect_0_50).
  { destruct Hstep as [[_ ->]|[_ (q & _ & ->)]];
      now injection Hregions as <- _. }
  subst region. exists st', dr1, d, new. auto.
Defined.

(** Scenario 3: a discard-write access on device 2 of data valid on
    device 1. *)
Lemma discard_requirement_outcome_witness :
  exists st',
    submit_requirement 1 (access_state discard_write 1000)
    = Some (make_success, st') /\
    dispatched st' = [] /\
    is_virtual (nodes st' 1) = true /\
    allocation_step dev2 (buffer_100 [(dev1, rect_0_50)]) (regions st' 0).
Proof.
  set (st' := match submit_requirement 1 (access_state discard_write 1000)
              with
              | Some (_, s) => s
              | None => access_state discard_write 1000
              end).
  assert (Hrun : submit_requirement 1 (access_state discard_write 1000)
                 = Some (make_success, st'))
    by (vm_compute; reflexivity).
  destruct (discard_requirement_outcome
              (data_region := simple_data_region)
              (backends := simple_backends)
              1 (access_state discard_write 1000) eq_refl eq_refl
              (or_introl eq_refl) Hrun)
    as (Hd & Hout).
  destruct (Hout eq_refl) as (dr1 & Hstep & Hnone & _).
  destruct (Hnone eq_refl) as (Hv & _ & Hr).
  exists st'. split; [exact Hrun|]. split; [exact Hd|].
  split; [exact Hv|].
  replace (regions st' 0) with dr1 by (symmetry; exact Hr). exact Hstep.
Defined.

End LevelZeroExamples.

Section LiveExamples.

#[local] Existing Instance live_backends.

Lemma other_requirement_is_virtual_witness :
  exists st',
    submit_requirement 1 other_requirement_state = Some (make_success, st') /\
    is_virtual (nodes st' 1) = true /\
    get_event (nodes st' 1) = Some ready_event.
Proof.
  destruct (other_requirement_is_virtual
              (data_region := simple_data_region) (backends := live_backends)
              1 other_requirement_state eq_refl eq_refl eq_refl)
    as (st' & Hrun & _ & _ & Hv & He & _).
  exists st'. auto.
Defined.

(** The kernel of node 0 is dispatched once; its submitted requirement,
    listed twice, is its only predecessor. *)
Lemma submit_with_submitted_requirements_witness :
  exists st' preds,
    dag_direct_scheduler_submit 0 submitted_requirement_state
    = Some (tt, st') /\
    dispatched st' = [mk_dispatch 2 0 (kernel_operation 7) preds] /\
    NoDup preds /\
    registry st' = [0] /\
    errors st' = [] /\
    allocations st' = [].
Proof.
  assert (Hall : forall r,
             In r (get_requirements (nodes submitted_requirement_state 0)) ->
             is_submitted (nodes submitted_requirement_state r) = true)
    by (intros r [<-|[<-|[]]]; reflexivity).
  destruct (submit_with_submitted_requirements
              (data_region := simple_data_region) (backends := live_backends)
              0 submitted_requirement_state (target := dev2) (e := 2)
              eq_refl eq_refl Hall eq_refl)
    as (st' & preds & Hrun & Hd & Hnd & _ & Hg & He & Ha & _).
  exists st', preds.
  split; [exact Hrun|]. split; [exact Hd|]. split; [exact Hnd|].
  split; [exact Hg|]. split; [exact He|exact Ha].
Defined.

(** Scenario 1: the one outdated region is copied from device 1. *)
Lemma copies_from_first_sources_witness :
  exists st' new,
    for_each_explicit_operation 1 (requirement_op_handler 1) make_success
                                (access_state read 1000)
    = Some (make_success, st') /\
    dispatched st' = new /\
    Forall2 (copy_from_first_source (buffer_100 [(dev1, rect_0_50)]) dev2 0 1)
            [rect_0_50] new /\
    errors st' = [].
Proof.
  destruct (copies_from_first_sources
              (data_region := simple_data_region) (backends := live_backends)
              live_backends_executors 1 make_success
              (access_state read 1000) eq_refl eq_refl)
    as (st' & new & covered & Hrun & Hd & Hf & _
        & [(Hc & He & _)|(region & rest & Hc & Hnone & _)]).
  - exists st', new. split; [exact Hrun|]. split; [exact Hd|].
    split; [|exact He]. rewrite Hc in Hf. exact Hf.
  - exfalso. vm_compute in Hc.
    destruct covered as [|c covered].
    + injection Hc as <-. discriminate Hnone.
    + injection Hc as _ Hc. destruct covered; discriminate Hc.
Defined.

Lemma submit_registers_or_reports_witness :
  exists st' new_errs,
    dag_direct_scheduler_submit 0 predecessor_state = Some (tt, st') /\
    errors st' = new_errs /\
    (registry st' = [] -> new_errs <> [] /\ is_cancelled (nodes st' 0) = true).
Proof.
  destruct (submit_registers_or_reports
              (data_region := simple_data_region) (backends := live_backends)
              sr_get_memory_of_allocation sr_has_allocation_after_add
              live_backends_executors live_backends_allocators
              0 predecessor_state)
    as (st' & new_errs & Hrun & He & _ & _ & Hsame).
  exists st', new_errs. auto.
Defined.

Lemma resolution_fails_by_allocation_only_witness :
  exists res st',
    submit_requirement 1 (access_state read 100) = Some (res, st') /\
    (res = make_success \/ res = make_error lazy_allocation_failed).
Proof.
  destruct (resolution_fails_by_allocation_only
              (data_region := simple_data_region) (backends := live_backends)
              sr_get_memory_of_allocation sr_has_allocation_after_add
              live_backends_executors live_backends_allocators
              1 (access_state read 100))
    as (res & st' & new_errs & Hrun & _ & [[Hres _]|[Hres _]] & _);
    exists res, st'; auto.
Defined.

Lemma own_operation_is_dispatched_last_witness :
  exists st',
    dag_direct_scheduler_submit 0 submitted_requirement_state
    = Some (tt, st') /\
    (registry st' = [] \/
     exists copies e preds,
       dispatched st'
       = copies ++ [mk_dispatch e 0 (kernel_operation 7) preds]).
Proof.
  destruct (own_operation_is_dispatched_last
              (data_region := simple_data_region) (backends := live_backends)
              sr_get_memory_of_allocation sr_has_allocation_after_add
              live_backends_executors live_backends_allocators
              0 submitted_requirement_state (target := dev2)
              eq_refl eq_refl)
    as (st' & Hrun & [[_ Hg]|(copies & e & preds & Hd & _)]).
  - exists st'. split; [exact Hrun|]. left. exact Hg.
  - exists st'. split; [exact Hrun|]. right. exists copies, e, preds.
    exact Hd.
Defined.

End LiveExamples.
